(** * A shallow embedding of the trend-analysis engine of loki

    Sources: [src/utils/trend_analyzer.py] (class [TrendAnalyzer]) and
    [src/utils/google_trends_client.py] ([_calculate_similarity]).

    Conventions of the embedding:
    - Python strings are modelled as [String.string] over ASCII; the
      Unicode predicates used by [re] ([\w], [\s]) and by [str.split]
      and [str.lower] are given their ASCII restriction.
    - Python numbers of the frequency and scoring code are modelled as
      exact rationals [Q]; the spike detector, which takes square roots,
      is modelled over the reals [R].
    - A Python exception is an [Err] value of a small result type.
    - [list.sort] and [sorted] (Timsort, stable) are modelled by a stable
      insertion sort; [reverse=True] keeps equal keys in input order. *)

From Stdlib Require Import List Bool Arith Lia ZArith QArith Ascii String.
From Stdlib Require Import Sorted Permutation Reals Lra.
From Stdlib Require Lqa OrdersEx.
From stdpp Require Import base gmap sets strings.
Import ListNotations.

(** ** Generic helpers: stable sorting, as Python's [sort(reverse=True)] *)
Module PySort.
Section Sort.
Context {A : Type}.
(** [ltb x y] is Python's [key(x) < key(y)]. *)
Variable ltb : A -> A -> bool.

(** Insert [x] after every element whose key is not smaller than its own:
    equal keys keep their input order, as in a stable descending sort. *)
Fixpoint insert_desc (x : A) (l : list A) : list A :=
  match l with
  | [] => [x]
  | y :: ys => if ltb y x then x :: y :: ys else y :: insert_desc x ys
  end.

(** [sorted(l, key=..., reverse=True)]: elements are inserted left to
    right into the already sorted prefix. *)
Definition sort_desc (l : list A) : list A :=
  fold_left (fun acc x => insert_desc x acc) l [].

Definition ge_key (x y : A) : Prop := ltb x y = false.

Hypothesis ltb_asym : forall x y, ltb x y = true -> ltb y x = false.

Lemma insert_desc_sorted x l :
  Sorted ge_key l -> Sorted ge_key (insert_desc x l).
Proof.
  induction 1 as [|y ys Hs IH Hhd]; simpl.
  - repeat constructor.
  - destruct (ltb y x) eqn:E.
    + constructor; [constructor; assumption|].
      constructor. unfold ge_key. apply ltb_asym. exact E.
    + constructor; [exact IH|].
      destruct ys as [|z zs]; simpl.
      * constructor. exact E.
      * inversion Hhd; subst. destruct (ltb z x); constructor; assumption.
Qed.

Lemma sort_desc_sorted_aux l acc :
  Sorted ge_key acc -> Sorted ge_key (fold_left (fun acc x => insert_desc x acc) l acc).
Proof.
  revert acc; induction l as [|x l IH]; intros acc H; simpl; [exact H|].
  apply IH, insert_desc_sorted, H.
Qed.

Lemma sort_desc_sorted l : Sorted ge_key (sort_desc l).
Proof. apply sort_desc_sorted_aux. constructor. Qed.

End Sort.

Lemma insert_desc_perm {A} (ltb : A -> A -> bool) x l :
  Permutation (insert_desc ltb x l) (x :: l).
Proof.
  induction l as [|y ys IH]; simpl; [reflexivity|].
  destruct (ltb y x); [reflexivity|].
  rewrite IH. apply perm_swap.
Qed.

Lemma sort_desc_perm_aux {A} (ltb : A -> A -> bool) l acc :
  Permutation (fold_left (fun acc x => insert_desc ltb x acc) l acc) (rev l ++ acc).
Proof.
  revert acc; induction l as [|x l IH]; intros acc; simpl; [reflexivity|].
  rewrite IH, insert_desc_perm, <- app_assoc. simpl.
  apply Permutation_app_head. reflexivity.
Qed.

Lemma sort_desc_perm {A} (ltb : A -> A -> bool) l :
  Permutation (sort_desc ltb l) l.
Proof.
  unfold sort_desc. rewrite sort_desc_perm_aux, app_nil_r.
  symmetry. apply Permutation_rev.
Qed.

(** [l.sort(key=...)], ascending and stable: [x] goes before the first
    element whose key is larger than its own. *)
Fixpoint insert_asc {A} (ltb : A -> A -> bool) (x : A) (l : list A) : list A :=
  match l with
  | [] => [x]
  | y :: ys => if ltb x y then x :: y :: ys else y :: insert_asc ltb x ys
  end.

Definition sort_asc {A} (ltb : A -> A -> bool) (l : list A) : list A :=
  fold_left (fun acc x => insert_asc ltb x acc) l [].

Lemma insert_asc_length {A} (ltb : A -> A -> bool) x l :
  length (insert_asc ltb x l) = S (length l).
Proof.
  induction l as [|y ys IH]; simpl; [reflexivity|].
  destruct (ltb x y); simpl; [reflexivity|]. rewrite IH. reflexivity.
Qed.

Lemma sort_asc_length {A} (ltb : A -> A -> bool) l :
  length (sort_asc ltb l) = length l.
Proof.
  unfold sort_asc.
  assert (H : forall acc, length (fold_left (fun acc x => insert_asc ltb x acc) l acc)
                          = (length l + length acc)%nat).
  { induction l as [|x l IH]; intros acc; simpl; [reflexivity|].
    rewrite IH, insert_asc_length. lia. }
  rewrite H. simpl. lia.
Qed.
End PySort.

(** Python's [x < y] on numbers modelled as [Q]. *)
Definition Qlt_bool (x y : Q) : bool := negb (Qle_bool y x).

Lemma Qlt_bool_iff x y : Qlt_bool x y = true <-> (x < y)%Q.
Proof.
  unfold Qlt_bool. rewrite negb_true_iff.
  split; intros H.
  - apply Qnot_le_lt. intros H'. apply Qle_bool_iff in H'. congruence.
  - destruct (Qle_bool y x) eqn:E; [|reflexivity].
    apply Qle_bool_iff in E. exfalso. apply (Qlt_not_le _ _ H E).
Qed.

Lemma Qlt_bool_asym x y : Qlt_bool x y = true -> Qlt_bool y x = false.
Proof.
  intros H. apply Qlt_bool_iff in H.
  destruct (Qlt_bool y x) eqn:E; [|reflexivity].
  apply Qlt_bool_iff in E. exfalso. apply (Qlt_not_le _ _ H). apply Qlt_le_weak, E.
Qed.

Lemma Qlt_bool_false x y : Qlt_bool x y = false -> (y <= x)%Q.
Proof.
  unfold Qlt_bool. rewrite negb_false_iff. apply Qle_bool_iff.
Qed.

(** ** Text processing: [re.sub(r'[^\w\s]', ' ', text.lower()).split()] *)
Module Text.
Open Scope char_scope.

(** [str.isspace] on ASCII: space, \t \n \v \f \r and \x1c-\x1f. *)
Definition is_space (c : ascii) : bool :=
  let n := nat_of_ascii c in
  (n =? 32)%nat || ((9 <=? n)%nat && (n <=? 13)%nat) || ((28 <=? n)%nat && (n <=? 31)%nat).

(** [\w] on ASCII: letters, digits and underscore. *)
Definition is_word (c : ascii) : bool :=
  let n := nat_of_ascii c in
  ((48 <=? n)%nat && (n <=? 57)%nat) || ((65 <=? n)%nat && (n <=? 90)%nat)
  || ((97 <=? n)%nat && (n <=? 122)%nat) || (n =? 95)%nat.

(** [str.lower] on ASCII. *)
Definition lower_char (c : ascii) : ascii :=
  let n := nat_of_ascii c in
  if ((65 <=? n)%nat && (n <=? 90)%nat) then ascii_of_nat (n + 32) else c.

Fixpoint lower (s : string) : string :=
  match s with
  | EmptyString => EmptyString
  | String c s' => String (lower_char c) (lower s')
  end.

(** [re.sub(r'[^\w\s]', ' ', s)]. *)
Fixpoint sub_non_word (s : string) : string :=
  match s with
  | EmptyString => EmptyString
  | String c s' =>
      String (if is_word c || is_space c then c else " ") (sub_non_word s')
  end.

(** [str.split()] with no separator: runs of whitespace separate words,
    no empty words.  [cur] is the word being read, reversed. *)
Fixpoint split_aux (s : string) (cur : list ascii) : list string :=
  match s with
  | EmptyString =>
      match cur with [] => [] | _ => [string_of_list_ascii (rev cur)] end
  | String c s' =>
      if is_space c then
        match cur with
        | [] => split_aux s' []
        | _ => string_of_list_ascii (rev cur) :: split_aux s' []
        end
      else split_aux s' (c :: cur)
  end.

Definition split (s : string) : list string := split_aux s [].

(** [' '.join(ws)]. *)
Fixpoint join_space (ws : list string) : string :=
  match ws with
  | [] => EmptyString
  | [w] => w
  | w :: ws' => (w ++ " " ++ join_space ws')%string
  end.

Definition tokens (text : string) : list string := split (sub_non_word (lower text)).

Example tokens_ex : tokens "Hello, AI-World!" = ["hello"; "ai"; "world"]%string.
Proof. reflexivity. Qed.

End Text.

(** ** [TrendAnalyzer]: keywords and n-grams *)
Module Keywords.
Import Text.

(** [self.stop_words]. *)
Definition stop_words : list string := [
  "the"; "a"; "an"; "and"; "or"; "but"; "in"; "on"; "at"; "to"; "for";
  "of"; "with"; "by"; "is"; "are"; "was"; "were"; "be"; "been"; "have";
  "has"; "had"; "do"; "does"; "did"; "will"; "would"; "could"; "should";
  "this"; "that"; "these"; "those"; "i"; "you"; "he"; "she"; "it"; "we"; "they";
  "me"; "him"; "her"; "us"; "them"; "my"; "your"; "his"; "her"; "its"; "our"; "their"]%string.

Definition is_stop (w : string) : bool :=
  existsb (fun s => String.eqb s w) stop_words.

(** [extract_keywords(text, min_length)]. *)
Definition extract_keywords (text : string) (min_length : nat) : list string :=
  List.filter (fun w => negb (is_stop w) && (min_length <=? String.length w)%nat) (tokens text).

(** The windows [words[i:i+n]] for [i in range(len(words) - n + 1)]. *)
Fixpoint windows (n : nat) (ws : list string) : list (list string) :=
  match ws with
  | [] => []
  | _ :: ws' =>
      if (n <=? length ws)%nat then firstn n ws :: windows n ws' else []
  end.

(** [extract_ngrams(text, n)] for [n >= 1]. *)
Definition extract_ngrams (text : string) (n : nat) : list string :=
  map join_space
    (List.filter (fun win => negb (existsb is_stop win)) (windows n (tokens text))).

Example ngrams_ex :
  extract_ngrams "The AI model is new" 2 = ["ai model"]%string.
Proof. reflexivity. Qed.

End Keywords.

(** ** [collections.Counter] and [analyze_article_frequency] *)
Module Frequency.
Import Text Keywords PySort.

(** An article is a dict; a missing key is [None]. *)
Record article := mkArticle {
  a_content : option string;
  a_title : option string;
  a_source : option string
}.

Definition get_str (o : option string) : string :=
  match o with Some s => s | None => EmptyString end.

(** A [Counter]: keys in first-insertion order, as a Python dict keeps them. *)
Definition counter := list (string * nat).

Fixpoint counter_add (w : string) (c : counter) : counter :=
  match c with
  | [] => [(w, 1%nat)]
  | (k, n) :: c' => if String.eqb k w then (k, S n) :: c' else (k, n) :: counter_add w c'
  end.

(** [Counter(ws)]. *)
Definition Counter (ws : list string) : counter :=
  fold_left (fun c w => counter_add w c) ws [].

(** [d.get(w, 0)] on a counter, or a dict built from one. *)
Fixpoint counter_get (c : counter) (w : string) : option nat :=
  match c with
  | [] => None
  | (k, n) :: c' => if String.eqb k w then Some n else counter_get c' w
  end.

(** [Counter.most_common(n)]: [heapq.nlargest(n, items, key=count)], which is
    [sorted(items, key=count, reverse=True)[:n]]. *)
Definition most_common (n : nat) (c : counter) : counter :=
  firstn n (sort_desc (fun x y : string * nat => (snd x <? snd y)%nat) c).

(** [article.get('content', '') + ' ' + article.get('title', '')]. *)
Definition article_text (a : article) : string :=
  (get_str (a_content a) ++ " " ++ get_str (a_title a))%string.

Definition all_keywords (articles : list article) : list string :=
  concat (map (fun a => extract_keywords (article_text a) 3) articles).

Definition all_bigrams (articles : list article) : list string :=
  concat (map (fun a => extract_ngrams (article_text a) 2) articles).

Record frequency_data := mkFreq {
  f_keywords : counter;
  f_bigrams : counter
}.

(** [analyze_article_frequency(articles)]. *)
Definition analyze_article_frequency (articles : list article) : frequency_data :=
  mkFreq (most_common 20 (Counter (all_keywords articles)))
         (most_common 15 (Counter (all_bigrams articles))).

Lemma counter_add_get w c k :
  counter_get (counter_add w c) k =
  if String.eqb w k then Some (match counter_get c k with Some n => S n | None => 1%nat end)
  else counter_get c k.
Proof.
  induction c as [|[k' n] c IH]; simpl.
  - destruct (String.eqb w k); reflexivity.
  - destruct (String.eqb k' w) eqn:E1; simpl.
    + apply String.eqb_eq in E1; subst k'.
      destruct (String.eqb w k); reflexivity.
    + destruct (String.eqb k' k) eqn:E2.
      * apply String.eqb_eq in E2; subst k'.
        destruct (String.eqb w k) eqn:E3; [|reflexivity].
        apply String.eqb_eq in E3; subst. rewrite String.eqb_refl in E1. discriminate.
      * exact IH.
Qed.

(** The count held by a counter, [0] for a missing key. *)
Definition count_of (c : counter) (w : string) : nat :=
  match counter_get c w with Some n => n | None => 0%nat end.

Lemma Counter_count_aux ws c k :
  count_of (fold_left (fun c w => counter_add w c) ws c) k =
  (count_of c k + count_occ string_dec ws k)%nat.
Proof.
  revert c; induction ws as [|w ws IH]; intros c; simpl; [lia|].
  rewrite IH. unfold count_of at 1. rewrite counter_add_get.
  destruct (String.eqb w k) eqn:E.
  - apply String.eqb_eq in E; subst.
    destruct (string_dec k k) as [_|n]; [|congruence].
    unfold count_of. destruct (counter_get c k); lia.
  - destruct (string_dec w k) as [e|_]; [subst; rewrite String.eqb_refl in E; discriminate|].
    unfold count_of. lia.
Qed.

Lemma Counter_count ws k : count_of (Counter ws) k = count_occ string_dec ws k.
Proof. unfold Counter. rewrite Counter_count_aux. reflexivity. Qed.

Lemma concat_map_perm {B} (f : article -> list B) l l' :
  Permutation l l' -> Permutation (concat (map f l)) (concat (map f l')).
Proof.
  induction 1; simpl.
  - constructor.
  - apply Permutation_app_head. assumption.
  - rewrite !app_assoc. apply Permutation_app_tail, Permutation_app_comm.
  - etransitivity; eassumption.
Qed.

End Frequency.

(** ** [detect_emerging_topics] *)
Module Topics.
Import Frequency PySort.
Open Scope Q_scope.

Inductive topic_type := Keyword | Bigram.

Record topic := mkTopic {
  t_topic : string;
  t_type : topic_type;
  t_frequency : nat;
  t_relevance : Q
}.

(** [count / len(articles) if articles else 0]. *)
Definition relevance (articles : list article) (count : nat) : Q :=
  match articles with
  | [] => 0
  | _ => inject_Z (Z.of_nat count) / inject_Z (Z.of_nat (length articles))
  end.

(** The loop over [frequency_data[...].items()] with [if count >= 2]. *)
Definition topics_of (articles : list article) (ty : topic_type) (c : counter) : list topic :=
  map (fun kv => mkTopic (fst kv) ty (snd kv) (relevance articles (snd kv)))
      (List.filter (fun kv => (2 <=? snd kv)%nat) c).

(** [detect_emerging_topics(articles)].  The result of
    [calculate_source_diversity] is computed by the source but never read;
    it cannot raise (its [urlparse] sits in a [try]). *)
Definition detect_emerging_topics (articles : list article) : list topic :=
  let fd := analyze_article_frequency articles in
  let all_topics := topics_of articles Keyword (f_keywords fd)
                    ++ topics_of articles Bigram (f_bigrams fd) in
  firstn 15 (sort_desc (fun x y => Qlt_bool (t_relevance x) (t_relevance y)) all_topics).

End Topics.

(** ** [calculate_trend_scores] *)
Module Scoring.
Import Frequency PySort.
Open Scope Q_scope.

(** Substring test [sub in s]. *)
Fixpoint contains (sub s : string) : bool :=
  String.prefix sub s ||
  match s with EmptyString => false | String _ s' => contains sub s' end.

(** [s.split('/')] (empty fields kept). *)
Fixpoint split_slash_aux (s : string) (cur : list ascii) : list string :=
  match s with
  | EmptyString => [string_of_list_ascii (rev cur)]
  | String c s' =>
      if Ascii.eqb c "/"%char then string_of_list_ascii (rev cur) :: split_slash_aux s' []
      else split_slash_aux s' (c :: cur)
  end.

Definition split_slash (s : string) : list string := split_slash_aux s [].

(** [source.split('/')[2] if '//' in source else source]; a source holding
    ["//"] always splits into at least three fields, so the index is in range. *)
Definition domain_of (source : string) : string :=
  if contains "//" source then nth 2 (split_slash source) EmptyString else source.

Definition authority_of_domain (domain : string) : Q :=
  if contains "youtube.com" domain then 0.8
  else if contains "reddit.com" domain then 0.6
  else if contains "github.com" domain || contains "stackoverflow.com" domain then 0.9
  else 0.7.

(** [d[k] = v] on an insertion-ordered dict. *)
Fixpoint dict_set {V} (k : string) (v : V) (d : list (string * V)) : list (string * V) :=
  match d with
  | [] => [(k, v)]
  | (k', v') :: d' => if String.eqb k' k then (k, v) :: d' else (k', v') :: dict_set k v d'
  end.

Fixpoint dict_get {V} (d : list (string * V)) (k : string) : option V :=
  match d with
  | [] => None
  | (k', v) :: d' => if String.eqb k' k then Some v else dict_get d' k
  end.

Definition get_default {V} (o : option V) (dflt : V) : V :=
  match o with Some v => v | None => dflt end.

(** The [source_authority] dict built from the articles. *)
Definition source_authority (articles : list article) : list (string * Q) :=
  fold_left (fun d a =>
      let source := get_str (a_source a) in
      if String.eqb source EmptyString then d
      else dict_set source (authority_of_domain (domain_of source)) d)
    articles [].

(** A trend dict: the fields read or written by the scoring code. *)
Record trend := mkTrend {
  tr_name : string;
  tr_supporting : list article;   (* [trend.get('supporting_articles', [])] *)
  tr_composite : option Q;
  tr_recency : option Q;
  tr_frequency : option Q;
  tr_authority : option Q
}.

Definition py_min (a b : Q) : Q := if Qlt_bool b a then b else a.

Definition qlen {A} (l : list A) : Q := inject_Z (Z.of_nat (length l)).

(** The body of [for trend in trends:]. *)
Definition score_trend (sa : list (string * Q)) (t : trend) : trend :=
  let supporting := tr_supporting t in
  let frequency_score := py_min (qlen supporting / 5) 1 in
  let recency_score :=
    match supporting with
    | [] => 0.5
    | _ => let recent_count := qlen supporting in py_min (recent_count / qlen supporting) 1
    end in
  let authority_score :=
    match supporting with
    | [] => 0.5
    | _ =>
        let total := fold_left (fun acc a =>
                       acc + get_default (dict_get sa (get_str (a_source a))) 0.5) supporting 0 in
        total / qlen supporting
    end in
  let composite_score := 0.4 * recency_score + 0.3 * frequency_score + 0.3 * authority_score in
  mkTrend (tr_name t) supporting (Some composite_score) (Some recency_score)
          (Some frequency_score) (Some authority_score).

(** [calculate_trend_scores(trends, articles)]. *)
Definition calculate_trend_scores (trends : list trend) (articles : list article) : list trend :=
  match trends, articles with
  | [], _ | _, [] => trends
  | _, _ =>
      let sa := source_authority articles in
      sort_desc (fun x y => Qlt_bool (get_default (tr_composite x) 0) (get_default (tr_composite y) 0))
                (map (score_trend sa) trends)
  end.

End Scoring.

(** ** Trend history entries (dicts), over a number type [N] *)
Module History.

Record entry (N : Type) := mkEntry {
  e_name : option string;
  e_topic : option string;
  e_timestamp : option string;
  e_composite : option N;
  e_relevance : option N;
  e_frequency : option N
}.
Arguments mkEntry {N}.
Arguments e_name {N}. Arguments e_topic {N}. Arguments e_timestamp {N}.
Arguments e_composite {N}. Arguments e_relevance {N}. Arguments e_frequency {N}.

Definition get_or {A} (o : option A) (d : A) : A :=
  match o with Some x => x | None => d end.

(** [e.get('name', e.get('topic', dflt))]. *)
Definition name_of {N} (dflt : string) (e : entry N) : string :=
  get_or (e_name e) (get_or (e_topic e) dflt).

(** [e.get('composite_score', e.get('relevance_score', 0))]. *)
Definition score_of {N} (zero : N) (e : entry N) : N :=
  get_or (e_composite e) (get_or (e_relevance e) zero).

(** Python's [<] on [str]: lexicographic on code points. *)
Definition str_ltb (a b : string) : bool :=
  match String.compare a b with Lt => true | _ => false end.

(** [defaultdict(list)] filled by [d[k].append(v)]: keys in first-insertion
    order. *)
Fixpoint group_add {V} (k : string) (v : V) (d : list (string * list V)) : list (string * list V) :=
  match d with
  | [] => [(k, [v])]
  | (k', vs) :: d' => if String.eqb k' k then (k', vs ++ [v]) :: d' else (k', vs) :: group_add k v d'
  end.

Definition group_by {A V} (key : A -> string) (val : A -> V) (l : list A) : list (string * list V) :=
  fold_left (fun d x => group_add (key x) (val x) d) l [].

Lemma group_add_keys {V} k (v : V) d :
  map fst (group_add k v d) = if existsb (fun k' => String.eqb k' k) (map fst d) then map fst d
                              else map fst d ++ [k].
Proof.
  induction d as [|[k' vs] d IH]; simpl; [reflexivity|].
  destruct (String.eqb k' k) eqn:E; simpl; [reflexivity|].
  rewrite IH. destruct (existsb _ _); reflexivity.
Qed.

Lemma group_add_nodup {V} k (v : V) d :
  NoDup (map fst d) -> NoDup (map fst (group_add k v d)).
Proof.
  intros H. rewrite group_add_keys.
  destruct (existsb (fun k' => String.eqb k' k) (map fst d)) eqn:E; [exact H|].
  apply NoDup_app. split; [exact H|]. split; [|apply NoDup_singleton].
  intros x Hx Hk. apply list_elem_of_singleton in Hk. subst x.
  apply list_elem_of_In in Hx.
  assert (Hin : existsb (fun k' => String.eqb k' k) (map fst d) = true).
  { apply existsb_exists. exists k. split; [exact Hx | apply String.eqb_refl]. }
  congruence.
Qed.

Lemma group_by_nodup {A V} (key : A -> string) (val : A -> V) l :
  NoDup (map fst (group_by key val l)).
Proof.
  unfold group_by.
  assert (H : forall d, NoDup (map fst d) ->
            NoDup (map fst (fold_left (fun d x => group_add (key x) (val x) d) l d))).
  { induction l as [|x l IH]; intros d Hd; simpl; [exact Hd|].
    apply IH, group_add_nodup, Hd. }
  apply H. constructor.
Qed.

End History.

(** ** [analyze_trend_persistence] and [predict_emerging_trends] *)
Module Predict.
Import History PySort Scoring.
Open Scope Q_scope.

Inductive direction := Stable | Increasing | Decreasing.

Record persistence := mkPersistence {
  p_lifespan_days : Z;
  p_entry_count : nat;
  p_trend_direction : direction;
  p_volatility : Q;
  p_current_score : Q;
  p_peak_score : Q;
  p_first_seen : string;
  p_last_seen : string
}.

Section Persistence.
(** [datetime.now().isoformat()], the default timestamp. *)
Variable now : string.
(** [(fromisoformat(last) - fromisoformat(first)).days] after the [Z]
    replacement, [None] when parsing raises (the [except] sets 0). *)
Variable days_between : string -> string -> option Z.
(** [statistics.stdev] on lists of two or more scores. *)
Variable stdev : list Q -> Q.

Definition hist_point (e : entry Q) : string * Q :=
  (get_or (e_timestamp e) now, score_of 0 e).

Definition py_max (l : list Q) (d : Q) : Q :=
  match l with
  | [] => d
  | x :: xs => fold_left (fun m y => if Qlt_bool m y then y else m) xs x
  end.

Definition last_or {A} (l : list A) (d : A) : A := List.last l d.

(** The per-trend body of the loop, for a group of at least two entries. *)
Definition persistence_of (entries : list (string * Q)) : persistence :=
  let entries := sort_asc (fun x y => str_ltb (fst x) (fst y)) entries in
  let first_seen := fst (hd (EmptyString, 0) entries) in
  let last_seen := fst (last_or entries (EmptyString, 0)) in
  let lifespan_days := get_or (days_between first_seen last_seen) 0%Z in
  let scores := map snd entries in
  let s0 := hd 0 scores in
  let sl := last_or scores 0 in
  let trend_direction :=
    if (2 <=? length scores)%nat then
      if Qlt_bool (s0 * 1.1) sl then Increasing
      else if Qlt_bool sl (s0 * 0.9) then Decreasing
      else Stable
    else Stable in
  let volatility := if (1 <? length scores)%nat then stdev scores else 0 in
  mkPersistence lifespan_days (length entries) trend_direction volatility sl
                (py_max scores 0) first_seen last_seen.

(** [analyze_trend_persistence(trend_history)]. *)
Definition analyze_trend_persistence (history : list (entry Q)) : list (string * persistence) :=
  let groups := group_by (name_of "unknown") hist_point history in
  fold_left (fun acc g =>
      if (length (snd g) <? 2)%nat then acc
      else acc ++ [(fst g, persistence_of (snd g))]) groups [].

Inductive prediction_type := NewEmerging | Accelerating.
Inductive lifespan := Short | Medium | Long.

Record pattern := mkPattern {
  pt_trend_name : string;
  pt_prediction_type : prediction_type;
  pt_confidence : Q;
  pt_predicted_lifespan : lifespan
}.

(** The [for trend in current_trends:] loop of [predict_emerging_trends]
    ([emerging_patterns] before the sort). *)
Definition emerging_patterns (pers : list (string * persistence)) (current : list (entry Q))
    : list pattern :=
  flat_map (fun t =>
      let trend_name := name_of EmptyString t in
      let current_score := score_of 0 t in
      match dict_get pers trend_name with
      | None =>
          if Qlt_bool 0.6 current_score then
            [mkPattern trend_name NewEmerging (py_min current_score 0.9)
                       (if Qlt_bool 0.8 current_score then Short else Medium)]
          else []
      | Some h =>
          match p_trend_direction h with
          | Increasing =>
              if Qlt_bool (p_peak_score h) current_score then
                [mkPattern trend_name Accelerating 0.8
                           (if (7 <? p_lifespan_days h)%Z then Long else Medium)]
              else []
          | _ => []
          end
      end) current.

(** [predict_emerging_trends(trend_history, current_trends)]. *)
Definition predict_emerging_trends (history current : list (entry Q)) : list pattern :=
  match history, current with
  | [], _ | _, [] => []
  | _, _ =>
      let pers := analyze_trend_persistence history in
      firstn 5 (sort_desc (fun x y => Qlt_bool (pt_confidence x) (pt_confidence y))
                          (emerging_patterns pers current))
  end.

End Persistence.
End Predict.

(** ** [GoogleTrendsClient._calculate_similarity] *)
Module Similarity.
Open Scope Q_scope.

(** [set(s.split())]. *)
Definition word_set (s : string) : gset string := list_to_set (Text.split s).

(** [_calculate_similarity(str1, str2)]. *)
Definition calculate_similarity (str1 str2 : string) : Q :=
  let words1 := word_set str1 in
  let words2 := word_set str2 in
  if decide (words1 = ∅) then 0
  else if decide (words2 = ∅) then 0
  else
    let intersection := words1 ∩ words2 in
    let union := words1 ∪ words2 in
    if decide (union = ∅) then 0
    else inject_Z (Z.of_nat (size intersection)) / inject_Z (Z.of_nat (size union)).

End Similarity.

(** ** [detect_spikes], over the reals *)
Module Spikes.
Import History PySort.
Open Scope R_scope.

Inductive error := StatisticsError | IndexError.

Inductive result (A : Type) := Ok (a : A) | Err (e : error).
Arguments Ok {A}. Arguments Err {A}.

Definition bind {A B} (r : result A) (k : A -> result B) : result B :=
  match r with Ok a => k a | Err e => Err e end.
Notation "'let*' x ':=' r 'in' k" := (bind r (fun x => k))
  (at level 200, x name, r at level 100, k at level 200).

(** Python's [<] on floats. *)
Definition Rltb (x y : R) : bool := if Rlt_dec x y then true else false.

(** Python's normalisation of a slice bound [k] on a list of length [len]. *)
Definition slice_bound (k : Z) (len : nat) : nat :=
  if (k <? 0)%Z then Z.to_nat (Z.max 0 (k + Z.of_nat len)) else Z.to_nat (Z.min k (Z.of_nat len)).

(** [l[k:]] and [l[:k]]. *)
Definition slice_from {A} (l : list A) (k : Z) : list A := skipn (slice_bound k (length l)) l.
Definition slice_to {A} (l : list A) (k : Z) : list A := firstn (slice_bound k (length l)) l.

(** [l[k]], raising [IndexError] out of range. *)
Definition py_index {A} (l : list A) (k : Z) : result A :=
  let k' := if (k <? 0)%Z then (k + Z.of_nat (length l))%Z else k in
  if ((0 <=? k') && (k' <? Z.of_nat (length l)))%Z then
    match nth_error l (Z.to_nat k') with Some x => Ok x | None => Err IndexError end
  else Err IndexError.

Definition sum (l : list R) : R := fold_right Rplus 0 l.

(** [statistics.mean]. *)
Definition mean (l : list R) : result R :=
  match l with [] => Err StatisticsError | _ => Ok (sum l / INR (length l)) end.

(** [statistics.stdev] (sample standard deviation), defined for two or
    more points. *)
Definition stdev (l : list R) : result R :=
  if (length l <? 2)%nat then Err StatisticsError
  else
    let m := sum l / INR (length l) in
    Ok (sqrt (sum (map (fun x => (x - m) ^ 2) l) / INR (length l - 1))).

(** [statistics.stdev(b) if len(b) > 1 else 0]. *)
Definition baseline_std (b : list R) : R :=
  match stdev b with Ok s => s | Err _ => 0 end.

(** [_calculate_percentile(value, data)]. *)
Definition calculate_percentile (value : R) (data : list R) : R :=
  match data with
  | [] => 0
  | _ =>
      let sorted_data := sort_asc Rltb data in
      let count_below := length (List.filter (fun x => Rltb x value) sorted_data) in
      (INR count_below / INR (length sorted_data)) * 100
  end.

Inductive severity := Moderate | High | Critical.
Inductive spike_type := SpikeFrequency | SpikeScore.

Record spike := mkSpike {
  sp_trend_name : string;
  sp_timestamp : string;
  sp_z_score : R;
  sp_severity : severity;
  sp_current_score : R;
  sp_baseline_mean : R;
  sp_percentile : R;
  sp_frequency : R;
  sp_spike_type : spike_type
}.

(** [severity_order.get(severity, 0)]. *)
Definition severity_order (s : severity) : Z :=
  match s with Critical => 4 | High => 3 | Moderate => 2 end.

(** A point of a series: [{'timestamp', 'score', 'frequency'}]. *)
Record point := mkPoint { pt_timestamp : string; pt_score : R; pt_frequency : R }.

(** [(recent_scores, baseline_scores)]:
    [scores[-window_size:]] and
    [scores[:-window_size] if len(scores) > window_size else scores]. *)
Definition split_series {A} (window_size : Z) (scores : list A) : list A * list A :=
  (slice_from scores (- window_size),
   if (window_size <? Z.of_nat (length scores))%Z then slice_to scores (- window_size) else scores).

(** The loop [for i, score in enumerate(recent_scores)]. *)
Fixpoint scan (trend_name : string) (window_size : Z) (series : list point)
    (frequencies baseline_scores : list R) (baseline_mean baseline_std : R)
    (i : nat) (recent : list R) : result (list spike) :=
  match recent with
  | [] => Ok []
  | score :: rest =>
      let k := (- (window_size - Z.of_nat i))%Z in
      let continue_ := scan trend_name window_size series frequencies baseline_scores
                            baseline_mean baseline_std (S i) rest in
      if Rltb 0 baseline_std then
        let z_score := (score - baseline_mean) / baseline_std in
        let sev :=
          if Rle_dec 4 z_score then Some Critical
          else if Rle_dec 3 z_score then Some High
          else if Rle_dec 2 z_score then Some Moderate
          else None in
        match sev with
        | None => continue_
        | Some severity =>
            let percentile := calculate_percentile score baseline_scores in
            let* p := py_index series k in
            let* freq := (if (i <? length frequencies)%nat then py_index frequencies k else Ok 0) in
            let* fk := py_index frequencies k in
            let* m := mean (List.filter (fun f => Rltb 0 f) (slice_to frequencies (- window_size))) in
            let sp := mkSpike trend_name (pt_timestamp p) z_score severity score baseline_mean
                              percentile freq (if Rltb m fk then SpikeFrequency else SpikeScore) in
            let* rest' := continue_ in
            Ok (sp :: rest')
        end
      else continue_
  end.

(** The body of [for trend_name, series in trend_series.items()]. *)
Definition spikes_of_group (window_size : Z) (trend_name : string) (series : list point)
    : result (list spike) :=
  if (Z.of_nat (length series) <? window_size)%Z then Ok []
  else
    let series := sort_asc (fun x y => str_ltb (pt_timestamp x) (pt_timestamp y)) series in
    let scores := map pt_score series in
    let frequencies := map pt_frequency series in
    let (recent_scores, baseline_scores) := split_series window_size scores in
    match baseline_scores with
    | [] => Ok []
    | _ =>
        let* baseline_mean := mean baseline_scores in
        let baseline_std := baseline_std baseline_scores in
        scan trend_name window_size series frequencies baseline_scores baseline_mean
             baseline_std 0 recent_scores
    end.

(** [trend_series]: the history grouped by trend name. *)
Definition trend_series (now : string) (trend_data : list (entry R)) : list (string * list point) :=
  group_by (name_of "unknown")
           (fun d => mkPoint (get_or (e_timestamp d) now) (score_of 0 d) (get_or (e_frequency d) 0))
           trend_data.

(** [spikes.sort(key=lambda x: (severity_order[...], x['z_score']), reverse=True)]:
    Python's tuple [<]. *)
Definition spike_key_ltb (x y : spike) : bool :=
  (severity_order (sp_severity x) <? severity_order (sp_severity y))%Z
  || ((severity_order (sp_severity x) =? severity_order (sp_severity y))%Z
      && Rltb (sp_z_score x) (sp_z_score y)).

Fixpoint collect (window_size : Z) (groups : list (string * list point)) : result (list spike) :=
  match groups with
  | [] => Ok []
  | (n, series) :: gs =>
      let* s1 := spikes_of_group window_size n series in
      let* s2 := collect window_size gs in
      Ok (s1 ++ s2)
  end.

(** [detect_spikes(trend_data, window_size)]; [now] is the value of
    [datetime.now().isoformat()] used for a missing timestamp. *)
Definition detect_spikes (now : string) (trend_data : list (entry R)) (window_size : Z)
    : result (list spike) :=
  match trend_data with
  | [] => Ok []
  | _ =>
      if (Z.of_nat (length trend_data) <? window_size)%Z then Ok []
      else
        let* spikes := collect window_size (trend_series now trend_data) in
        Ok (sort_desc spike_key_ltb spikes)
  end.

End Spikes.

(** ** [GoogleTrendsClient.analyze_trend_correlation] *)
Module Correlation.
Import PySort Similarity.
Open Scope Q_scope.

Inductive correlation_type := StrongCorrelation | ModerateCorrelation.

(** A correlation dict. *)
Record correlation := mkCorrelation {
  c_user_trend : string;
  c_market_trend : string;
  c_similarity : Q;
  c_correlation_type : correlation_type
}.

(** The returned dict; the empty dict [{}] is [None]. *)
Record correlation_report := mkCorrelationReport {
  correlations : list correlation;
  total_correlations : nat;
  strong_correlations : nat
}.

(** The inner loop, over [market_trends], for one [user_trend]. *)
Definition correlation_row (user_trend : string) (market_trends : list string) : list correlation :=
  flat_map (fun market_trend =>
    let similarity := calculate_similarity (Text.lower user_trend) (Text.lower market_trend) in
    if Qlt_bool 0.3 similarity then
      [mkCorrelation user_trend market_trend similarity
         (if Qlt_bool 0.7 similarity then StrongCorrelation else ModerateCorrelation)]
    else []) market_trends.

(** The nested loop over [user_trends] and [market_trends]. *)
Definition correlation_pairs (user_trends market_trends : list string) : list correlation :=
  flat_map (fun user_trend => correlation_row user_trend market_trends) user_trends.

(** [analyze_trend_correlation(user_trends, market_trends)]. *)
Definition analyze_trend_correlation (user_trends market_trends : list string)
    : option correlation_report :=
  match user_trends, market_trends with
  | [], _ | _, [] => None
  | _, _ =>
      let cs := sort_desc (fun x y => Qlt_bool (c_similarity x) (c_similarity y))
                          (correlation_pairs user_trends market_trends) in
      Some (mkCorrelationReport (firstn 10 cs) (length cs)
              (length (List.filter (fun c => Qlt_bool 0.7 (c_similarity c)) cs)))
  end.

End Correlation.

(** ** [GoogleTrendsClient]: the keyword cache and the rate limiter *)
Module Cache.
Open Scope Q_scope.

Section Cache.
(** The cached result dicts. *)
Context {D : Type}.

(** [self.keyword_cache]: key to [(data, timestamp)]. *)
Definition cache := gmap string (D * Q).

(** The [expired_keys] collected by [_cleanup_expired_cache], at time
    [current_time]. *)
Definition expired_keys (current_time cache_ttl : Q) (c : cache) : list string :=
  map fst (List.filter (fun kv => Qlt_bool cache_ttl (current_time - snd (snd kv))) (map_to_list c)).

(** [_cleanup_expired_cache()]: [del self.keyword_cache[key]] for each
    expired key. *)
Definition cleanup_expired_cache (current_time cache_ttl : Q) (c : cache) : cache :=
  fold_left (fun c key => delete key c) (expired_keys current_time cache_ttl c) c.

End Cache.

(** [_rate_limit()], as a relation between [self.last_request_time] before
    and after the call.  [current_time] is the first [time.time()] reading;
    when [time.sleep(d)] is called the clock reads [woke >= current_time + d]
    after it; the new [last_request_time] is the final [time.time()]
    reading, taken no earlier than the previous one. *)
Inductive rate_limit (request_delay last_request_time : Q) : Q -> Prop :=
| rate_limit_sleep current_time woke now :
    current_time - last_request_time < request_delay ->
    current_time + (request_delay - (current_time - last_request_time)) <= woke ->
    woke <= now ->
    rate_limit request_delay last_request_time now
| rate_limit_go current_time now :
    ~ (current_time - last_request_time < request_delay) ->
    current_time <= now ->
    rate_limit request_delay last_request_time now.

End Cache.

(** ** [TrendAnalyzer.get_trending_topics] *)
Module TrendingTopics.
Import Text Frequency Topics Scoring Spikes.

(** An article dict with its [article.get('published', '')], which the
    [article] record does not carry. *)
Definition dated_article := (article * option string)%type.

(** A [supporting_articles] entry. *)
Record support := mkSupport { s_title : string; s_source : string; s_published : string }.

Definition support_of (a : dated_article) : support :=
  mkSupport (get_str (a_title (fst a))) (get_str (a_source (fst a))) (get_str (snd a)).

(** The inner loop: the articles whose lowered
    [content + ' ' + title] contains the lowered topic, before [[:3]]. *)
Definition supporting_of (topic : string) (articles : list dated_article) : list support :=
  map support_of
    (List.filter (fun a => contains (lower topic) (lower (article_text (fst a)))) articles).

(** [get_trending_topics(articles, limit)]: each trend with its
    [supporting_articles]. *)
Definition get_trending_topics (articles : list dated_article) (limit : Z)
    : list (topic * list support) :=
  let trends := detect_emerging_topics (map fst articles) in
  slice_to (map (fun t => (t, firstn 3 (supporting_of (t_topic t) articles))) trends) limit.

End TrendingTopics.

(** ** [GoogleTrendsClient]: category and community trends *)
Module Market.
Import Text Frequency PySort Scoring Spikes.
Open Scope Q_scope.

(** A market trend dict; keys a dict does not have are [None].  The
    constant ['geo'] and the ['timestamp'] of [datetime.now()] are left out. *)
Record market_trend := mkMarketTrend {
  m_query : string;
  m_category : string;
  m_relevance_score : Q;
  m_change_percent : option Q;
  m_trend : string;
  m_rank : option nat;
  m_baseline_interest : option Q;
  m_current_interest : option Q;
  m_upvotes : option Q;
  m_url : option string;
  m_data_source : option string
}.

Definition qsum (l : list Q) : Q := fold_right Qplus 0 l.

(** [trends.sort(key=lambda x: x['relevance_score'], reverse=True)]. *)
Definition sort_by_relevance (l : list market_trend) : list market_trend :=
  sort_desc (fun x y => Qlt_bool (m_relevance_score x) (m_relevance_score y)) l.

(** [category_keywords] of [get_trending_topics_for_category]. *)
Definition category_keywords : list (string * list string) := [
  ("AI", ["ChatGPT"; "OpenAI"; "Claude AI"; "Gemini"; "Anthropic";
          "GPT-4"; "GPT-4o"; "LLaMA"; "Mistral AI"; "AI agents";
          "Machine learning"; "Deep learning"; "Neural networks";
          "Stable Diffusion"; "Midjourney"; "AI safety"; "AGI";
          "Prompt engineering"; "RAG"; "Fine-tuning"; "LLM"]);
  ("Technology", ["iPhone 16"; "iPhone 15"; "Android 15"; "Vision Pro"; "Meta Quest";
          "Tesla"; "SpaceX"; "Starlink"; "Steam Deck"; "Nintendo Switch";
          "AWS"; "Azure"; "Google Cloud"; "Kubernetes"; "Docker";
          "React"; "Next.js"; "Vue"; "TypeScript"; "Python"; "Rust"]);
  ("Business", ["S&P 500"; "Nasdaq"; "Dow Jones"; "Stock market"; "Bitcoin";
          "Ethereum"; "Crypto"; "NFT"; "DeFi"; "Web3";
          "Startup funding"; "Venture capital"; "IPO"; "Unicorn";
          "Inflation"; "Federal Reserve"; "Interest rates"; "GDP"]);
  ("Science", ["Climate change"; "CERN"; "NASA"; "SpaceX"; "James Webb";
          "Quantum computing"; "CRISPR"; "Gene editing"; "mRNA vaccine";
          "Fusion energy"; "Dark matter"; "Black hole"; "Exoplanet"]);
  ("Data Science", ["Python"; "Pandas"; "NumPy"; "Scikit-learn"; "TensorFlow";
          "PyTorch"; "Jupyter"; "Data visualization"; "SQL"; "BigQuery";
          "Tableau"; "Power BI"; "Snowflake"; "dbt"; "Airflow"])]%string.

(** [category_keywords.get(category, [category])]. *)
Definition keywords_of (category : string) : list string :=
  get_default (dict_get category_keywords category) [category].

(** [keywords[:limit * 2]]. *)
Definition keywords_to_check (category : string) (limit : Z) : list string :=
  slice_to (keywords_of category) (limit * 2).

(** [category_subreddits] of [_get_community_trends]. *)
Definition category_subreddits : list (string * list string) := [
  ("AI", ["r/artificial"; "r/MachineLearning"]);
  ("Technology", ["r/technology"; "r/programming"]);
  ("Business", ["r/business"; "r/startups"]);
  ("Science", ["r/science"; "r/Physics"]);
  ("Data Science", ["r/datascience"; "r/learnmachinelearning"])]%string.

Definition subreddits_of (category : string) : list string :=
  get_default (dict_get category_subreddits category) [("r/" ++ lower category)%string].

(** A scraped Reddit article dict. *)
Record reddit_post := mkPost {
  rp_title : option string;
  rp_score : option Q;
  rp_points : option Q;
  rp_source : option string
}.

Section Fetch.
(** [round(x, 1)] on floats. *)
Variable round1 : Q -> Q.
(** [list(interest_data['data'][keyword].values())] for the call
    [get_interest_over_time([keyword], timeframe='now 7-d')]; [None] when the
    result is empty or lacks the keyword, when the series is empty, or when
    the call raises (the [except] continues with the next keyword). *)
Variable interest_values : string -> option (list Q).
(** [scrape_reddit_url(url, max_items=10)]; [None] when it raises. *)
Variable scrape_reddit_url : string -> option (list reddit_post).

(** The body of the keyword loop, for a keyword whose series is [values]:
    the trend appended, if any; [rank] is [len(trending_topics) + 1]. *)
Definition rising_trend (category keyword : string) (values : list Q) (rank : nat)
    : option market_trend :=
  if (length values <? 7)%nat then None
  else
    let recent_avg := qsum (slice_from values (-3)) / 3 in
    let baseline_avg := qsum (slice_to values 4) / 4 in
    let change_pct :=
      if Qlt_bool 0 baseline_avg then (recent_avg - baseline_avg) / baseline_avg * 100
      else if Qeq_bool recent_avg 0 then 0 else 100 in
    if Qle_bool 15 change_pct then
      Some (mkMarketTrend keyword category (recent_avg / 100) (Some (round1 change_pct)) "rising"
              (Some rank) (Some (round1 baseline_avg)) (Some (round1 recent_avg)) None None None)
    else None.

(** [for keyword in keywords_to_check:] with the early exit
    [if len(trending_topics) >= limit: break]. *)
Fixpoint scan_keywords (category : string) (limit : Z) (kws : list string)
    (trending_topics : list market_trend) : list market_trend :=
  match kws with
  | [] => trending_topics
  | keyword :: rest =>
      match interest_values keyword with
      | None => scan_keywords category limit rest trending_topics
      | Some values =>
          match rising_trend category keyword values (S (length trending_topics)) with
          | None => scan_keywords category limit rest trending_topics
          | Some t =>
              let trending_topics := trending_topics ++ [t] in
              if (limit <=? Z.of_nat (length trending_topics))%Z then trending_topics
              else scan_keywords category limit rest trending_topics
          end
      end
  end.

(** [get_trending_topics_for_category(category, limit)]. *)
Definition get_trending_topics_for_category (category : string) (limit : Z) : list market_trend :=
  slice_to (sort_by_relevance (scan_keywords category limit (keywords_to_check category limit) []))
           limit.

(** The loop over one subreddit's articles: a trend per article scoring
    above 100; an article scoring above 100 without a ['title'] raises
    [KeyError], which ends the subreddit (the trends appended so far stay). *)
Fixpoint community_of_posts (category : string) (articles : list reddit_post) : list market_trend :=
  match articles with
  | [] => []
  | article :: rest =>
      let score := match rp_score article with
                   | Some s => s
                   | None => match rp_points article with Some p => p | None => 0 end
                   end in
      if Qlt_bool 100 score then
        match rp_title article with
        | None => []
        | Some title =>
            mkMarketTrend (substring 0 60 title) category (py_min (score / 1000) 1) None "community"
              None None None (Some score) (Some (get_str (rp_source article))) (Some "Reddit"%string)
            :: community_of_posts category rest
        end
      else community_of_posts category rest
  end.

(** [_get_community_trends(category, limit)]. *)
Definition get_community_trends (category : string) (limit : Z) : list market_trend :=
  let trends := flat_map (fun subreddit =>
      match scrape_reddit_url ("https://reddit.com/" ++ subreddit)%string with
      | None => []
      | Some articles => community_of_posts category articles
      end) (subreddits_of category) in
  slice_to (sort_by_relevance trends) limit.

Definition set_data_source (src : string) (t : market_trend) : market_trend :=
  mkMarketTrend (m_query t) (m_category t) (m_relevance_score t) (m_change_percent t) (m_trend t)
    (m_rank t) (m_baseline_interest t) (m_current_interest t) (m_upvotes t) (m_url t) (Some src).

(** [get_trending_topics_with_fallback(category, limit)]. *)
Definition get_trending_topics_with_fallback (category : string) (limit : Z) : list market_trend :=
  match get_trending_topics_for_category category limit with
  | [] => get_community_trends category limit
  | trends => map (set_data_source "Google Trends"%string) trends
  end.

Record category_summary := mkCategorySummary {
  cs_trending_topics : list market_trend;
  cs_trend_count : nat
}.

Record market_summary := mkMarketSummary {
  ms_categories : list (string * category_summary);
  ms_overall_trends : list market_trend;
  ms_recommendations : list string
}.

(** [get_market_intelligence_summary(user_categories)] (its ['timestamp']
    left out). *)
Definition get_market_intelligence_summary (user_categories : list string) : market_summary :=
  let '(categories, overall) :=
    fold_left (fun acc category =>
        let category_trends := get_trending_topics_with_fallback category 5 in
        (dict_set category (mkCategorySummary category_trends (length category_trends)) (fst acc),
         snd acc ++ category_trends))
      user_categories ([], []) in
  let recommendations :=
    match overall with
    | [] => []
    | _ => map (fun t => "Consider monitoring: " ++ m_query t)%string
               (firstn 5 (sort_by_relevance overall))
    end in
  mkMarketSummary categories overall recommendations.

End Fetch.
End Market.

(** * Source diversity and the basic trend report *)
Module Diversity.
Import Text Frequency Topics.

Record source_diversity := mkSourceDiversity {
  unique_sources : nat;
  unique_domains : nat;
  source_distribution : counter;
  domain_distribution : counter
}.

Section Diversity.
(** [urlparse(source).netloc], or [None] when [urlparse] raises (a
    [ValueError], as on the unbalanced bracket of ['http://[::1']); the bare
    [except] then skips the domain count of that source. *)
Variable netloc : string -> option string.

(** The sources the loop counts: [article.get('source', '')] when it is
    truthy, i.e. non-empty. *)
Definition counted_sources (articles : list article) : list string :=
  flat_map (fun a => match a_source a with
                     | Some s => if String.eqb s EmptyString then [] else [s]
                     | None => []
                     end) articles.

(** The domains the loop counts: the netloc of each counted source that
    [urlparse] accepts. *)
Definition counted_domains (articles : list article) : list string :=
  flat_map (fun s => match netloc s with Some d => [d] | None => [] end) (counted_sources articles).

(** [calculate_source_diversity(articles)]: each counted source adds one to
    [source_counts] and, when [urlparse] accepts it, one to [domain_counts]
    under its netloc. *)
Definition calculate_source_diversity (articles : list article) : source_diversity :=
  let source_counts := Counter (counted_sources articles) in
  let domain_counts := Counter (counted_domains articles) in
  mkSourceDiversity (length source_counts) (length domain_counts)
    (most_common 10 source_counts) (most_common 10 domain_counts).

Record report_metrics := mkReportMetrics {
  total_articles : nat;
  r_unique_sources : nat;
  r_unique_domains : nat;
  avg_content_length : nat;
  top_keywords : counter;
  top_bigrams : counter;
  r_source_distribution : counter
}.

(** The report; [metrics] is [None] for the empty dict [{}]. *)
Record trend_report := mkTrendReport {
  r_trends : list topic;
  r_metrics : option report_metrics
}.

(** [generate_trend_report(articles)], its ['summary'] string left out.
    [int(sum / total)] on non-negative numbers is the floor, [Nat.div]
    (up to float rounding of very large sums). *)
Definition generate_trend_report (articles : list article) : trend_report :=
  match articles with
  | [] => mkTrendReport [] None
  | _ =>
    let trends := detect_emerging_topics articles in
    let source_metrics := calculate_source_diversity articles in
    let frequency_data := analyze_article_frequency articles in
    let total := length articles in
    let content_sum := fold_left Nat.add (map (fun a => String.length (get_str (a_content a))) articles) 0%nat in
    mkTrendReport trends
      (Some (mkReportMetrics total (unique_sources source_metrics) (unique_domains source_metrics)
               (Nat.div content_sum total) (f_keywords frequency_data) (f_bigrams frequency_data)
               (source_distribution source_metrics)))
  end.

End Diversity.
End Diversity.

(** * The enhanced trend report *)
Module Enhanced.
Import Text Frequency Topics Scoring.
Open Scope Q_scope.

(** The prompt reads [a['title']] and [a['content']] of the first ten
    articles: a missing key raises [KeyError], which the outer [except]
    turns into [[]]. *)
Definition llm_context_ok (articles : list article) : bool :=
  forallb (fun a => match a_title a, a_content a with Some _, Some _ => true | _, _ => false end)
          (firstn 10 articles).

(** [(article.get('title', '') + ' ' + article.get('content', '')).lower()]. *)
Definition llm_text (a : article) : string :=
  lower (get_str (a_title a) ++ " " ++ get_str (a_content a))%string.

(** The [supporting_articles] of an LLM trend with these [keywords]: the
    [{'title', 'source', 'published'}] dicts of the matching articles, cut
    to three; scoring reads only their ['source']. *)
Definition llm_supporting (keywords : list string) (articles : list article) : list article :=
  firstn 3 (map (fun a => mkArticle None (Some (get_str (a_title a))) (Some (get_str (a_source a))))
               (List.filter (fun a => existsb (fun kw => contains (lower kw) (llm_text a)) keywords)
                            articles)).

Section LLM.
(** The ['trends'] parsed from the model's reply, each with its ['name'] and
    ['keywords']; [None] when the request or [json.loads] fails. *)
Variable llm_reply : option (list (string * list string)).

(** [analyze_trends_with_llm(articles)]. *)
Definition analyze_trends_with_llm (articles : list article) : list trend :=
  match articles with
  | [] => []
  | _ =>
    if llm_context_ok articles then
      match llm_reply with
      | None => []
      | Some ts => map (fun nk => mkTrend (fst nk) (llm_supporting (snd nk) articles) None None None None) ts
      end
    else []
  end.

(** A topic dict of [detect_emerging_topics]: it has no
    ['supporting_articles']. *)
Definition topic_as_trend (t : topic) : trend := mkTrend (t_topic t) [] None None None None.

(** [generate_enhanced_trend_report(articles)]: [None] for the report of no
    articles; otherwise its ['trends'], ['llm_trends_count'] and
    ['basic_trends_count'] (the other metrics are those of
    [generate_trend_report]). *)
Definition generate_enhanced_trend_report (articles : list article) : option (list trend * nat * nat) :=
  match articles with
  | [] => None
  | _ =>
    let basic_trends := detect_emerging_topics articles in
    let llm_trends := analyze_trends_with_llm articles in
    let scored_trends := calculate_trend_scores (map topic_as_trend basic_trends ++ llm_trends) articles in
    Some (firstn 15 scored_trends, length llm_trends, length basic_trends)
  end.

End LLM.
End Enhanced.

(** * [get_interest_over_time]: the keyword cache and the retry loop *)
Module Interest.
Import PySort Frequency Scoring Cache.
Open Scope Q_scope.

(** Python's [str] order on ASCII: code points compared left to right, a
    proper prefix first. *)
Definition str_ltb (s1 s2 : string) : bool :=
  match OrdersEx.String_as_OT.compare s1 s2 with Lt => true | _ => false end.

(** [f"{','.join(sorted(keywords))}_{timeframe}"]. *)
Definition cache_key (keywords : list string) (timeframe : string) : string :=
  (String.concat "," (sort_asc str_ltb keywords) ++ "_" ++ timeframe)%string.

Section Interest.
(** A column of [interest_over_time()], as [to_dict()] gives it. *)
Context {Series : Type}.

(** What one attempt's [build_payload] and [interest_over_time()] give: a
    non-empty frame with its keyword columns, an empty frame, or an
    exception with its message. *)
Inductive fetch_outcome :=
| Fetched (columns : list (string * Series))
| FetchedEmpty
| Failed (message : string).

Record interest_result := mkInterestResult {
  i_keywords : list string;
  i_timeframe : string;
  i_data : list (string * Series)
}.

(** [result['data']]: the keywords that are columns of the frame. *)
Definition interest_data (keywords : list string) (columns : list (string * Series)) : list (string * Series) :=
  fold_left (fun d keyword =>
      match dict_get columns keyword with
      | Some column => dict_set keyword column d
      | None => d
      end) keywords [].

Definition rate_limited (message : string) : bool :=
  contains "429" message || contains "Too Many Requests" message.

(** [for attempt in range(max_retries)], from [attempt] on with [fuel]
    attempts left: the frame columns on success, and the backoff sleeps
    [(2 ** attempt) * 3] taken on the way. *)
Fixpoint fetch_loop (outcome : nat -> fetch_outcome) (max_retries attempt fuel : nat)
    : option (list (string * Series)) * list nat :=
  match fuel with
  | O => (None, [])
  | S fuel' =>
    match outcome attempt with
    | Fetched columns => (Some columns, [])
    | FetchedEmpty => (None, [])
    | Failed message =>
      if rate_limited message && (attempt <? max_retries - 1)%nat then
        let '(r, waits) := fetch_loop outcome max_retries (S attempt) fuel' in
        (r, (2 ^ attempt * 3)%nat :: waits)
      else (None, [])
    end
  end.

(** [get_interest_over_time(keywords, timeframe, max_retries)] on the cache
    [c]: [available] is [PYTENDS_AVAILABLE and self.pytrends];
    [cleanup_time] is the [time.time()] of the cleanup, [check_time] the
    one of the age check, [store_time] the one stored with a fresh result.
    It returns the result ([None] for [{}]), the new cache and the backoff
    sleeps. *)
Definition get_interest_over_time (available : bool) (keywords : list string) (timeframe : string)
    (max_retries : nat) (cache_ttl cleanup_time check_time store_time : Q)
    (outcome : nat -> fetch_outcome) (c : @cache interest_result)
    : option interest_result * @cache interest_result * list nat :=
  if negb available then (None, c, []) else
  let key := cache_key keywords timeframe in
  let c1 := cleanup_expired_cache cleanup_time cache_ttl c in
  let fetch c2 :=
    let '(r, waits) := fetch_loop outcome max_retries 0 max_retries in
    match r with
    | Some columns =>
        let result := mkInterestResult keywords timeframe (interest_data keywords columns) in
        (Some result, <[key := (result, store_time)]> c2, waits)
    | None => (None, c2, waits)
    end in
  match c1 !! key with
  | Some (cached_data, timestamp) =>
      if Qlt_bool (check_time - timestamp) cache_ttl then (Some cached_data, c1, [])
      else fetch (delete key c1)
  | None => fetch c1
  end.

End Interest.
End Interest.

(** * Properties of the trend-analysis engine *)
Module Claims.
Import Text Keywords Frequency PySort.

Lemma Sorted_firstn {A} (Rel : A -> A -> Prop) n l :
  Sorted Rel l -> Sorted Rel (firstn n l).
Proof.
  intros H. revert n. induction H as [|x l Hs IH Hhd]; intros n; destruct n; simpl; try constructor.
  - apply IH.
  - destruct l as [|y l]; destruct n; simpl; constructor. inversion Hhd; assumption.
Qed.

Lemma Sorted_weaken {A} (R1 R2 : A -> A -> Prop) l :
  (forall x y, R1 x y -> R2 x y) -> Sorted R1 l -> Sorted R2 l.
Proof.
  intros Himp H. induction H as [|x l Hs IH Hhd]; constructor; [exact IH|].
  destruct Hhd; constructor. apply Himp. assumption.
Qed.

Lemma Forall_firstn' {A} (P : A -> Prop) n l : Forall P l -> Forall P (firstn n l).
Proof.
  intros H. revert n. induction H as [|x l Hx Hl IH]; intros n; destruct n; simpl; constructor; auto.
Qed.

Lemma Forall_perm {A} (P : A -> Prop) l l' : Permutation l l' -> Forall P l' -> Forall P l.
Proof.
  intros Hp H. rewrite List.Forall_forall in *. intros x Hx. apply H.
  eapply Permutation_in; eassumption.
Qed.

(** Sample articles: twenty-one distinct keywords, each seen once. *)
Definition art_k01_k20 : article :=
  mkArticle (Some "k01 k02 k03 k04 k05 k06 k07 k08 k09 k10 k11 k12 k13 k14 k15 k16 k17 k18 k19 k20"%string)
            None None.
Definition art_k21 : article := mkArticle (Some "k21"%string) None None.

(** C10: [extract_ngrams] keeps a window unless one of its words is a stop
    word; no length filter applies, so a bigram can hold a word shorter than
    three characters that [extract_keywords] (with [min_length = 3]) drops. *)
Theorem C10_ngrams_keep_short_words :
  exists text bigram w,
    In bigram (extract_ngrams text 2) /\ In w (split bigram) /\
    (String.length w < 3)%nat /\ In w (tokens text) /\ ~ In w (extract_keywords text 3).
Proof.
  exists "AI model"%string, "ai model"%string, "ai"%string.
  vm_compute. split; [left; reflexivity|]. split; [left; reflexivity|].
  split; [lia|]. split; [left; reflexivity|].
  intros H; intuition discriminate.
Qed.

(** C4 (amended): for any reordering of a batch, the keyword counts and the
    bigram counts that [analyze_article_frequency] aggregates are the same
    for every word (before the [most_common] cut-off). *)
Theorem C4_counts_permutation_invariant (arts arts' : list article) :
  Permutation arts arts' ->
  forall w,
    count_of (Counter (all_keywords arts)) w = count_of (Counter (all_keywords arts')) w /\
    count_of (Counter (all_bigrams arts)) w = count_of (Counter (all_bigrams arts')) w.
Proof.
  intros Hp w. rewrite !Counter_count. unfold all_keywords, all_bigrams.
  split; apply Permutation_count_occ, concat_map_perm, Hp.
Qed.

Lemma C4_counts_permutation_invariant_witness :
  Permutation [art_k01_k20; art_k21] [art_k21; art_k01_k20] /\
  count_of (Counter (all_keywords [art_k01_k20; art_k21])) "k20"%string =
  count_of (Counter (all_keywords [art_k21; art_k01_k20])) "k20"%string.
Proof.
  split; [apply perm_swap|].
  apply (C4_counts_permutation_invariant [art_k01_k20; art_k21] [art_k21; art_k01_k20]);
    apply perm_swap.
Defined.

(** C4 counterexample: the top-20 keyword mapping depends on the order of
    the batch.  All twenty-one keywords tie at count 1; [most_common(20)]
    keeps the first twenty in first-occurrence order, so ["k20"] is kept for
    one order and dropped for the swapped one. *)
Lemma C4_top20_order_dependent :
  Permutation [art_k01_k20; art_k21] [art_k21; art_k01_k20] /\
  counter_get (f_keywords (analyze_article_frequency [art_k01_k20; art_k21])) "k20"%string = Some 1%nat /\
  counter_get (f_keywords (analyze_article_frequency [art_k21; art_k01_k20])) "k20"%string = None.
Proof. split; [apply perm_swap | vm_compute; split; reflexivity]. Qed.

Section EmergingTopics.
Import Topics.

Lemma topics_of_facts (articles : list article) (ty : topic_type) (c : counter) :
  articles <> [] ->
  Forall (fun t => (2 <= t_frequency t)%nat /\
           t_relevance t = (inject_Z (Z.of_nat (t_frequency t)) / inject_Z (Z.of_nat (length articles)))%Q)
         (topics_of articles ty c).
Proof.
  intros Hne. unfold topics_of. apply List.Forall_map, List.Forall_forall.
  intros [k n] Hin. apply filter_In in Hin as [_ H2]. simpl in *.
  split; [apply Nat.leb_le; exact H2|].
  unfold relevance. destruct articles; [congruence|reflexivity].
Qed.

(** C7: on a non-empty batch, [detect_emerging_topics] returns at most 15
    topics, each with frequency at least 2 and relevance score equal to its
    frequency divided by the number of articles, sorted by relevance score,
    highest first. *)
Theorem C7_emerging_topics_contract (articles : list article) :
  articles <> [] ->
  let out := detect_emerging_topics articles in
  (length out <= 15)%nat /\
  Forall (fun t => (2 <= t_frequency t)%nat /\
           t_relevance t = (inject_Z (Z.of_nat (t_frequency t)) / inject_Z (Z.of_nat (length articles)))%Q)
         out /\
  Sorted (fun x y => (t_relevance y <= t_relevance x)%Q) out.
Proof.
  intros Hne out. unfold out, detect_emerging_topics.
  split; [apply firstn_le_length|]. split.
  - apply Forall_firstn'. eapply Forall_perm; [apply sort_desc_perm|].
    apply List.Forall_app; split; apply topics_of_facts, Hne.
  - apply Sorted_firstn. eapply Sorted_weaken; [|apply sort_desc_sorted].
    + intros x y H. apply Qlt_bool_false, H.
    + intros x y. apply Qlt_bool_asym.
Qed.

Definition art_c7a : article := mkArticle (Some "model data model"%string) None None.
Definition art_c7b : article := mkArticle (Some "model data"%string) None None.

Lemma C7_emerging_topics_contract_witness :
  [art_c7a; art_c7b] <> [] /\
  map (fun t => (t_topic t, t_frequency t)) (detect_emerging_topics [art_c7a; art_c7b]) =
    [("model"%string, 3%nat); ("data"%string, 2%nat); ("model data"%string, 2%nat)] /\
  let out := detect_emerging_topics [art_c7a; art_c7b] in
  (length out <= 15)%nat /\
  Forall (fun t => (2 <= t_frequency t)%nat /\
           t_relevance t = (inject_Z (Z.of_nat (t_frequency t)) / inject_Z (Z.of_nat 2))%Q)
         out /\
  Sorted (fun x y => (t_relevance y <= t_relevance x)%Q) out.
Proof.
  assert (H : [art_c7a; art_c7b] <> []) by discriminate.
  split; [exact H|]. split; [vm_compute; reflexivity|].
  exact (C7_emerging_topics_contract [art_c7a; art_c7b] H).
Defined.

End EmergingTopics.

Section WordSimilarity.
Import Similarity.

Lemma word_set_nonempty (s : string) : split s <> [] -> word_set s <> ∅.
Proof.
  intros Hs He. destruct (split s) as [|w ws] eqn:E; [congruence|].
  assert (Hw : w ∈ word_set s).
  { unfold word_set. rewrite E. apply elem_of_list_to_set. left. }
  rewrite He in Hw. set_solver.
Qed.

(** C9 (amended): the word-overlap similarity is symmetric, and a string
    with at least one word (non-whitespace character) has similarity 1 with
    itself. *)
Theorem C9_similarity_symmetric_reflexive (a b : string) :
  calculate_similarity a b = calculate_similarity b a /\
  (split a <> [] -> (calculate_similarity a a == 1)%Q).
Proof.
  split.
  - unfold calculate_similarity.
    assert (Ei : word_set b ∩ word_set a = word_set a ∩ word_set b) by set_solver.
    assert (Eu : word_set b ∪ word_set a = word_set a ∪ word_set b) by set_solver.
    rewrite Ei, Eu. repeat case_decide; congruence.
  - intros Hs. pose proof (word_set_nonempty a Hs) as Hne.
    unfold calculate_similarity.
    assert (Ei : word_set a ∩ word_set a = word_set a) by set_solver.
    assert (Eu : word_set a ∪ word_set a = word_set a) by set_solver.
    rewrite Ei, Eu.
    repeat case_decide; try congruence.
    assert (Hsz : size (word_set a) <> 0%nat).
    { intros Hz. apply Hne. apply size_empty_inv in Hz. apply leibniz_equiv, Hz. }
    apply Qmult_inv_r. intros Hq. apply Hsz.
    unfold Qeq in Hq. simpl in Hq. lia.
Qed.

Lemma C9_similarity_symmetric_reflexive_witness :
  (calculate_similarity "AI model" "AI model" == 1)%Q.
Proof.
  apply (proj2 (C9_similarity_symmetric_reflexive "AI model" "AI model")).
  vm_compute. discriminate.
Defined.

(** C9 counterexample: the non-empty, whitespace-only string [" "] splits
    into no words, so its similarity with itself is [0], not [1]. *)
Lemma C9_blank_self_similarity :
  " "%string <> EmptyString /\ calculate_similarity " " " " = 0%Q.
Proof. split; [discriminate | vm_compute; reflexivity]. Qed.

End WordSimilarity.

Section TrendScores.
Import Scoring.

Lemma py_min_le_r (x y : Q) : (py_min x y <= y)%Q.
Proof.
  unfold py_min. destruct (Qlt_bool y x) eqn:E.
  - apply Qle_refl.
  - apply Qlt_bool_false in E. exact E.
Qed.

Lemma py_min_nonneg (x y : Q) : (0 <= x)%Q -> (0 <= y)%Q -> (0 <= py_min x y)%Q.
Proof. unfold py_min. destruct (Qlt_bool y x); auto. Qed.

Lemma qlen_pos {A} (l : list A) : l <> [] -> (0 < qlen l)%Q.
Proof.
  intros H. destruct l as [|x l]; [congruence|]. unfold qlen, Qlt. simpl. lia.
Qed.

Lemma qlen_nonneg {A} (l : list A) : (0 <= qlen l)%Q.
Proof. unfold qlen, Qle. simpl. lia. Qed.

Lemma qlen_cons {A} (x : A) l : (qlen (x :: l) == qlen l + 1)%Q.
Proof.
  unfold qlen. simpl length. rewrite Nat2Z.inj_succ, <- Z.add_1_r, inject_Z_plus.
  reflexivity.
Qed.

Lemma authority_of_domain_bounds d :
  (0 <= authority_of_domain d <= 1)%Q.
Proof.
  unfold authority_of_domain.
  repeat match goal with |- context [if ?b then _ else _] => destruct b end;
    split; Lqa.lra.
Qed.

Definition unit_Q (q : Q) : Prop := (0 <= q <= 1)%Q.

Lemma dict_set_forall k (v : Q) d :
  unit_Q v -> Forall (fun kv => unit_Q (snd kv)) d ->
  Forall (fun kv => unit_Q (snd kv)) (dict_set k v d).
Proof.
  intros Hv Hd. induction Hd as [|[k0 v0] d H0 Hd IH]; simpl.
  - constructor; [exact Hv | constructor].
  - destruct (String.eqb k0 k); constructor; auto.
Qed.

Lemma dict_get_forall (d : list (string * Q)) k v :
  Forall (fun kv => unit_Q (snd kv)) d -> dict_get d k = Some v -> unit_Q v.
Proof.
  intros Hd. induction Hd as [|[k0 v0] d H0 Hd IH]; simpl; [discriminate|].
  destruct (String.eqb k0 k); [intros [= <-]; exact H0 | exact IH].
Qed.

Lemma source_authority_bounds articles :
  Forall (fun kv => unit_Q (snd kv)) (source_authority articles).
Proof.
  unfold source_authority.
  assert (H : forall d, Forall (fun kv => unit_Q (snd kv)) d ->
    Forall (fun kv => unit_Q (snd kv))
      (fold_left (fun d a =>
          let source := get_str (a_source a) in
          if String.eqb source EmptyString then d
          else dict_set source (authority_of_domain (domain_of source)) d) articles d)).
  { induction articles as [|a arts IH]; intros d Hd; simpl; [exact Hd|].
    apply IH. destruct (String.eqb _ _); [exact Hd|].
    apply dict_set_forall; [apply authority_of_domain_bounds | exact Hd]. }
  apply H. constructor.
Qed.

Lemma authority_total_bounds sa (sup : list article) acc :
  Forall (fun kv => unit_Q (snd kv)) sa ->
  (acc <= fold_left (fun acc a => acc + get_default (dict_get sa (get_str (a_source a))) 0.5) sup acc)%Q /\
  (fold_left (fun acc a => acc + get_default (dict_get sa (get_str (a_source a))) 0.5) sup acc
     <= acc + qlen sup)%Q.
Proof.
  intros Hsa. revert acc. induction sup as [|a sup IH]; intros acc; simpl.
  - unfold qlen. simpl. split; [apply Qle_refl|]. rewrite Qplus_0_r. apply Qle_refl.
  - assert (Hv : unit_Q (get_default (dict_get sa (get_str (a_source a))) 0.5)).
    { destruct (dict_get sa _) eqn:E; simpl.
      - eapply dict_get_forall; eassumption.
      - unfold unit_Q. split; Lqa.lra. }
    destruct Hv as [Hv0 Hv1].
    destruct (IH (acc + get_default (dict_get sa (get_str (a_source a))) 0.5)%Q) as [H1 H2].
    rewrite qlen_cons. split; Lqa.lra.
Qed.

Lemma score_trend_facts sa t :
  Forall (fun kv => unit_Q (snd kv)) sa ->
  exists r f a c,
    tr_recency (score_trend sa t) = Some r /\ tr_frequency (score_trend sa t) = Some f /\
    tr_authority (score_trend sa t) = Some a /\ tr_composite (score_trend sa t) = Some c /\
    c = (0.4 * r + 0.3 * f + 0.3 * a)%Q /\
    unit_Q r /\ unit_Q f /\ unit_Q a /\ unit_Q c.
Proof.
  intros Hsa. unfold score_trend. cbv zeta.
  set (sup := tr_supporting t).
  set (f := py_min (qlen sup / 5) 1).
  assert (Hf : unit_Q f).
  { split; [apply py_min_nonneg; [|Lqa.lra] | apply py_min_le_r].
    apply Qle_shift_div_l; [Lqa.lra|]. pose proof (qlen_nonneg sup). Lqa.lra. }
  set (r := match sup with [] => 0.5 | _ => py_min (qlen sup / qlen sup) 1 end).
  assert (Hr : unit_Q r).
  { unfold r. destruct sup as [|x xs] eqn:E; [split; Lqa.lra|].
    split; [apply py_min_nonneg; [|Lqa.lra] | apply py_min_le_r].
    apply Qle_shift_div_l; [apply qlen_pos; discriminate|].
    pose proof (qlen_nonneg (x :: xs)). Lqa.lra. }
  set (a := match sup with
            | [] => 0.5
            | _ => fold_left (fun acc a => acc + get_default (dict_get sa (get_str (a_source a))) 0.5) sup 0
                   / qlen sup end).
  assert (Ha : unit_Q a).
  { unfold a. destruct sup as [|x xs] eqn:E; [split; Lqa.lra|].
    rewrite <- E. assert (Hp : (0 < qlen sup)%Q) by (rewrite E; apply qlen_pos; discriminate).
    destruct (authority_total_bounds sa sup 0 Hsa) as [H1 H2].
    split.
    - apply Qle_shift_div_l; [exact Hp|]. Lqa.lra.
    - apply Qle_shift_div_r; [exact Hp|]. Lqa.lra. }
  exists r, f, a, (0.4 * r + 0.3 * f + 0.3 * a)%Q.
  do 5 (split; [reflexivity|]).
  destruct Hr, Hf, Ha.
  split; [split; assumption|]. split; [split; assumption|]. split; [split; assumption|].
  split; Lqa.lra.
Qed.

(** C5: for a non-empty trend list and a non-empty article batch,
    [calculate_trend_scores] returns the scored trends (a reordering of the
    input, each scored by the loop body), each with
    [composite_score = 0.4*recency_score + 0.3*frequency_score + 0.3*authority_score]
    and every score in [[0,1]], sorted by composite score, highest first. *)
Theorem C5_trend_scores_contract (trends : list trend) (articles : list article) :
  trends <> [] -> articles <> [] ->
  let out := calculate_trend_scores trends articles in
  Permutation out (map (score_trend (source_authority articles)) trends) /\
  Forall (fun t => exists r f a c,
            tr_recency t = Some r /\ tr_frequency t = Some f /\
            tr_authority t = Some a /\ tr_composite t = Some c /\
            c = (0.4 * r + 0.3 * f + 0.3 * a)%Q /\
            unit_Q r /\ unit_Q f /\ unit_Q a /\ unit_Q c) out /\
  Sorted (fun x y => (get_default (tr_composite y) 0 <= get_default (tr_composite x) 0)%Q) out.
Proof.
  intros Ht Ha out.
  assert (Hout : out = sort_desc (fun x y => Qlt_bool (get_default (tr_composite x) 0)
                                                      (get_default (tr_composite y) 0))
                                 (map (score_trend (source_authority articles)) trends)).
  { unfold out, calculate_trend_scores.
    destruct trends; [congruence|]. destruct articles; [congruence|]. reflexivity. }
  rewrite Hout. split; [apply sort_desc_perm|]. split.
  - eapply Forall_perm; [apply sort_desc_perm|].
    apply List.Forall_map, List.Forall_forall. intros t _.
    apply score_trend_facts, source_authority_bounds.
  - eapply Sorted_weaken; [|apply sort_desc_sorted].
    + intros x y H. apply Qlt_bool_false, H.
    + intros x y. apply Qlt_bool_asym.
Qed.

Definition sample_trend : trend :=
  mkTrend "ai" [mkArticle None None (Some "https://github.com/x"%string)] None None None None.

Lemma C5_trend_scores_contract_witness :
  [sample_trend] <> [] /\ [art_k21] <> [] /\
  Sorted (fun x y => (get_default (tr_composite y) 0 <= get_default (tr_composite x) 0)%Q)
         (calculate_trend_scores [sample_trend] [art_k21]).
Proof.
  split; [discriminate|]. split; [discriminate|].
  apply (C5_trend_scores_contract [sample_trend] [art_k21]); discriminate.
Defined.

End TrendScores.

Section Prediction.
Import History Predict Scoring.

Definition new_emerging_of (t : entry Q) : pattern :=
  let score := score_of 0 t in
  mkPattern (name_of EmptyString t) NewEmerging (py_min score 0.9)
            (if Qlt_bool 0.8 score then Short else Medium).

Lemma emerging_patterns_new pers current t :
  In t current -> dict_get pers (name_of EmptyString t) = None ->
  (0.6 < score_of 0 t)%Q ->
  In (new_emerging_of t) (emerging_patterns pers current).
Proof.
  intros Hin Hnone Hs. unfold emerging_patterns. apply in_flat_map.
  exists t. split; [exact Hin|]. cbv zeta. rewrite Hnone.
  apply Qlt_bool_iff in Hs. rewrite Hs. left. reflexivity.
Qed.

Lemma firstn_all_le {A} n (l : list A) : (length l <= n)%nat -> firstn n l = l.
Proof. apply firstn_all2. Qed.

(** C8 (amended): for a non-empty trend history, a current trend absent
    from the persistence data whose score ([composite_score], else
    [relevance_score]) exceeds 0.6 yields a [new_emerging] prediction with
    confidence [min(score, 0.9)] and lifespan [short] if the score exceeds
    0.8, else [medium]; the predictions are sorted by confidence and only the
    first five are returned, so the prediction is returned whenever at most
    five predictions are made.  With an empty history no prediction is
    made at all. *)
Theorem C8_new_emerging_prediction now days_between stdev
    (history current : list (entry Q)) (t : entry Q) :
  history <> [] -> In t current ->
  dict_get (analyze_trend_persistence now days_between stdev history) (name_of EmptyString t) = None ->
  (0.6 < score_of 0 t)%Q ->
  let pats := emerging_patterns (analyze_trend_persistence now days_between stdev history) current in
  In (new_emerging_of t) pats /\
  predict_emerging_trends now days_between stdev history current =
    firstn 5 (sort_desc (fun x y => Qlt_bool (pt_confidence x) (pt_confidence y)) pats) /\
  ((length pats <= 5)%nat ->
   In (new_emerging_of t) (predict_emerging_trends now days_between stdev history current)) /\
  predict_emerging_trends now days_between stdev [] current = [].
Proof.
  intros Hh Hin Hnone Hs pats.
  assert (Hp : In (new_emerging_of t) pats) by (apply emerging_patterns_new; assumption).
  assert (Heq : predict_emerging_trends now days_between stdev history current =
    firstn 5 (sort_desc (fun x y => Qlt_bool (pt_confidence x) (pt_confidence y)) pats)).
  { unfold predict_emerging_trends.
    destruct history; [congruence|]. destruct current; [contradiction|]. reflexivity. }
  split; [exact Hp|]. split; [exact Heq|]. split; [|reflexivity].
  intros Hlen. rewrite Heq, firstn_all_le.
  - eapply Permutation_in; [symmetry; apply sort_desc_perm | exact Hp].
  - rewrite (Permutation_length (sort_desc_perm _ pats)). exact Hlen.
Qed.

Definition hist_old : entry Q := mkEntry (Some "old"%string) None None (Some 0.5) None None.
Definition trend_of (n : string) (score : Q) : entry Q := mkEntry (Some n) None None None (Some score) None.

Lemma C8_new_emerging_prediction_witness :
  In (mkPattern "quantum" NewEmerging 0.75 Medium)
     (predict_emerging_trends EmptyString (fun _ _ => None) (fun _ => 0%Q)
        [hist_old] [trend_of "quantum" 0.75]).
Proof.
  apply (C8_new_emerging_prediction EmptyString (fun _ _ => None) (fun _ => 0%Q)
           [hist_old] [trend_of "quantum" 0.75] (trend_of "quantum" 0.75)).
  - discriminate.
  - left. reflexivity.
  - vm_compute. reflexivity.
  - vm_compute. reflexivity.
  - vm_compute. lia.
Defined.

(** C8 counterexample: a trend absent from history with relevance score
    0.75 is not returned when five other new trends have a higher
    confidence, only the top five predictions being kept; and with an empty
    history, from which every trend is absent, the same trend alone is not
    returned either: no prediction is made. *)
Lemma C8_new_trend_cut_by_top5 :
  let current := [trend_of "t1" 0.85; trend_of "t2" 0.85; trend_of "t3" 0.85;
                  trend_of "t4" 0.85; trend_of "t5" 0.85; trend_of "target" 0.75] in
  dict_get (analyze_trend_persistence EmptyString (fun _ _ => None) (fun _ => 0%Q) [hist_old])
           "target"%string = None /\
  map pt_trend_name (predict_emerging_trends EmptyString (fun _ _ => None) (fun _ => 0%Q)
                       [hist_old] current) = ["t1"; "t2"; "t3"; "t4"; "t5"]%string /\
  dict_get (analyze_trend_persistence EmptyString (fun _ _ => None) (fun _ => 0%Q) [])
           "quantum"%string = None /\
  predict_emerging_trends EmptyString (fun _ _ => None) (fun _ => 0%Q)
    [] [trend_of "quantum" 0.75] = [].
Proof. vm_compute. repeat split; reflexivity. Qed.

End Prediction.

Section SpikeDetection.
Import History Scoring Spikes.
Open Scope R_scope.

Lemma Rltb_true x y : Rltb x y = true -> x < y.
Proof. unfold Rltb. destruct (Rlt_dec x y); [auto | discriminate]. Qed.

Lemma Rltb_false x y : Rltb x y = false -> y <= x.
Proof. unfold Rltb. destruct (Rlt_dec x y); [discriminate | intros _; lra]. Qed.

Lemma Rltb_irrefl x : Rltb x x = false.
Proof. unfold Rltb. destruct (Rlt_dec x x); [lra | reflexivity]. Qed.

Ltac bind_cases H :=
  unfold bind in H;
  repeat match type of H with
         | context [match ?r with Ok _ => _ | Err _ => _ end] =>
             let E := fresh "E" in destruct r eqn:E; try discriminate H
         end.

Lemma scan_names n w series freqs base m std i recent l :
  scan n w series freqs base m std i recent = Ok l ->
  Forall (fun s => sp_trend_name s = n) l.
Proof.
  revert i l; induction recent as [|x xs IH]; intros i l H; simpl in H.
  - injection H as <-. constructor.
  - destruct (Rltb 0 std); [|eapply IH; exact H].
    repeat match type of H with context [Rle_dec ?a ?b] => destruct (Rle_dec a b) end;
      try (eapply IH; exact H);
      bind_cases H; (injection H as <-; constructor; [reflexivity | eapply IH; eassumption]).
Qed.

Lemma scan_no_std n w series freqs base m std i recent :
  ~ 0 < std -> scan n w series freqs base m std i recent = Ok [].
Proof.
  intros Hs. revert i; induction recent as [|x xs IH]; intros i; simpl; [reflexivity|].
  unfold Rltb. destruct (Rlt_dec 0 std); [contradiction | apply IH].
Qed.

Lemma baseline_std_short b : (length b < 2)%nat -> baseline_std b = 0.
Proof.
  intros H. unfold baseline_std, stdev.
  destruct (length b <? 2)%nat eqn:E; [reflexivity|].
  apply Nat.ltb_nlt in E. lia.
Qed.

Lemma sum_const c l : Forall (eq c) l -> sum l = INR (length l) * c.
Proof.
  induction 1 as [|x l Hx Hl IH]; [simpl; lra|].
  subst x. change (sum (c :: l)) with (c + sum l).
  change (length (c :: l)) with (S (length l)). rewrite IH, S_INR. lra.
Qed.

Lemma sum_zeros l : Forall (eq 0) l -> sum l = 0.
Proof. intros H. rewrite (sum_const 0 l H). lra. Qed.

Lemma baseline_std_const c b : Forall (eq c) b -> baseline_std b = 0.
Proof.
  intros Hc. unfold baseline_std, stdev.
  destruct (length b <? 2)%nat eqn:E; [reflexivity|].
  apply Nat.ltb_nlt in E.
  assert (Hm : sum b / INR (length b) = c).
  { rewrite (sum_const c b Hc). field. apply not_0_INR. lia. }
  rewrite Hm, sum_zeros; [unfold Rdiv; rewrite Rmult_0_l; apply sqrt_0|].
  apply List.Forall_map. eapply List.Forall_impl; [|exact Hc].
  intros x <-. simpl. ring.
Qed.

Definition order_series (series : list point) : list point :=
  sort_asc (fun x y => str_ltb (pt_timestamp x) (pt_timestamp y)) series.

Lemma spikes_of_group_names w n series l :
  spikes_of_group w n series = Ok l -> Forall (fun s => sp_trend_name s = n) l.
Proof.
  unfold spikes_of_group. intros H.
  destruct (Z.of_nat (length series) <? w)%Z; [injection H as <-; constructor|].
  destruct (split_series _ _) as [recent baseline].
  destruct baseline as [|b bs]; [injection H as <-; constructor|].
  bind_cases H. eapply scan_names; exact H.
Qed.

Lemma spikes_of_group_flat w n series :
  baseline_std (snd (split_series w (map pt_score (order_series series)))) = 0 ->
  match spikes_of_group w n series with Ok l => l = [] | Err _ => True end.
Proof.
  unfold spikes_of_group. fold (order_series series). intros Hstd.
  destruct (Z.of_nat (length series) <? w)%Z; [reflexivity|].
  destruct (split_series _ _) as [recent baseline]. simpl in Hstd.
  destruct baseline as [|b bs]; [reflexivity|].
  unfold bind. destruct (mean _); [|exact I].
  rewrite Hstd, scan_no_std; [reflexivity | lra].
Qed.

Lemma collect_in w groups l :
  collect w groups = Ok l ->
  forall s, In s l -> exists n series l', In (n, series) groups /\
                       spikes_of_group w n series = Ok l' /\ In s l'.
Proof.
  revert l; induction groups as [|[n series] gs IH]; intros l H s Hs; simpl in H.
  - injection H as <-. destruct Hs.
  - bind_cases H. injection H as <-.
    apply in_app_or in Hs as [Hs|Hs].
    + exists n, series, a. split; [left; reflexivity|]. split; assumption.
    + destruct (IH a0 ltac:(first [exact E0 | reflexivity]) s Hs) as (n' & series' & l' & H1 & H2 & H3).
      exists n', series', l'. split; [right; exact H1|]. split; assumption.
Qed.

Lemma dict_get_nodup_in {V} (d : list (string * V)) k v :
  NoDup (map fst d) -> In (k, v) d -> dict_get d k = Some v.
Proof.
  induction d as [|[k0 v0] d IH]; simpl; intros Hnd Hin; [destruct Hin|].
  apply NoDup_cons in Hnd as [Hk0 Hnd].
  destruct Hin as [[= -> ->]|Hin].
  - rewrite String.eqb_refl. reflexivity.
  - destruct (String.eqb k0 k) eqn:E.
    + apply String.eqb_eq in E; subst k0. exfalso. apply Hk0.
      apply list_elem_of_In, in_map_iff. exists (k, v). split; [reflexivity | exact Hin].
    + apply IH; assumption.
Qed.

End SpikeDetection.

Section SpikeClaims.
Import History Scoring Spikes.
Open Scope R_scope.

(** The series of trend [name] in the history ([trend_series[name]]), and
    its split into recent window and baseline, as [detect_spikes] computes
    them. *)
Definition group_of (now : string) (data : list (entry R)) (name : string) : list point :=
  get_default (dict_get (trend_series now data) name) [].

Definition group_split (w : Z) (now : string) (data : list (entry R)) (name : string)
    : list R * list R :=
  split_series w (map pt_score (order_series (group_of now data name))).

(** C1: if the baseline of trend [name] has fewer than two points, or its
    sample standard deviation is zero, or baseline and recent window hold one
    and the same constant score, then [detect_spikes] reports no spike for
    [name] (a z-score is only computed when the deviation is positive). *)
Theorem C1_no_spike_without_spread now (data : list (entry R)) (w : Z) (name : string) :
  let recent := fst (group_split w now data name) in
  let baseline := snd (group_split w now data name) in
  ((length baseline < 2)%nat \/ baseline_std baseline = 0 \/
   (exists c, Forall (eq c) baseline /\ Forall (eq c) recent)) ->
  match detect_spikes now data w with
  | Ok sp => Forall (fun s => sp_trend_name s <> name) sp
  | Err _ => True
  end.
Proof.
  intros recent baseline Hcase.
  assert (Hstd : baseline_std baseline = 0).
  { destruct Hcase as [H|[H|(c & H & _)]].
    - apply baseline_std_short, H.
    - exact H.
    - eapply baseline_std_const, H. }
  unfold detect_spikes. destruct data as [|d ds]; [constructor|].
  destruct (_ <? w)%Z; [constructor|].
  unfold bind. destruct (collect w _) as [l|] eqn:E; [|exact I].
  eapply Forall_perm; [apply sort_desc_perm|].
  apply List.Forall_forall. intros s Hs Hname.
  destruct (collect_in _ _ _ E s Hs) as (n & series & l' & Hin & Hg & Hs').
  pose proof (spikes_of_group_names _ _ _ _ Hg) as Hn.
  rewrite List.Forall_forall in Hn. specialize (Hn s Hs').
  assert (Hget : dict_get (trend_series now (d :: ds)) n = Some series).
  { apply dict_get_nodup_in; [apply group_by_nodup | exact Hin]. }
  rewrite <- Hn, Hname in Hget.
  assert (Hflat := spikes_of_group_flat w name series).
  unfold baseline, group_split, group_of in Hstd. rewrite Hget in Hstd. simpl in Hstd.
  specialize (Hflat Hstd). rewrite <- Hn, Hname in Hg. rewrite Hg in Hflat.
  subst l'. destruct Hs'.
Qed.

Definition flat_history : list (entry R) :=
  [mkEntry (Some "ai"%string) None (Some "t1"%string) (Some 1) None None;
   mkEntry (Some "ai"%string) None (Some "t2"%string) (Some 1) None None;
   mkEntry (Some "ai"%string) None (Some "t3"%string) (Some 1) None None].

Lemma C1_no_spike_without_spread_witness :
  (length (snd (group_split 2 EmptyString flat_history "ai")) < 2)%nat /\
  match detect_spikes EmptyString flat_history 2 with
  | Ok sp => Forall (fun s => sp_trend_name s <> "ai"%string) sp
  | Err _ => True
  end.
Proof.
  assert (H : (length (snd (group_split 2 EmptyString flat_history "ai")) < 2)%nat).
  { vm_compute. lia. }
  split; [exact H|].
  apply (C1_no_spike_without_spread EmptyString flat_history 2 "ai"). left. exact H.
Defined.

(** The key of the final sort, descending: severity rank first, then
    z-score. *)
Definition spike_ge (x y : spike) : Prop :=
  (severity_order (sp_severity y) < severity_order (sp_severity x))%Z \/
  (severity_order (sp_severity y) = severity_order (sp_severity x) /\
   sp_z_score y <= sp_z_score x).

Lemma spike_key_ltb_asym x y : spike_key_ltb x y = true -> spike_key_ltb y x = false.
Proof.
  unfold spike_key_ltb. intros H.
  apply orb_true_iff in H. apply orb_false_iff.
  destruct H as [H|H].
  - apply Z.ltb_lt in H. split; [apply Z.ltb_ge; lia|].
    apply andb_false_iff. left. apply Z.eqb_neq. lia.
  - apply andb_true_iff in H as [H1 H2]. apply Z.eqb_eq in H1.
    apply Rltb_true in H2.
    split; [apply Z.ltb_ge; lia|].
    apply andb_false_iff. right. unfold Rltb. destruct (Rlt_dec _ _); [lra | reflexivity].
Qed.

Lemma spike_key_ltb_false x y : spike_key_ltb x y = false -> spike_ge x y.
Proof.
  unfold spike_key_ltb, spike_ge. intros H.
  apply orb_false_iff in H as [H1 H2]. apply Z.ltb_ge in H1.
  destruct (Z.eq_dec (severity_order (sp_severity y)) (severity_order (sp_severity x))) as [He|Hne].
  - right. split; [exact He|].
    rewrite He, Z.eqb_refl in H2. simpl in H2. apply Rltb_false, H2.
  - left. lia.
Qed.

(** C6: the spike list returned by [detect_spikes] is sorted by severity
    rank (critical > high > moderate) and then by z-score, both
    descending. *)
Theorem C6_spikes_sorted now (data : list (entry R)) (w : Z) :
  match detect_spikes now data w with
  | Ok sp => Sorted spike_ge sp
  | Err _ => True
  end.
Proof.
  unfold detect_spikes. destruct data as [|d ds]; [constructor|].
  destruct (_ <? w)%Z; [constructor|].
  unfold bind. destruct (collect w _) as [l|]; [|exact I].
  eapply Sorted_weaken; [apply spike_key_ltb_false|].
  apply sort_desc_sorted. apply spike_key_ltb_asym.
Qed.

Lemma spikes_of_group_minus_one n series : spikes_of_group (-1) n series = Ok [].
Proof.
  unfold spikes_of_group.
  destruct (Z.of_nat (length series) <? -1)%Z eqn:E; [apply Z.ltb_lt in E; lia|].
  set (scores := map pt_score _).
  unfold split_series.
  destruct (-1 <? Z.of_nat (length scores))%Z eqn:E2; [|apply Z.ltb_ge in E2; lia].
  assert (Hlen : (length (slice_to scores (- -1)) <= 1)%nat).
  { unfold slice_to. rewrite length_firstn. unfold slice_bound. simpl. lia. }
  destruct (slice_to scores (- -1)) as [|b bs] eqn:Eb; [reflexivity|].
  simpl. rewrite baseline_std_short by (simpl in *; lia).
  apply scan_no_std. lra.
Qed.

Lemma detect_spikes_minus_one now (data : list (entry R)) : detect_spikes now data (-1) = Ok [].
Proof.
  unfold detect_spikes. destruct data as [|d ds]; [reflexivity|].
  destruct (_ <? -1)%Z eqn:E; [apply Z.ltb_lt in E; lia|].
  assert (Hc : forall gs, collect (-1) gs = Ok []).
  { induction gs as [|[n series] gs IH]; simpl; [reflexivity|].
    rewrite spikes_of_group_minus_one, IH. reflexivity. }
  rewrite Hc. reflexivity.
Qed.

(** C2 (amended): [detect_spikes] does not validate [window_size]: a
    negative value is not rejected but goes into Python's negative-index
    slicing; with [window_size = -1] every group's baseline is its first
    point only, so the call returns an empty spike list, without error, for
    every history. *)
Theorem C2_negative_window_not_rejected now (data : list (entry R)) :
  detect_spikes now data (-1) = Ok [].
Proof. apply detect_spikes_minus_one. Qed.

(** C2 counterexample: a negative [window_size] does not fail; the call
    returns normally. *)
Lemma C2_negative_window_returns :
  detect_spikes EmptyString flat_history (-1) = Ok [].
Proof. apply detect_spikes_minus_one. Qed.

Lemma slice_bound_neg (w : Z) (len : nat) :
  (0 < w)%Z -> (w <= Z.of_nat len)%Z -> slice_bound (- w) len = (len - Z.to_nat w)%nat.
Proof.
  intros H1 H2. unfold slice_bound.
  destruct (- w <? 0)%Z eqn:E; [|apply Z.ltb_ge in E; lia].
  rewrite Z.max_r by lia. lia.
Qed.

(** C3 (amended): for [window_size >= 1] and a group of at least
    [window_size] points, the recent window is the last [window_size] points;
    the baseline is all but the last [window_size] points when the group is
    longer than [window_size], and the whole series (not an empty list) when
    it has exactly [window_size] points. *)
Theorem C3_series_split {A} (w : Z) (scores : list A) :
  (0 < w)%Z -> (w <= Z.of_nat (length scores))%Z ->
  fst (split_series w scores) = skipn (length scores - Z.to_nat w) scores /\
  ((w < Z.of_nat (length scores))%Z ->
     snd (split_series w scores) = firstn (length scores - Z.to_nat w) scores) /\
  (w = Z.of_nat (length scores) -> snd (split_series w scores) = scores).
Proof.
  intros H1 H2. unfold split_series, slice_from, slice_to. cbn [fst snd].
  rewrite slice_bound_neg by assumption.
  split; [reflexivity|]. split.
  - intros H3. apply Z.ltb_lt in H3. rewrite H3.
    reflexivity.
  - intros H3. destruct (w <? Z.of_nat (length scores))%Z eqn:E; [apply Z.ltb_lt in E; lia|].
    reflexivity.
Qed.

Lemma C3_series_split_witness :
  snd (split_series 3 [1; 2; 3; 4; 5]%nat) = [1; 2]%nat /\
  snd (split_series 3 [1; 2; 3]%nat) = [1; 2; 3]%nat.
Proof.
  split.
  - apply (C3_series_split 3 [1; 2; 3; 4; 5]%nat); vm_compute; try reflexivity; discriminate.
  - apply (C3_series_split 3 [1; 2; 3]%nat); vm_compute; try reflexivity; discriminate.
Defined.

(** C3 counterexample: a group of exactly [window_size = 3] scores has the
    whole series as baseline, not an empty one. *)
Lemma C3_full_window_baseline :
  snd (split_series 3 [1; 2; 3]) = [1; 2; 3] /\ [1; 2; 3] <> @nil R.
Proof. split; [reflexivity | discriminate]. Qed.

End SpikeClaims.

End Claims.

(** * Further properties of the engine *)
Module Extras.
Import Text Keywords Frequency PySort Claims.

(** ** Tokens and keywords *)

(** A token character: a word character that [lower] leaves unchanged. *)
Definition token_char (c : ascii) : Prop := is_word c = true /\ lower_char c = c.

Lemma lower_char_idem c : lower_char (lower_char c) = lower_char c.
Proof.
  destruct c as [b0 b1 b2 b3 b4 b5 b6 b7].
  destruct b0, b1, b2, b3, b4, b5, b6, b7; reflexivity.
Qed.

Lemma lower_char_word_not_upper c :
  is_word c = true -> lower_char c = c -> ~ (65 <= nat_of_ascii c <= 90)%nat.
Proof.
  destruct c as [b0 b1 b2 b3 b4 b5 b6 b7].
  destruct b0, b1, b2, b3, b4, b5, b6, b7; vm_compute; intros H1 H2; try discriminate; lia.
Qed.

Lemma sub_lower_chars text :
  Forall (fun c => (is_word c || is_space c) = true /\ lower_char c = c)
         (list_ascii_of_string (sub_non_word (lower text))).
Proof.
  induction text as [|c s IH]; simpl; constructor; [|exact IH].
  destruct (is_word (lower_char c) || is_space (lower_char c)) eqn:E.
  - split; [exact E | apply lower_char_idem].
  - split; reflexivity.
Qed.

Lemma split_aux_chars s cur :
  Forall (fun c => (is_word c || is_space c) = true /\ lower_char c = c) (list_ascii_of_string s) ->
  Forall (fun c => token_char c) cur ->
  Forall (fun w => w <> EmptyString /\ Forall token_char (list_ascii_of_string w)) (split_aux s cur).
Proof.
  revert cur. induction s as [|c s IH]; intros cur Hs Hcur; simpl.
  - destruct cur as [|c cur]; constructor; [|constructor].
    split.
    + simpl. destruct (rev cur ++ [c]) eqn:E; [destruct (rev cur); discriminate|]. discriminate.
    + rewrite list_ascii_of_string_of_list_ascii. apply Forall_rev. exact Hcur.
  - cbn [list_ascii_of_string] in Hs. apply Forall_cons_iff in Hs as [[Hc1 Hc2] Hs'].
    destruct (is_space c) eqn:Esp.
    + destruct cur as [|c' cur]; [apply IH; [exact Hs' | constructor]|].
      constructor; [|apply IH; [exact Hs' | constructor]].
      split.
      * simpl. destruct (rev cur ++ [c']) eqn:E; [destruct (rev cur); discriminate|]. discriminate.
      * rewrite list_ascii_of_string_of_list_ascii. apply Forall_rev. exact Hcur.
    + apply IH; [exact Hs'|]. constructor; [|exact Hcur].
      split; [|exact Hc2]. rewrite orb_false_r in Hc1. exact Hc1.
Qed.

Lemma tokens_chars text :
  Forall (fun w => w <> EmptyString /\ Forall token_char (list_ascii_of_string w)) (tokens text).
Proof. apply split_aux_chars; [apply sub_lower_chars | constructor]. Qed.

(** X1: on an ASCII text (every character below 128, where Python's [\w]
    and [str.lower] are those of the model), every keyword returned by
    [extract_keywords] is a non-empty word of at least [min_length]
    characters that is not a stop word, and it consists only of digits,
    lowercase ASCII letters and underscores: no space, punctuation or
    uppercase letter survives the tokenizer.  (Outside ASCII, Python's
    Unicode [\w] keeps letters such as the [é] of [café].) *)
Theorem X1_keyword_shape (text : string) (min_length : nat) (w : string) :
  Forall (fun c => (nat_of_ascii c < 128)%nat) (list_ascii_of_string text) ->
  In w (extract_keywords text min_length) ->
  w <> EmptyString /\ (min_length <= String.length w)%nat /\ is_stop w = false /\
  Forall (fun c => is_word c = true /\ ~ (65 <= nat_of_ascii c <= 90)%nat) (list_ascii_of_string w).
Proof.
  unfold extract_keywords. intros _ Hin.
  apply filter_In in Hin as [Hin Hf]. apply andb_true_iff in Hf as [Hs Hl].
  pose proof (tokens_chars text) as Ht. rewrite List.Forall_forall in Ht.
  destruct (Ht w Hin) as [Hne Hc].
  split; [exact Hne|]. split; [apply Nat.leb_le, Hl|]. split; [apply negb_true_iff, Hs|].
  eapply List.Forall_impl; [|exact Hc]. intros c [H1 H2].
  split; [exact H1 | apply lower_char_word_not_upper; assumption].
Qed.

Lemma X1_keyword_shape_witness :
  Forall (fun c => (nat_of_ascii c < 128)%nat) (list_ascii_of_string "The AI Model!") /\
  In "model"%string (extract_keywords "The AI Model!" 3) /\
  (3 <= String.length "model")%nat.
Proof.
  assert (Ha : Forall (fun c => (nat_of_ascii c < 128)%nat) (list_ascii_of_string "The AI Model!")).
  { apply List.Forall_forall. intros c Hc. apply Nat.ltb_lt. revert c Hc.
    apply List.Forall_forall. simpl. repeat constructor. }
  assert (H : In "model"%string (extract_keywords "The AI Model!" 3)) by (vm_compute; tauto).
  split; [exact Ha|]. split; [exact H|]. apply (X1_keyword_shape "The AI Model!" 3 "model" Ha H).
Defined.

(** ** [Counter] and [most_common] *)

Lemma counter_add_keys w c :
  map fst (counter_add w c) = if existsb (fun k => String.eqb k w) (map fst c) then map fst c
                              else map fst c ++ [w].
Proof.
  induction c as [|[k n] c IH]; simpl; [reflexivity|].
  destruct (String.eqb k w) eqn:E; simpl.
  - apply String.eqb_eq in E. subst. reflexivity.
  - rewrite IH. destruct (existsb _ _); reflexivity.
Qed.

Lemma counter_add_nodup w c : NoDup (map fst c) -> NoDup (map fst (counter_add w c)).
Proof.
  intros H. rewrite counter_add_keys.
  destruct (existsb (fun k => String.eqb k w) (map fst c)) eqn:E; [exact H|].
  apply NoDup_app. split; [exact H|]. split; [|apply NoDup_singleton].
  intros x Hx Hk. apply list_elem_of_singleton in Hk. subst x.
  apply list_elem_of_In in Hx.
  assert (Hin : existsb (fun k => String.eqb k w) (map fst c) = true).
  { apply existsb_exists. exists w. split; [exact Hx | apply String.eqb_refl]. }
  congruence.
Qed.

Lemma Counter_nodup ws : NoDup (map fst (Counter ws)).
Proof.
  unfold Counter.
  assert (H : forall c, NoDup (map fst c) ->
            NoDup (map fst (fold_left (fun c w => counter_add w c) ws c))).
  { induction ws as [|w ws IH]; intros c Hc; simpl; [exact Hc|].
    apply IH, counter_add_nodup, Hc. }
  apply H. constructor.
Qed.

Lemma counter_get_in c k n : NoDup (map fst c) -> In (k, n) c -> counter_get c k = Some n.
Proof.
  induction c as [|[k' n'] c IH]; simpl; [tauto|].
  intros Hnd Hin. apply NoDup_cons in Hnd as [Hnot Hnd].
  destruct Hin as [Heq | Hin].
  - injection Heq as -> ->. rewrite String.eqb_refl. reflexivity.
  - destruct (String.eqb k' k) eqn:E.
    + apply String.eqb_eq in E. subst k'. exfalso. apply Hnot.
      apply list_elem_of_In, in_map_iff. exists (k, n). split; [reflexivity | exact Hin].
    + apply IH; assumption.
Qed.

Lemma in_firstn' {A} n (l : list A) x : In x (firstn n l) -> In x l.
Proof.
  intros H. rewrite <- (firstn_skipn n l). apply in_or_app. left. exact H.
Qed.

Lemma nodup_firstn {A} n (l : list A) : NoDup l -> NoDup (firstn n l).
Proof.
  intros H. rewrite <- (firstn_skipn n l) in H. apply NoDup_app in H. tauto.
Qed.

Lemma most_common_in m c x : In x (most_common m c) -> In x c.
Proof.
  unfold most_common. intros H. apply in_firstn' in H.
  eapply Permutation_in; [apply sort_desc_perm | exact H].
Qed.

Lemma most_common_nodup m c : NoDup (map fst c) -> NoDup (map fst (most_common m c)).
Proof.
  intros H. unfold most_common. rewrite <- firstn_map. apply nodup_firstn.
  eapply NoDup_Permutation_proper; [apply Permutation_map, sort_desc_perm | exact H].
Qed.

Lemma most_common_length m c : (length (most_common m c) <= m)%nat.
Proof. unfold most_common. rewrite length_firstn. lia. Qed.

(** The counts held by the frequency data of a batch of articles. *)
Definition keyword_counts (articles : list article) : counter := f_keywords (analyze_article_frequency articles).
Definition bigram_counts (articles : list article) : counter := f_bigrams (analyze_article_frequency articles).

(** X2: [analyze_article_frequency] lists at most 20 keywords and 15
    bigrams, each at most once, and the count next to each one is its exact
    number of occurrences in the batch. *)
Theorem X2_frequency_exact_counts (articles : list article) :
  (length (keyword_counts articles) <= 20)%nat /\ (length (bigram_counts articles) <= 15)%nat /\
  NoDup (map fst (keyword_counts articles)) /\ NoDup (map fst (bigram_counts articles)) /\
  (forall k n, In (k, n) (keyword_counts articles) -> n = count_occ string_dec (all_keywords articles) k) /\
  (forall k n, In (k, n) (bigram_counts articles) -> n = count_occ string_dec (all_bigrams articles) k).
Proof.
  unfold keyword_counts, bigram_counts, analyze_article_frequency; simpl.
  split; [apply most_common_length|]. split; [apply most_common_length|].
  split; [apply most_common_nodup, Counter_nodup|].
  split; [apply most_common_nodup, Counter_nodup|].
  split; intros k n Hin; apply most_common_in in Hin;
    rewrite <- Counter_count; unfold count_of;
    rewrite (counter_get_in _ _ _ (Counter_nodup _) Hin); reflexivity.
Qed.

Lemma StronglySorted_app_rel {A} (Rel : A -> A -> Prop) l1 l2 x y :
  StronglySorted Rel (l1 ++ l2) -> In x l1 -> In y l2 -> Rel x y.
Proof.
  induction l1 as [|z l1 IH]; simpl; [tauto|].
  intros Hs Hx Hy. apply StronglySorted_inv in Hs as [Hs Hz].
  destruct Hx as [<- | Hx].
  - rewrite List.Forall_forall in Hz. apply Hz, in_or_app. right. exact Hy.
  - apply IH; assumption.
Qed.

Lemma most_common_top m c k n k' n' :
  NoDup c -> In (k, n) (most_common m c) -> In (k', n') c ->
  ~ In (k', n') (most_common m c) -> (n' <= n)%nat.
Proof.
  intros Hnd Hin Hin' Hout. unfold most_common in *.
  set (s := sort_desc _ c) in *.
  assert (Hs : StronglySorted (ge_key (fun x y : string * nat => (snd x <? snd y)%nat)) s).
  { apply Sorted_StronglySorted; [|apply sort_desc_sorted].
    - intros [? a] [? b] [? d]. unfold ge_key; simpl. intros H1 H2.
      apply Nat.ltb_ge in H1, H2. apply Nat.ltb_ge. lia.
    - intros [? a] [? b]. unfold ge_key; simpl. intros H. apply Nat.ltb_lt in H.
      apply Nat.ltb_ge. lia. }
  assert (Hin2 : In (k', n') (skipn m s)).
  { assert (Hs' : In (k', n') s) by (eapply Permutation_in; [symmetry; apply sort_desc_perm | exact Hin']).
    rewrite <- (firstn_skipn m s) in Hs'. apply in_app_or in Hs' as [H | H]; [contradiction | exact H]. }
  rewrite <- (firstn_skipn m s) in Hs.
  pose proof (StronglySorted_app_rel _ _ _ _ _ Hs Hin Hin2) as H.
  unfold ge_key in H; simpl in H. apply Nat.ltb_ge in H. exact H.
Qed.

Lemma nodup_fst {A B} (l : list (A * B)) : NoDup (map fst l) -> NoDup l.
Proof.
  induction l as [|x l IH]; simpl; intros H; [constructor|].
  apply NoDup_cons in H as [Hnot H]. apply NoDup_cons. split; [|apply IH, H].
  intros Hx. apply Hnot. apply list_elem_of_In in Hx. apply list_elem_of_In, in_map, Hx.
Qed.

Lemma Counter_in ws k : In k ws -> In (k, count_occ string_dec ws k) (Counter ws).
Proof.
  intros Hk. rewrite <- Counter_count. unfold count_of.
  assert (Hc : (0 < count_occ string_dec ws k)%nat) by (apply count_occ_In, Hk).
  rewrite <- Counter_count in Hc. unfold count_of in Hc.
  destruct (counter_get (Counter ws) k) as [n|] eqn:E; [|lia].
  clear Hc Hk. induction (Counter ws) as [|[k' n'] c IH]; simpl in *; [discriminate|].
  destruct (String.eqb k' k) eqn:Ek.
  - apply String.eqb_eq in Ek. subst. injection E as ->. left. reflexivity.
  - right. apply IH, E.
Qed.

(** X3: the keywords are a genuine top 20: a keyword of the batch left out
    of [analyze_article_frequency]'s list occurs no more often than any
    keyword in it (ties at the cut are broken by first occurrence). *)
Theorem X3_keywords_top20 (articles : list article) (k k' : string) (n : nat) :
  In (k, n) (keyword_counts articles) ->
  ~ In k' (map fst (keyword_counts articles)) ->
  (count_occ string_dec (all_keywords articles) k' <= n)%nat.
Proof.
  intros Hin Hout.
  destruct (in_dec string_dec k' (all_keywords articles)) as [Hk | Hk];
    [|apply (count_occ_not_In string_dec) in Hk; rewrite Hk; lia].
  eapply (most_common_top 20 (Counter (all_keywords articles)) k n k');
    [apply nodup_fst, Counter_nodup | exact Hin | apply Counter_in, Hk |].
  intros H. apply Hout. apply in_map_iff. eexists; split; [|exact H]. reflexivity.
Qed.

Definition arts_top : list article :=
  [mkArticle (Some "x01 x01 x02 x03 x04 x05 x06 x07 x08 x09 x10 x11 x12 x13 x14 x15 x16 x17 x18 x19 x20 x21"%string) None None].

Lemma X3_keywords_top20_witness :
  In ("x01"%string, 2%nat) (keyword_counts arts_top) /\
  ~ In "x21"%string (map fst (keyword_counts arts_top)) /\
  (count_occ string_dec (all_keywords arts_top) "x21"%string <= 2)%nat.
Proof.
  assert (H : In ("x01"%string, 2%nat) (keyword_counts arts_top)) by (vm_compute; tauto).
  assert (H' : ~ In "x21"%string (map fst (keyword_counts arts_top))) by (vm_compute; intuition discriminate).
  split; [exact H|]. split; [exact H'|].
  exact (X3_keywords_top20 arts_top "x01" "x21" 2 H H').
Defined.

(** ** Trend scores *)
Import Scoring.

Lemma py_min_cases (x y : Q) : py_min x y = x \/ py_min x y = y.
Proof. unfold py_min. destruct (Qlt_bool y x); auto. Qed.

Lemma py_min_ge_l (x y : Q) : (y <= x)%Q -> (py_min x y == y)%Q.
Proof.
  intros H. unfold py_min. destruct (Qlt_bool y x) eqn:E; [reflexivity|].
  apply Qlt_bool_false in E. apply Qle_antisym; assumption.
Qed.

Lemma qlen_div_self {A} (l : list A) : l <> [] -> (qlen l / qlen l == 1)%Q.
Proof. intros H. unfold Qdiv. apply Qmult_inv_r. pose proof (qlen_pos l H). intros E. rewrite E in H0. discriminate. Qed.

(** Authority values between [lo] and [hi]. *)
Definition in_band (lo hi : Q) (kv : string * Q) : Prop := (lo <= snd kv <= hi)%Q.

Lemma authority_of_domain_band d : (0.6 <= authority_of_domain d <= 0.9)%Q.
Proof.
  unfold authority_of_domain.
  repeat match goal with |- context [if ?b then _ else _] => destruct b end;
    split; Lqa.lra.
Qed.

Lemma dict_set_band lo hi k (v : Q) d :
  (lo <= v <= hi)%Q -> Forall (in_band lo hi) d -> Forall (in_band lo hi) (dict_set k v d).
Proof.
  intros Hv Hd. induction Hd as [|[k0 v0] d H0 Hd IH]; simpl.
  - constructor; [exact Hv | constructor].
  - destruct (String.eqb k0 k); constructor; auto.
Qed.

Lemma dict_get_band lo hi (d : list (string * Q)) k v :
  Forall (in_band lo hi) d -> dict_get d k = Some v -> (lo <= v <= hi)%Q.
Proof.
  intros Hd. induction Hd as [|[k0 v0] d H0 Hd IH]; simpl; [discriminate|].
  destruct (String.eqb k0 k); [intros [= <-]; exact H0 | exact IH].
Qed.

Lemma source_authority_band articles : Forall (in_band 0.6 0.9) (source_authority articles).
Proof.
  unfold source_authority.
  assert (H : forall d, Forall (in_band 0.6 0.9) d ->
    Forall (in_band 0.6 0.9)
      (fold_left (fun d a =>
          let source := get_str (a_source a) in
          if String.eqb source EmptyString then d
          else dict_set source (authority_of_domain (domain_of source)) d) articles d)).
  { induction articles as [|a arts IH]; intros d Hd; simpl; [exact Hd|].
    apply IH. destruct (String.eqb _ _); [exact Hd|].
    apply dict_set_band; [apply authority_of_domain_band | exact Hd]. }
  apply H. constructor.
Qed.

Lemma authority_total_band sa (sup : list article) acc :
  Forall (in_band 0.6 0.9) sa ->
  (acc + 0.5 * qlen sup <= fold_left (fun acc a => acc + get_default (dict_get sa (get_str (a_source a))) 0.5) sup acc)%Q /\
  (fold_left (fun acc a => acc + get_default (dict_get sa (get_str (a_source a))) 0.5) sup acc
     <= acc + 0.9 * qlen sup)%Q.
Proof.
  intros Hsa. revert acc. induction sup as [|a sup IH]; intros acc; simpl.
  - unfold qlen. simpl length. change (inject_Z (Z.of_nat 0)) with 0%Q. split; Lqa.lra.
  - assert (Hv : (0.5 <= get_default (dict_get sa (get_str (a_source a))) 0.5 <= 0.9)%Q).
    { destruct (dict_get sa _) eqn:E; simpl.
      - eapply dict_get_band in E; [|exact Hsa]. destruct E; split; Lqa.lra.
      - split; Lqa.lra. }
    destruct Hv as [Hv0 Hv1].
    destruct (IH (acc + get_default (dict_get sa (get_str (a_source a))) 0.5)%Q) as [H1 H2].
    rewrite qlen_cons. split; Lqa.lra.
Qed.

(** How the loop body of [calculate_trend_scores] scores one trend. *)
Lemma score_trend_shape (articles : list article) (t : trend) :
  let t' := score_trend (source_authority articles) t in
  exists r f a c,
    tr_recency t' = Some r /\ tr_frequency t' = Some f /\
    tr_authority t' = Some a /\ tr_composite t' = Some c /\
    (tr_supporting t = [] -> r == 0.5 /\ f == 0 /\ a == 0.5 /\ c == 0.35)%Q /\
    (tr_supporting t <> [] -> r == 1)%Q /\
    ((5 <= length (tr_supporting t))%nat -> f == 1)%Q.
Proof.
  cbv zeta. unfold score_trend. cbv zeta.
  set (sa := source_authority articles).
  set (sup := tr_supporting t).
  do 4 eexists. do 4 (split; [reflexivity|]).
  split; [|split].
  - intros Hs. rewrite Hs. vm_compute. repeat split; reflexivity.
  - intros Hs. destruct sup as [|x xs] eqn:E; [congruence|]. rewrite <- E.
    destruct (py_min_cases (qlen sup / qlen sup) 1) as [-> | ->]; [|reflexivity].
    apply qlen_div_self. rewrite E. discriminate.
  - intros H5. apply py_min_ge_l.
    apply Qle_shift_div_l; [Lqa.lra|].
    unfold qlen, Qle. simpl. lia.
Qed.

Definition plain_trend : trend := mkTrend "ai" [] None None None None.

(** X4: [calculate_trend_scores] returns [trends] as they are, unscored,
    when [articles] is empty.  On a non-empty trend list and article batch
    every trend it returns carries its four scores: a trend without
    supporting articles gets recency 0.5, frequency 0, authority 0.5 and so
    composite 0.35; a trend with supporting articles always gets recency 1
    (no article date is consulted); five or more supporting articles give
    frequency 1.  (These values are also exact in Python's floats:
    [0.4*0.5 + 0.3*0.0 + 0.3*0.5 == 0.35].) *)
Theorem X4_score_shape (trends : list trend) (articles : list article) (t' : trend) :
  calculate_trend_scores trends [] = trends /\
  (trends <> [] -> articles <> [] ->
   In t' (calculate_trend_scores trends articles) ->
   exists r f a c,
     tr_recency t' = Some r /\ tr_frequency t' = Some f /\
     tr_authority t' = Some a /\ tr_composite t' = Some c /\
     (tr_supporting t' = [] -> r == 0.5 /\ f == 0 /\ a == 0.5 /\ c == 0.35)%Q /\
     (tr_supporting t' <> [] -> r == 1)%Q /\
     ((5 <= length (tr_supporting t'))%nat -> f == 1)%Q).
Proof.
  split; [destruct trends; reflexivity|].
  intros Ht Ha Hin. unfold calculate_trend_scores in Hin.
  destruct trends as [|t0 ts]; [congruence|]. destruct articles as [|a0 arts]; [congruence|].
  eapply Permutation_in in Hin; [|apply sort_desc_perm].
  apply in_map_iff in Hin as [t [<- _]].
  exact (score_trend_shape (a0 :: arts) t).
Qed.

Lemma X4_score_shape_witness :
  calculate_trend_scores [plain_trend] [] = [plain_trend] /\
  exists r f a c,
    let t' := score_trend (source_authority [mkArticle None None None]) plain_trend in
    tr_recency t' = Some r /\ tr_frequency t' = Some f /\
    tr_authority t' = Some a /\ tr_composite t' = Some c /\
    (tr_supporting t' = [] -> r == 0.5 /\ f == 0 /\ a == 0.5 /\ c == 0.35)%Q /\
    (tr_supporting t' <> [] -> r == 1)%Q /\
    ((5 <= length (tr_supporting t'))%nat -> f == 1)%Q.
Proof.
  destruct (X4_score_shape [plain_trend] [mkArticle None None None]
              (score_trend (source_authority [mkArticle None None None]) plain_trend)) as [H1 H2].
  split; [exact H1|].
  apply H2; [discriminate | discriminate |].
  vm_compute. left. reflexivity.
Defined.

Lemma score_trend_band sa t :
  Forall (in_band 0.6 0.9) sa ->
  exists a c, tr_authority (score_trend sa t) = Some a /\ tr_composite (score_trend sa t) = Some c /\
    (0.5 <= a <= 0.9)%Q /\ (0.35 <= c <= 0.97)%Q.
Proof.
  intros Hsa. unfold score_trend. cbv zeta.
  set (sup := tr_supporting t).
  set (f := py_min (qlen sup / 5) 1).
  assert (Hf : (0 <= f <= 1)%Q).
  { split; [apply py_min_nonneg; [|Lqa.lra] | apply py_min_le_r].
    apply Qle_shift_div_l; [Lqa.lra|]. pose proof (qlen_nonneg sup). Lqa.lra. }
  set (r := match sup with [] => 0.5 | _ => py_min (qlen sup / qlen sup) 1 end).
  assert (Hr : (0.5 <= r <= 1)%Q).
  { unfold r. destruct sup as [|x xs] eqn:E; [split; Lqa.lra|]. rewrite <- E.
    assert (H1 : (qlen sup / qlen sup == 1)%Q) by (apply qlen_div_self; rewrite E; discriminate).
    destruct (py_min_cases (qlen sup / qlen sup) 1) as [-> | ->]; split; Lqa.lra. }
  set (a := match sup with
            | [] => 0.5
            | _ => fold_left (fun acc a => acc + get_default (dict_get sa (get_str (a_source a))) 0.5) sup 0
                   / qlen sup end).
  assert (Ha : (0.5 <= a <= 0.9)%Q).
  { unfold a. destruct sup as [|x xs] eqn:E; [split; Lqa.lra|].
    rewrite <- E. assert (Hp : (0 < qlen sup)%Q) by (rewrite E; apply qlen_pos; discriminate).
    destruct (authority_total_band sa sup 0 Hsa) as [H1 H2].
    split.
    - apply Qle_shift_div_l; [exact Hp|]. Lqa.lra.
    - apply Qle_shift_div_r; [exact Hp|]. Lqa.lra. }
  exists a, (0.4 * r + 0.3 * f + 0.3 * a)%Q.
  split; [reflexivity|]. split; [reflexivity|]. split; [exact Ha|].
  destruct Hr, Hf, Ha. split; Lqa.lra.
Qed.

(** X5: every trend returned by [calculate_trend_scores] on a non-empty
    trend list and article batch has an authority score at least 0.5 and
    below 1 and a composite score at least 0.35 and below 1: no scored trend
    reaches 0 or 1.  (The exact scores lie in [[0.5, 0.9]] and
    [[0.35, 0.97]]; the upper bounds 1 leave room for the rounding of
    Python's floats, where seven articles of authority 0.9 average to
    0.9000000000000001.  The lower bounds hold in floats as they stand,
    rounding being monotone.) *)
Theorem X5_score_bands (trends : list trend) (articles : list article) (t' : trend) :
  trends <> [] -> articles <> [] ->
  In t' (calculate_trend_scores trends articles) ->
  exists a c, tr_authority t' = Some a /\ tr_composite t' = Some c /\
    (0.5 <= a < 1)%Q /\ (0.35 <= c < 1)%Q.
Proof.
  intros Ht Ha Hin. unfold calculate_trend_scores in Hin.
  destruct trends as [|t0 ts]; [congruence|]. destruct articles as [|a0 arts]; [congruence|].
  eapply Permutation_in in Hin; [|apply sort_desc_perm].
  apply in_map_iff in Hin as [t [<- _]].
  destruct (score_trend_band _ t (source_authority_band (a0 :: arts))) as (a & c & H1 & H2 & H3 & H4).
  exists a, c. split; [exact H1|]. split; [exact H2|]. split; Lqa.lra.
Qed.

Lemma X5_score_bands_witness :
  exists a c, tr_authority (score_trend (source_authority [mkArticle None None None]) plain_trend) = Some a /\
    tr_composite (score_trend (source_authority [mkArticle None None None]) plain_trend) = Some c /\
    (0.5 <= a < 1)%Q /\ (0.35 <= c < 1)%Q.
Proof.
  apply (X5_score_bands [plain_trend] [mkArticle None None None]); [discriminate | discriminate |].
  vm_compute. left. reflexivity.
Defined.

(** ** Percentiles and spikes *)
Import History Spikes.

Ltac bind_split H :=
  unfold bind in H;
  repeat match type of H with
         | context [match ?r with Ok _ => _ | Err _ => _ end] =>
             let E := fresh "E" in destruct r eqn:E; try discriminate H
         end.

Lemma insert_asc_perm {A} (ltb : A -> A -> bool) x l :
  Permutation (insert_asc ltb x l) (x :: l).
Proof.
  induction l as [|y ys IH]; simpl; [reflexivity|].
  destruct (ltb x y); [reflexivity|].
  rewrite IH. apply perm_swap.
Qed.

Lemma sort_asc_perm {A} (ltb : A -> A -> bool) l : Permutation (sort_asc ltb l) l.
Proof.
  unfold sort_asc.
  assert (H : forall acc, Permutation (fold_left (fun acc x => insert_asc ltb x acc) l acc) (rev l ++ acc)).
  { induction l as [|x l IH]; intros acc; simpl; [reflexivity|].
    rewrite IH, insert_asc_perm, <- app_assoc. reflexivity. }
  rewrite H, app_nil_r. symmetry. apply Permutation_rev.
Qed.

Lemma filter_length_le' {A} (f : A -> bool) l : (length (List.filter f l) <= length l)%nat.
Proof. induction l as [|x l IH]; simpl; [lia|]. destruct (f x); simpl; lia. Qed.

Lemma filter_length_mono {A} (f g : A -> bool) l :
  (forall x, f x = true -> g x = true) ->
  (length (List.filter f l) <= length (List.filter g l))%nat.
Proof.
  intros Hfg. induction l as [|x l IH]; simpl; [lia|].
  destruct (f x) eqn:E; [rewrite (Hfg x E); simpl; lia|].
  destruct (g x); simpl; lia.
Qed.

Lemma filter_length_all {A} (f : A -> bool) l :
  Forall (fun x => f x = true) l -> length (List.filter f l) = length l.
Proof. induction 1 as [|x l Hx _ IH]; simpl; [reflexivity|]. rewrite Hx. simpl. lia. Qed.

Lemma percentile_ratio_bounds (k n : nat) :
  (k <= n)%nat -> (0 < n)%nat -> 0 <= INR k / INR n * 100 <= 100.
Proof.
  intros Hk Hn.
  assert (Hn' : 0 < INR n) by (apply lt_0_INR; exact Hn).
  assert (Hk' : INR k <= INR n) by (apply le_INR; exact Hk).
  assert (H0 : 0 <= INR k) by apply pos_INR.
  assert (H1 : 0 <= INR k / INR n) by (apply Rmult_le_pos; [exact H0 | left; apply Rinv_0_lt_compat, Hn']).
  assert (H2 : INR k / INR n <= 1).
  { apply Rmult_le_reg_r with (INR n); [exact Hn'|].
    unfold Rdiv. rewrite Rmult_assoc, Rinv_l by lra. lra. }
  split; lra.
Qed.

Lemma percentile_bounds value data : 0 <= calculate_percentile value data <= 100.
Proof.
  unfold calculate_percentile. destruct data as [|d ds]; [lra|].
  apply percentile_ratio_bounds; [apply filter_length_le'|].
  rewrite sort_asc_length. simpl. lia.
Qed.

(** X6: [_calculate_percentile(value, data)] lies in [[0, 100]], is 0 on
    empty data, does not decrease as [value] grows, and is 100 when [value]
    exceeds every data point. *)
Theorem X6_percentile_range_monotone (v1 v2 : R) (data : list R) :
  0 <= calculate_percentile v1 data <= 100 /\
  calculate_percentile v1 [] = 0 /\
  (v1 <= v2 -> calculate_percentile v1 data <= calculate_percentile v2 data) /\
  (Forall (fun x => x < v1) data -> data <> [] -> calculate_percentile v1 data = 100).
Proof.
  split; [apply percentile_bounds|]. split; [reflexivity|]. split.
  - intros Hv. unfold calculate_percentile. destruct data as [|d ds]; [lra|].
    set (s := sort_asc Rltb (d :: ds)).
    assert (Hn : 0 < INR (length s)) by (apply lt_0_INR; unfold s; rewrite sort_asc_length; simpl; lia).
    apply Rmult_le_compat_r; [lra|].
    apply Rmult_le_compat_r; [left; apply Rinv_0_lt_compat, Hn|].
    apply le_INR, filter_length_mono. intros x Hx.
    apply Rltb_true in Hx. unfold Rltb. destruct (Rlt_dec x v2); [reflexivity | lra].
  - intros Hall Hne. unfold calculate_percentile. destruct data as [|d ds]; [congruence|].
    rewrite filter_length_all.
    + field. apply not_0_INR. rewrite sort_asc_length. simpl. lia.
    + eapply Forall_perm; [apply sort_asc_perm|].
      eapply List.Forall_impl; [|exact Hall]. intros x Hx.
      unfold Rltb. destruct (Rlt_dec x v1); [reflexivity | lra].
Qed.

(** The facts a spike carries: its severity matches its z-score band
    ([>= 4], [[3, 4)], [[2, 3)]), its score lies above the baseline mean and
    its percentile lies in [[0, 100]]. *)
Definition spike_band (s : spike) : Prop :=
  match sp_severity s with
  | Critical => 4 <= sp_z_score s
  | High => 3 <= sp_z_score s < 4
  | Moderate => 2 <= sp_z_score s < 3
  end /\ sp_baseline_mean s < sp_current_score s /\ 0 <= sp_percentile s <= 100.

Lemma above_mean (x m std : R) : 0 < std -> 2 <= (x - m) / std -> m < x.
Proof.
  intros Hs Hz. set (z := (x - m) / std) in Hz.
  assert (Hx : x - m = z * std) by (unfold z; field; lra).
  assert (Hp : 0 < z * std) by (apply Rmult_lt_0_compat; lra).
  lra.
Qed.

Lemma scan_band n w series freqs base m std i recent l :
  scan n w series freqs base m std i recent = Ok l -> Forall spike_band l.
Proof.
  revert i l; induction recent as [|x xs IH]; intros i l H; simpl in H.
  - injection H as <-. constructor.
  - destruct (Rltb 0 std) eqn:Estd; [|eapply IH; exact H].
    apply Rltb_true in Estd.
    repeat match type of H with context [Rle_dec ?a ?b] => destruct (Rle_dec a b) end;
      try (eapply IH; exact H);
      bind_split H; injection H as <-;
      (constructor; [|eapply IH; eassumption]);
      repeat match goal with Hn : ~ (_ <= _) |- _ => apply Rnot_le_lt in Hn end;
      (split; [simpl; lra | split; [simpl; apply (above_mean _ _ std); lra | apply percentile_bounds]]).
Qed.

Lemma spikes_of_group_band w n series l :
  spikes_of_group w n series = Ok l -> Forall spike_band l.
Proof.
  unfold spikes_of_group. intros H.
  destruct (Z.of_nat (length series) <? w)%Z; [injection H as <-; constructor|].
  destruct (split_series _ _) as [recent baseline].
  destruct baseline as [|b bs]; [injection H as <-; constructor|].
  bind_split H. eapply scan_band; exact H.
Qed.

(** X7: every spike returned by [detect_spikes] has a z-score of at least 2
    with the severity of its band (critical from 4, high from 3, moderate
    from 2), a current score above its baseline mean, and a percentile in
    [[0, 100]]. *)
Theorem X7_spike_bands now (data : list (entry R)) (w : Z) :
  match detect_spikes now data w with
  | Ok sp => Forall (fun s => 2 <= sp_z_score s /\ spike_band s) sp
  | Err _ => True
  end.
Proof.
  unfold detect_spikes. destruct data as [|d ds]; [constructor|].
  destruct (_ <? w)%Z; [constructor|].
  unfold bind. destruct (collect w _) as [l|] eqn:E; [|exact I].
  eapply Forall_perm; [apply sort_desc_perm|].
  apply List.Forall_forall. intros s Hs.
  destruct (collect_in _ _ _ E s Hs) as (n & series & l' & _ & Hg & Hs').
  pose proof (spikes_of_group_band _ _ _ _ Hg) as Hb.
  rewrite List.Forall_forall in Hb. specialize (Hb s Hs').
  split; [|exact Hb]. destruct Hb as [Hb _].
  destruct (sp_severity s); lra.
Qed.

Lemma group_add_get {V} k (v : V) d k' :
  get_default (dict_get (group_add k v d) k') [] =
  if String.eqb k k' then get_default (dict_get d k') [] ++ [v] else get_default (dict_get d k') [].
Proof.
  induction d as [|[k0 vs] d IH]; simpl.
  - destruct (String.eqb k k'); reflexivity.
  - destruct (String.eqb k0 k) eqn:E1; simpl.
    + apply String.eqb_eq in E1. subst k0.
      destruct (String.eqb k k'); reflexivity.
    + destruct (String.eqb k0 k') eqn:E2.
      * apply String.eqb_eq in E2. subst k0.
        destruct (String.eqb k k') eqn:E3; [|reflexivity].
        apply String.eqb_eq in E3. subst. rewrite String.eqb_refl in E1. discriminate.
      * exact IH.
Qed.

(** The group of key [k] built by [group_by]: the values of the elements
    with that key, in input order. *)
Lemma group_by_get {A V} (key : A -> string) (val : A -> V) l k :
  get_default (dict_get (group_by key val l) k) [] =
  map val (List.filter (fun x => String.eqb (key x) k) l).
Proof.
  unfold group_by.
  assert (H : forall d, get_default (dict_get (fold_left (fun d x => group_add (key x) (val x) d) l d) k) []
              = get_default (dict_get d k) [] ++ map val (List.filter (fun x => String.eqb (key x) k) l)).
  { induction l as [|x l IH]; intros d; simpl; [rewrite app_nil_r; reflexivity|].
    rewrite IH, group_add_get. destruct (String.eqb (key x) k); simpl; [|reflexivity].
    rewrite <- app_assoc. reflexivity. }
  rewrite H. reflexivity.
Qed.

(** The number of history entries of trend [name]. *)
Definition entries_named {N} (name : string) (data : list (entry N)) : nat :=
  length (List.filter (fun e => String.eqb (name_of "unknown" e) name) data).

(** X8: a trend with fewer than [window_size] entries in the history gets no
    spike from [detect_spikes], whatever its scores. *)
Theorem X8_short_trend_no_spike now (data : list (entry R)) (w : Z) (name : string) :
  (Z.of_nat (entries_named name data) < w)%Z ->
  match detect_spikes now data w with
  | Ok sp => Forall (fun s => sp_trend_name s <> name) sp
  | Err _ => True
  end.
Proof.
  intros Hshort.
  unfold detect_spikes. destruct data as [|d ds]; [constructor|].
  destruct (_ <? w)%Z; [constructor|].
  unfold bind. destruct (collect w _) as [l|] eqn:E; [|exact I].
  eapply Forall_perm; [apply sort_desc_perm|].
  apply List.Forall_forall. intros s Hs Hname.
  destruct (collect_in _ _ _ E s Hs) as (n & series & l' & Hin & Hg & Hs').
  pose proof (spikes_of_group_names _ _ _ _ Hg) as Hn.
  rewrite List.Forall_forall in Hn. specialize (Hn s Hs').
  assert (Hget : dict_get (trend_series now (d :: ds)) n = Some series).
  { apply dict_get_nodup_in; [apply group_by_nodup | exact Hin]. }
  assert (Hlen : length series = entries_named n (d :: ds)).
  { pose proof (group_by_get (name_of "unknown")
       (fun d => mkPoint (get_or (e_timestamp d) now) (score_of 0 d) (get_or (e_frequency d) 0))
       (d :: ds) n) as Hg'.
    unfold trend_series in Hget. rewrite Hget in Hg'. simpl in Hg'.
    unfold entries_named. rewrite Hg', length_map. reflexivity. }
  rewrite <- Hn, Hname in Hlen.
  unfold spikes_of_group in Hg. rewrite Hlen in Hg.
  destruct (Z.of_nat (entries_named name (d :: ds)) <? w)%Z eqn:Ew; [|apply Z.ltb_ge in Ew; lia].
  injection Hg as <-. destruct Hs'.
Qed.

(** A history where trend ["ai"] has a critical spike at ["t5"]: baseline
    scores [1; 2; 3] (mean 2, sample standard deviation 1), recent scores
    [2; 9]; trend ["ml"] has a single entry. *)
Definition spike_history : list (entry R) :=
  [mkEntry (Some "ai"%string) None (Some "t1"%string) (Some 1) None (Some 1);
   mkEntry (Some "ai"%string) None (Some "t2"%string) (Some 2) None (Some 1);
   mkEntry (Some "ai"%string) None (Some "t3"%string) (Some 3) None (Some 1);
   mkEntry (Some "ai"%string) None (Some "t4"%string) (Some 2) None (Some 1);
   mkEntry (Some "ai"%string) None (Some "t5"%string) (Some 9) None (Some 1);
   mkEntry (Some "ml"%string) None (Some "t6"%string) (Some 1) None (Some 1)].

Definition spike_points : list point :=
  [mkPoint "t1" 1 1; mkPoint "t2" 2 1; mkPoint "t3" 3 1; mkPoint "t4" 2 1; mkPoint "t5" 9 1].

Lemma Rltb_of_lt x y : x < y -> Rltb x y = true.
Proof. intros H. unfold Rltb. destruct (Rlt_dec x y); [reflexivity | contradiction]. Qed.

Lemma spike_points_ai :
  exists s, spikes_of_group 2 "ai" spike_points = Ok [s] /\ sp_trend_name s = "ai"%string.
Proof.
  unfold spikes_of_group.
  change (Z.of_nat (Datatypes.length spike_points) <? 2)%Z with false. cbv iota.
  replace (sort_asc (fun x y => str_ltb (pt_timestamp x) (pt_timestamp y)) spike_points)
    with spike_points by reflexivity.
  change (split_series 2 (map pt_score spike_points)) with ([2;9], [1;2;3]).
  cbv zeta iota.
  assert (Hm : mean [1;2;3] = Ok 2).
  { unfold mean, sum. simpl. f_equal. field. }
  rewrite Hm. cbn [bind].
  assert (Hsd : baseline_std [1;2;3] = 1).
  { unfold baseline_std, stdev. simpl.
    match goal with |- sqrt ?e = 1 => replace e with 1 by field end.
    apply sqrt_1. }
  rewrite Hsd.
  unfold scan.
  rewrite (Rltb_of_lt 0 1) by lra.
  destruct (Rle_dec 4 ((2 - 2) / 1)); [lra|].
  destruct (Rle_dec 3 ((2 - 2) / 1)); [lra|].
  destruct (Rle_dec 2 ((2 - 2) / 1)); [lra|].
  destruct (Rle_dec 4 ((9 - 2) / 1)); [|lra].
  change (slice_to (map pt_frequency spike_points) (- (2))) with [1;1;1].
  cbn [List.filter]. rewrite (Rltb_of_lt 0 1) by lra.
  unfold mean.
  eexists. split; reflexivity.
Qed.

(** On [spike_history] with [window_size = 2], [detect_spikes] returns,
    without error, one spike, for ["ai"]. *)
Lemma spike_history_ok :
  exists sp, detect_spikes EmptyString spike_history 2 = Ok sp /\ map sp_trend_name sp = ["ai"%string].
Proof.
  destruct spike_points_ai as (s & Hs & Hn).
  exists [s]. split; [|simpl; rewrite Hn; reflexivity].
  change (detect_spikes EmptyString spike_history 2)
    with (let* sp := collect 2 [("ai"%string, spike_points); ("ml"%string, [mkPoint "t6" 1 1])] in
          Ok (sort_desc spike_key_ltb sp)).
  cbn [collect]. rewrite Hs. reflexivity.
Qed.

Lemma X8_short_trend_no_spike_witness :
  (Z.of_nat (entries_named "ml" spike_history) < 2)%Z /\
  (exists sp, detect_spikes EmptyString spike_history 2 = Ok sp /\ map sp_trend_name sp = ["ai"%string]) /\
  match detect_spikes EmptyString spike_history 2 with
  | Ok sp => Forall (fun s => sp_trend_name s <> "ml"%string) sp
  | Err _ => True
  end.
Proof.
  assert (H : (Z.of_nat (entries_named "ml" spike_history) < 2)%Z) by (vm_compute; reflexivity).
  split; [exact H | split; [exact spike_history_ok |]].
  apply (X8_short_trend_no_spike EmptyString spike_history 2 "ml" H).
Defined.

Lemma spikes_of_group_zero n series : spikes_of_group 0 n series = Ok [].
Proof.
  unfold spikes_of_group.
  destruct (Z.of_nat (length series) <? 0)%Z eqn:E; [reflexivity|].
  set (scores := map pt_score _).
  unfold split_series.
  destruct (0 <? Z.of_nat (length scores))%Z eqn:E2.
  - assert (Hb : forall len, slice_bound (- 0) len = 0%nat).
    { intros len. unfold slice_bound. simpl. rewrite Z.min_l by lia. reflexivity. }
    unfold slice_to. rewrite Hb. reflexivity.
  - destruct scores as [|x xs]; [reflexivity|].
    apply Z.ltb_ge in E2. simpl in E2. lia.
Qed.

(** X9: with [window_size = 0] the baseline [scores[:-0]] is empty, so
    [detect_spikes] returns no spike, without error, for every history. *)
Theorem X9_zero_window_no_spikes now (data : list (entry R)) :
  detect_spikes now data 0 = Ok [].
Proof.
  unfold detect_spikes. destruct data as [|d ds]; [reflexivity|].
  destruct (_ <? 0)%Z eqn:E; [reflexivity|].
  assert (Hc : forall gs, collect 0 gs = Ok []).
  { induction gs as [|[n series] gs IH]; simpl; [reflexivity|].
    rewrite spikes_of_group_zero, IH. reflexivity. }
  rewrite Hc. reflexivity.
Qed.

(** ** Trend persistence and predictions *)
Import Predict.

Lemma fold_max_ge (xs : list Q) (m : Q) :
  (m <= fold_left (fun m y => if Qlt_bool m y then y else m) xs m)%Q /\
  Forall (fun y => y <= fold_left (fun m y => if Qlt_bool m y then y else m) xs m)%Q xs.
Proof.
  revert m. induction xs as [|x xs IH]; intros m; simpl; [split; [apply Qle_refl | constructor]|].
  set (m' := if Qlt_bool m x then x else m).
  assert (Hm : (m <= m')%Q /\ (x <= m')%Q).
  { unfold m'. destruct (Qlt_bool m x) eqn:E.
    - apply Qlt_bool_iff in E. split; [apply Qlt_le_weak, E | apply Qle_refl].
    - apply Qlt_bool_false in E. split; [apply Qle_refl | exact E]. }
  destruct (IH m') as [H1 H2]. destruct Hm as [Hm1 Hm2].
  split; [eapply Qle_trans; eassumption|].
  constructor; [eapply Qle_trans; eassumption | exact H2].
Qed.

Lemma py_max_ge (l : list Q) (d y : Q) : In y l -> (y <= py_max l d)%Q.
Proof.
  destruct l as [|x xs]; simpl; [tauto|]. intros [<- | Hy].
  - apply fold_max_ge.
  - destruct (fold_max_ge xs x) as [_ H]. rewrite List.Forall_forall in H. apply H, Hy.
Qed.

Lemma last_in {A} (l : list A) (d : A) : l <> [] -> In (List.last l d) l.
Proof.
  induction l as [|x l IH]; [congruence|]. intros _.
  destruct l as [|y l]; [left; reflexivity|].
  right. apply IH. discriminate.
Qed.

Lemma persistence_fold (f : list (string * Q) -> persistence) groups acc :
  fold_left (fun acc (g : string * list (string * Q)) =>
      if (length (snd g) <? 2)%nat then acc
      else acc ++ [(fst g, f (snd g))]) groups acc =
  acc ++ map (fun g => (fst g, f (snd g))) (List.filter (fun g => negb (length (snd g) <? 2)%nat) groups).
Proof.
  revert acc. induction groups as [|g gs IH]; intros acc; simpl; [rewrite app_nil_r; reflexivity|].
  rewrite IH. destruct (length (snd g) <? 2)%nat; simpl; [reflexivity|].
  rewrite <- app_assoc. reflexivity.
Qed.

Lemma nodup_map_fst_filter {A B} (P : A * B -> bool) (l : list (A * B)) :
  NoDup (map fst l) -> NoDup (map fst (List.filter P l)).
Proof.
  induction l as [|x l IH]; simpl; intros H; [constructor|].
  apply NoDup_cons in H as [Hnot H].
  destruct (P x); simpl; [|apply IH, H].
  apply NoDup_cons. split; [|apply IH, H].
  intros Hx. apply Hnot. apply list_elem_of_In in Hx. apply list_elem_of_In.
  apply in_map_iff in Hx as [y [Hy Hin]]. apply filter_In in Hin as [Hin _].
  apply in_map_iff. exists y. split; assumption.
Qed.

(** X10: [analyze_trend_persistence] reports each trend name at most once,
    only for trends with at least two history entries, with
    [entry_count] equal to the trend's number of entries and a
    [current_score] (the latest entry's score) never above its
    [peak_score]. *)
Theorem X10_persistence_entries now days_between stdev (history : list (entry Q)) :
  let pers := analyze_trend_persistence now days_between stdev history in
  NoDup (map fst pers) /\
  Forall (fun np => (2 <= p_entry_count (snd np))%nat /\
                    p_entry_count (snd np) = entries_named (fst np) history /\
                    (p_current_score (snd np) <= p_peak_score (snd np))%Q) pers.
Proof.
  cbv zeta. unfold analyze_trend_persistence. rewrite persistence_fold. simpl.
  set (groups := group_by (name_of "unknown") (hist_point now) history).
  assert (Hnd : NoDup (map fst groups)) by apply group_by_nodup.
  split.
  - rewrite map_map. simpl. apply nodup_map_fst_filter, Hnd.
  - apply List.Forall_map, List.Forall_forall. intros [k vs] Hin. simpl.
    apply filter_In in Hin as [Hin Hlen]. simpl in Hlen.
    apply negb_true_iff, Nat.ltb_ge in Hlen.
    assert (Hget : dict_get groups k = Some vs) by (apply dict_get_nodup_in; assumption).
    assert (Hvs : vs = map (hist_point now) (List.filter (fun x => String.eqb (name_of "unknown" x) k) history)).
    { rewrite <- (group_by_get (name_of "unknown") (hist_point now) history k).
      fold groups. rewrite Hget. reflexivity. }
    unfold persistence_of. cbv zeta. simpl.
    rewrite sort_asc_length.
    split; [exact Hlen|]. split.
    + unfold entries_named. rewrite Hvs, length_map. reflexivity.
    + unfold last_or. apply py_max_ge, last_in.
      intros E. apply (f_equal (@length Q)) in E. rewrite length_map, sort_asc_length in E.
      simpl in E. lia.
Qed.

Lemma emerging_patterns_facts pers current :
  Forall (fun p => (0.6 < pt_confidence p <= 0.9)%Q /\
    match pt_prediction_type p with
    | NewEmerging => dict_get pers (pt_trend_name p) = None
    | Accelerating => pt_confidence p = 0.8%Q /\
        exists h, dict_get pers (pt_trend_name p) = Some h /\ p_trend_direction h = Increasing
    end) (emerging_patterns pers current).
Proof.
  unfold emerging_patterns. apply List.Forall_forall. intros p Hp.
  apply in_flat_map in Hp as [t [_ Hp]]. cbv zeta in Hp.
  destruct (dict_get pers (name_of EmptyString t)) as [h|] eqn:E.
  - destruct (p_trend_direction h) eqn:Ed; try destruct Hp.
    destruct (Qlt_bool (p_peak_score h) (score_of 0 t)); [|destruct Hp].
    destruct Hp as [<- | []]. simpl.
    split; [split; Lqa.lra|]. split; [reflexivity|]. exists h. split; assumption.
  - destruct (Qlt_bool 0.6 (score_of 0 t)) eqn:Es; [|destruct Hp].
    destruct Hp as [<- | []]. simpl. split; [|exact E].
    apply Qlt_bool_iff in Es. split; [|apply py_min_le_r].
    destruct (py_min_cases (score_of 0 t) 0.9) as [-> | ->]; [exact Es | Lqa.lra].
Qed.

(** X11: [predict_emerging_trends] returns at most five predictions, sorted
    by confidence (highest first), each with a confidence in (0.6, 0.9]; a
    [new_emerging] prediction names a trend absent from the persistence
    data of the history, an [accelerating] one has confidence 0.8 and names
    a trend whose persistence direction is [increasing]. *)
Theorem X11_predictions_contract now days_between stdev (history current : list (entry Q)) :
  let pers := analyze_trend_persistence now days_between stdev history in
  let preds := predict_emerging_trends now days_between stdev history current in
  (length preds <= 5)%nat /\
  Sorted (fun x y => pt_confidence y <= pt_confidence x)%Q preds /\
  Forall (fun p => (0.6 < pt_confidence p <= 0.9)%Q /\
    match pt_prediction_type p with
    | NewEmerging => dict_get pers (pt_trend_name p) = None
    | Accelerating => pt_confidence p = 0.8%Q /\
        exists h, dict_get pers (pt_trend_name p) = Some h /\ p_trend_direction h = Increasing
    end) preds.
Proof.
  cbv zeta. unfold predict_emerging_trends.
  destruct history as [|h0 hs]; [split; [simpl; lia | split; constructor]|].
  destruct current as [|c0 cs]; [split; [simpl; lia | split; constructor]|].
  split; [rewrite length_firstn; lia|]. split.
  - apply Sorted_firstn. eapply Sorted_weaken; [|apply sort_desc_sorted].
    + intros x y H. apply Qlt_bool_false, H.
    + intros x y. apply Qlt_bool_asym.
  - apply Forall_firstn'. eapply Forall_perm; [apply sort_desc_perm|].
    apply emerging_patterns_facts.
Qed.

(** ** Similarity, correlation, cache and rate limiter *)
Import Similarity Correlation Cache.

Lemma similarity_unit (a b : string) : (0 <= calculate_similarity a b <= 1)%Q.
Proof.
  unfold calculate_similarity.
  destruct (decide (word_set a = ∅)); [split; Lqa.lra|].
  destruct (decide (word_set b = ∅)); [split; Lqa.lra|].
  destruct (decide (word_set a ∪ word_set b = ∅)) as [|Hu]; [split; Lqa.lra|].
  assert (Hle : (size (word_set a ∩ word_set b) <= size (word_set a ∪ word_set b))%nat)
    by (apply subseteq_size; set_solver).
  assert (Hpos : (0 < size (word_set a ∪ word_set b))%nat).
  { destruct (size (word_set a ∪ word_set b)) eqn:E; [|lia].
    exfalso. apply Hu. apply leibniz_equiv, size_empty_inv, E. }
  set (i := size (word_set a ∩ word_set b)) in *.
  set (u := size (word_set a ∪ word_set b)) in *.
  assert (Hu' : (0 < inject_Z (Z.of_nat u))%Q) by (unfold Qlt; simpl; lia).
  split.
  - apply Qle_shift_div_l; [exact Hu'|]. unfold Qle; simpl; lia.
  - apply Qle_shift_div_r; [exact Hu'|]. unfold Qle; simpl; lia.
Qed.

(** X12: [_calculate_similarity] always lies in [[0, 1]]. *)
Theorem X12_similarity_unit (str1 str2 : string) :
  (0 <= calculate_similarity str1 str2 <= 1)%Q.
Proof. apply similarity_unit. Qed.

Definition correlation_ok (c : correlation) : Prop :=
  (0.3 < c_similarity c <= 1)%Q /\
  (c_correlation_type c = StrongCorrelation <-> (0.7 < c_similarity c)%Q).

Lemma correlation_row_facts x m :
  Forall correlation_ok (correlation_row x m) /\ (length (correlation_row x m) <= length m)%nat.
Proof.
  unfold correlation_row. induction m as [|y m IH]; simpl; [split; [constructor | lia]|].
  destruct IH as [IH1 IH2].
  destruct (Qlt_bool 0.3 (calculate_similarity (Text.lower x) (Text.lower y))) eqn:E3;
    simpl; [|split; [exact IH1 | lia]].
  split; [|lia]. constructor; [|exact IH1]. unfold correlation_ok; simpl.
  apply Qlt_bool_iff in E3. split; [split; [exact E3 | apply similarity_unit]|].
  destruct (Qlt_bool 0.7 _) eqn:E7.
  - apply Qlt_bool_iff in E7. tauto.
  - apply Qlt_bool_false in E7. split; [discriminate|]. intros H. Lqa.lra.
Qed.

Lemma correlation_pairs_facts u m :
  Forall correlation_ok (correlation_pairs u m) /\
  (length (correlation_pairs u m) <= length u * length m)%nat.
Proof.
  unfold correlation_pairs. induction u as [|x u IH]; simpl; [split; [constructor | lia]|].
  destruct IH as [IH1 IH2]. destruct (correlation_row_facts x m) as [H1 H2].
  split.
  - apply List.Forall_app. split; assumption.
  - rewrite length_app. lia.
Qed.

(** X13: [analyze_trend_correlation] returns [{}] when either list is
    empty; otherwise at most ten correlations, sorted by similarity (highest
    first), each with similarity in (0.3, 1] and typed [strong] exactly when
    the similarity exceeds 0.7, with
    [strong_correlations <= total_correlations <= len(user) * len(market)]. *)
Theorem X13_correlation_contract (user_trends market_trends : list string) :
  ((user_trends = [] \/ market_trends = []) ->
     analyze_trend_correlation user_trends market_trends = None) /\
  (user_trends <> [] -> market_trends <> [] ->
   exists r, analyze_trend_correlation user_trends market_trends = Some r /\
     (length (correlations r) = Nat.min 10 (total_correlations r))%nat /\
     (strong_correlations r <= total_correlations r <= length user_trends * length market_trends)%nat /\
     Sorted (fun x y => c_similarity y <= c_similarity x)%Q (correlations r) /\
     Forall correlation_ok (correlations r)).
Proof.
  split.
  - intros [-> | ->]; [reflexivity|]. destruct user_trends; reflexivity.
  - intros Hu Hm. unfold analyze_trend_correlation.
    destruct user_trends as [|u0 us]; [congruence|]. destruct market_trends as [|m0 ms]; [congruence|].
    set (pairs := correlation_pairs (u0 :: us) (m0 :: ms)).
    set (cs := sort_desc _ pairs).
    destruct (correlation_pairs_facts (u0 :: us) (m0 :: ms)) as [Hf Hl]. fold pairs in Hf, Hl.
    assert (Hp : Permutation cs pairs) by apply sort_desc_perm.
    eexists. split; [reflexivity|]. simpl.
    split; [rewrite length_firstn; reflexivity|].
    split; [split; [apply filter_length_le' | rewrite (Permutation_length Hp); exact Hl]|].
    split.
    + apply Sorted_firstn. eapply Sorted_weaken; [|apply sort_desc_sorted].
      * intros x y H. apply Qlt_bool_false, H.
      * intros x y. apply Qlt_bool_asym.
    + apply Forall_firstn'. eapply Forall_perm; [exact Hp | exact Hf].
Qed.

Lemma fold_delete_lookup {D} (ks : list string) (c : gmap string D) k :
  fold_left (fun c key => delete key c) ks c !! k = if in_dec string_dec k ks then None else c !! k.
Proof.
  revert c. induction ks as [|k' ks IH]; intros c; cbn [fold_left].
  - destruct (in_dec string_dec k []) as [[]|_]; reflexivity.
  - rewrite IH. destruct (in_dec string_dec k ks) as [H|H];
      destruct (in_dec string_dec k (k' :: ks)) as [H'|H'].
    + reflexivity.
    + exfalso. apply H'. right. exact H.
    + destruct H' as [<- | H']; [|contradiction].
      rewrite lookup_delete. case_decide; [reflexivity | congruence].
    + rewrite lookup_delete. case_decide as Hk; [|reflexivity].
      exfalso. apply H'. left. exact Hk.
Qed.

Lemma cleanup_lookup {D} (current_time cache_ttl : Q) (c : gmap string (D * Q)) (key : string) :
  cleanup_expired_cache current_time cache_ttl c !! key =
  match c !! key with
  | Some (data, timestamp) =>
      if Qlt_bool cache_ttl (current_time - timestamp) then None else Some (data, timestamp)
  | None => None
  end.
Proof.
  unfold cleanup_expired_cache. rewrite (fold_delete_lookup (D := (D * Q)%type)).
  destruct (in_dec string_dec key (expired_keys current_time cache_ttl c)) as [Hin | Hout].
  - unfold expired_keys in Hin. apply in_map_iff in Hin as [[k [d t]] [Hk Hin]]. simpl in Hk. subst k.
    apply filter_In in Hin as [Hin Hexp]. simpl in Hexp.
    apply list_elem_of_In, (elem_of_map_to_list c key (d, t)) in Hin. rewrite Hin, Hexp. reflexivity.
  - destruct (c !! key) as [[d t]|] eqn:E; [|reflexivity].
    destruct (Qlt_bool cache_ttl (current_time - t)) eqn:Ex; [|reflexivity].
    exfalso. apply Hout. unfold expired_keys. apply in_map_iff. exists (key, (d, t)).
    split; [reflexivity|]. apply filter_In. split; [|exact Ex].
    apply list_elem_of_In. exact (proj2 (elem_of_map_to_list c key (d, t)) E).
Qed.

(** X14: after [_cleanup_expired_cache] at time [current_time], a key is
    still cached, with its data and timestamp unchanged, exactly when its
    age [current_time - timestamp] does not exceed [cache_ttl]; no other key
    appears. *)
Theorem X14_cleanup_keeps_fresh {D} (current_time cache_ttl : Q) (c : gmap string (D * Q)) (key : string) :
  cleanup_expired_cache current_time cache_ttl c !! key =
  match c !! key with
  | Some (data, timestamp) =>
      if Qlt_bool cache_ttl (current_time - timestamp) then None else Some (data, timestamp)
  | None => None
  end.
Proof. exact (cleanup_lookup current_time cache_ttl c key). Qed.

(** X15: [_rate_limit] spaces requests: the new [last_request_time] is at
    least [request_delay] after the previous one. *)
Theorem X15_rate_limit_spacing (request_delay last_request_time new_last : Q) :
  rate_limit request_delay last_request_time new_last ->
  (last_request_time + request_delay <= new_last)%Q.
Proof.
  intros H. destruct H as [t woke now Hlt Hsleep Hnow | t now Hge Hnow].
  - Lqa.lra.
  - apply Qnot_lt_le in Hge. Lqa.lra.
Qed.

Lemma X15_rate_limit_spacing_witness : (0 + 3 <= 4)%Q.
Proof.
  apply (X15_rate_limit_spacing 3 0 4).
  apply (rate_limit_sleep 3 0 1 3 4); Lqa.lra.
Defined.

(** ** Trending topics with supporting articles *)
Import Topics TrendingTopics.

Lemma slice_to_length {A} (l : list A) (k : Z) :
  (0 <= k)%Z -> (length (slice_to l k) <= Z.to_nat k)%nat /\ (length (slice_to l k) <= length l)%nat.
Proof.
  intros Hk. unfold slice_to, slice_bound. rewrite length_firstn.
  destruct (k <? 0)%Z eqn:E; [apply Z.ltb_lt in E; lia|]. lia.
Qed.

Lemma in_slice_to {A} (l : list A) (k : Z) x : In x (slice_to l k) -> In x l.
Proof. unfold slice_to. apply in_firstn'. Qed.

Lemma detect_emerging_topics_length articles : (length (detect_emerging_topics articles) <= 15)%nat.
Proof. unfold detect_emerging_topics. rewrite length_firstn. lia. Qed.

(** X16: [get_trending_topics] returns at most [min(limit, 15)] trends
    (for [limit >= 0]), each a topic of [detect_emerging_topics] with at
    most three supporting articles; each supporting entry is taken from an
    input article whose lowered [content + ' ' + title] contains the lowered
    topic. *)
Theorem X16_trending_topics_support (articles : list dated_article) (limit : Z) :
  let out := get_trending_topics articles limit in
  ((0 <= limit)%Z -> (length out <= Z.to_nat limit)%nat) /\
  (length out <= 15)%nat /\
  Forall (fun ts =>
    In (fst ts) (detect_emerging_topics (map fst articles)) /\
    (length (snd ts) <= 3)%nat /\
    Forall (fun s => exists a, In a articles /\ s = support_of a /\
              contains (lower (t_topic (fst ts))) (lower (article_text (fst a))) = true) (snd ts)) out.
Proof.
  cbv zeta. unfold get_trending_topics.
  set (trends := detect_emerging_topics (map fst articles)).
  split; [intros Hk; apply (slice_to_length _ _ Hk)|].
  split.
  - destruct (Z_le_gt_dec 0 limit) as [Hk|Hk].
    + destruct (slice_to_length (map (fun t => (t, firstn 3 (supporting_of (t_topic t) articles))) trends) limit Hk) as [_ H].
      rewrite length_map in H. pose proof (detect_emerging_topics_length (map fst articles)) as Hd.
      fold trends in Hd. lia.
    + unfold slice_to. rewrite length_firstn, length_map.
      pose proof (detect_emerging_topics_length (map fst articles)) as Hd. fold trends in Hd. lia.
  - apply List.Forall_forall. intros [t sup] Hin. apply in_slice_to, in_map_iff in Hin as [t' [Heq Ht]].
    injection Heq as <- <-. simpl.
    split; [exact Ht|]. split; [rewrite length_firstn; lia|].
    apply List.Forall_forall. intros s Hs. apply in_firstn' in Hs.
    unfold supporting_of in Hs. apply in_map_iff in Hs as [a [<- Ha]].
    apply filter_In in Ha as [Ha Hc]. exists a. split; [exact Ha|]. split; [reflexivity | exact Hc].
Qed.

Definition hyphen_articles : list dated_article :=
  [(mkArticle (Some "AI-model, AI-model."%string) None None, None)].

(** X17: a bigram topic can be left without any supporting article:
    [detect_emerging_topics] counts bigrams over the tokenized text, where
    punctuation has become a space, while [get_trending_topics] looks the
    topic up in the raw lowered text.  With the content
    ["AI-model, AI-model."] the bigram ["ai model"] is a trend (counted
    twice), yet no article supports it. *)
Theorem X17_bigram_without_support :
  In (mkTopic "ai model" Bigram 2 2, []) (get_trending_topics hyphen_articles 10).
Proof. vm_compute. tauto. Qed.

(** ** Category and community trends *)
Import Market.

Lemma sorted_relevance_slice (l : list market_trend) (limit : Z) :
  Sorted (fun x y => m_relevance_score y <= m_relevance_score x)%Q (slice_to (sort_by_relevance l) limit).
Proof.
  apply Sorted_firstn. eapply Sorted_weaken; [|apply sort_desc_sorted].
  - intros x y H. apply Qlt_bool_false, H.
  - intros x y. apply Qlt_bool_asym.
Qed.

Lemma rising_trend_fields round1 category keyword values rank t :
  rising_trend round1 category keyword values rank = Some t ->
  m_query t = keyword /\ m_category t = category /\ m_trend t = "rising"%string /\
  m_data_source t = None.
Proof.
  unfold rising_trend. destruct (length values <? 7)%nat; [discriminate|]. cbv zeta.
  destruct (Qle_bool 15 _); [|discriminate]. intros [= <-]. simpl. tauto.
Qed.

Section ScanKeywords.
Variable round1 : Q -> Q.
Variable interest_values : string -> option (list Q).
Variable category : string.
Variable limit : Z.

Lemma scan_keywords_forall (K : list string) kws acc :
  (forall k, In k kws -> In k K) ->
  Forall (fun t => In (m_query t) K /\ m_category t = category /\ m_trend t = "rising"%string /\
                   m_data_source t = None) acc ->
  Forall (fun t => In (m_query t) K /\ m_category t = category /\ m_trend t = "rising"%string /\
                   m_data_source t = None)
         (scan_keywords round1 interest_values category limit kws acc).
Proof.
  revert acc. induction kws as [|kw rest IH]; intros acc HK Hacc; simpl; [exact Hacc|].
  assert (HK' : forall k, In k rest -> In k K) by (intros k Hk; apply HK; right; exact Hk).
  destruct (interest_values kw) as [values|]; [|apply IH; assumption].
  destruct (rising_trend round1 category kw values _) as [t|] eqn:E; [|apply IH; assumption].
  destruct (rising_trend_fields _ _ _ _ _ _ E) as (Hq & Hc & Htr & Hd).
  assert (Hacc' : Forall (fun t => In (m_query t) K /\ m_category t = category /\
                     m_trend t = "rising"%string /\ m_data_source t = None) (acc ++ [t])).
  { apply List.Forall_app. split; [exact Hacc|]. constructor; [|constructor].
    rewrite Hq. split; [apply HK; left; reflexivity|]. tauto. }
  destruct (limit <=? _)%Z; [exact Hacc' | apply IH; assumption].
Qed.

Lemma scan_keywords_nodup kws acc :
  NoDup (map m_query acc ++ kws) ->
  NoDup (map m_query (scan_keywords round1 interest_values category limit kws acc)).
Proof.
  revert acc. induction kws as [|kw rest IH]; intros acc Hnd; simpl.
  - rewrite app_nil_r in Hnd. exact Hnd.
  - assert (Hdrop : NoDup (map m_query acc ++ rest)).
    { apply NoDup_app in Hnd as (H1 & H2 & H3). apply NoDup_cons in H3 as [_ H3].
      apply NoDup_app. split; [exact H1|]. split; [|exact H3].
      intros x Hx Hr. apply (H2 x Hx). apply list_elem_of_In. right. apply list_elem_of_In, Hr. }
    destruct (interest_values kw) as [values|]; [|apply IH, Hdrop].
    destruct (rising_trend round1 category kw values _) as [t|] eqn:E; [|apply IH, Hdrop].
    destruct (rising_trend_fields _ _ _ _ _ _ E) as (Hq & _).
    assert (Hnd' : NoDup (map m_query (acc ++ [t]) ++ rest)).
    { rewrite map_app. simpl. rewrite Hq, <- app_assoc. exact Hnd. }
    destruct (limit <=? _)%Z; [|apply IH, Hnd'].
    apply NoDup_app in Hnd' as [H _]. exact H.
Qed.

Lemma scan_keywords_length kws acc :
  (Z.of_nat (length acc) < Z.max 1 limit)%Z ->
  (Z.of_nat (length (scan_keywords round1 interest_values category limit kws acc)) <= Z.max 1 limit)%Z.
Proof.
  revert acc. induction kws as [|kw rest IH]; intros acc Hlen; simpl; [lia|].
  destruct (interest_values kw) as [values|]; [|apply IH, Hlen].
  destruct (rising_trend round1 category kw values _) as [t|]; [|apply IH, Hlen].
  rewrite length_app. simpl.
  destruct (limit <=? Z.of_nat (length acc + 1))%Z eqn:E.
  - rewrite length_app. simpl. lia.
  - apply Z.leb_gt in E. apply IH. rewrite length_app. simpl. lia.
Qed.

End ScanKeywords.

Lemma category_keywords_nodup : Forall (fun kv => NoDup (snd kv)) category_keywords.
Proof. apply (bool_decide_unpack _). vm_compute. exact I. Qed.

Lemma dict_get_in {V} (d : list (string * V)) k v : dict_get d k = Some v -> In (k, v) d.
Proof.
  induction d as [|[k' v'] d IH]; simpl; [discriminate|].
  destruct (String.eqb k' k) eqn:E.
  - apply String.eqb_eq in E. subst. intros [= <-]. left. reflexivity.
  - intros H. right. apply IH, H.
Qed.

Lemma keywords_to_check_nodup category limit : NoDup (keywords_to_check category limit).
Proof.
  unfold keywords_to_check, slice_to. apply nodup_firstn.
  unfold keywords_of. destruct (dict_get category_keywords category) as [l|] eqn:E; simpl.
  - apply dict_get_in in E. pose proof category_keywords_nodup as H.
    rewrite List.Forall_forall in H. apply (H _ E).
  - apply NoDup_singleton.
Qed.

Lemma nodup_map_perm {A B} (f : A -> B) l l' :
  Permutation l l' -> NoDup (map f l') -> NoDup (map f l).
Proof. intros Hp H. eapply NoDup_Permutation_proper; [apply Permutation_map, Hp | exact H]. Qed.

Lemma category_trends_facts round1 interest_values (category : string) (limit : Z) :
  let out := get_trending_topics_for_category round1 interest_values category limit in
  (length out <= Z.to_nat limit)%nat /\
  ((limit <= 0)%Z -> out = []) /\
  Sorted (fun x y => m_relevance_score y <= m_relevance_score x)%Q out /\
  NoDup (map m_query out) /\
  Forall (fun t => In (m_query t) (keywords_to_check category limit) /\ m_category t = category /\
                   m_trend t = "rising"%string /\ m_data_source t = None) out.
Proof.
  cbv zeta. unfold get_trending_topics_for_category.
  set (scanned := scan_keywords round1 interest_values category limit (keywords_to_check category limit) []).
  assert (Hlen : (Z.of_nat (length scanned) <= Z.max 1 limit)%Z)
    by (apply scan_keywords_length; simpl; lia).
  assert (Hp : Permutation (sort_by_relevance scanned) scanned) by apply sort_desc_perm.
  assert (Hnil : (limit <= 0)%Z -> slice_to (sort_by_relevance scanned) limit = []).
  { intros Hl. unfold slice_to, slice_bound. rewrite (Permutation_length Hp).
    destruct (limit <? 0)%Z eqn:E.
    - replace (Z.to_nat (Z.max 0 (limit + Z.of_nat (length scanned)))) with 0%nat by lia. reflexivity.
    - replace (Z.to_nat (Z.min limit (Z.of_nat (length scanned)))) with 0%nat by lia. reflexivity. }
  split.
  - destruct (Z_le_gt_dec limit 0) as [Hl|Hl]; [rewrite (Hnil Hl); simpl; lia|].
    apply slice_to_length. lia.
  - split; [exact Hnil|]. split; [apply sorted_relevance_slice|]. split.
    + unfold slice_to. rewrite <- firstn_map. apply nodup_firstn.
      eapply nodup_map_perm; [exact Hp|]. apply scan_keywords_nodup. simpl.
      apply keywords_to_check_nodup.
    + unfold slice_to. apply Forall_firstn'. eapply Forall_perm; [exact Hp|].
      apply scan_keywords_forall; [tauto | constructor].
Qed.

(** X18: [get_trending_topics_for_category] returns at most [limit]
    trends, and none when [limit <= 0] (although a negative [limit] still
    queries [keywords[:limit*2]]); the trends are sorted by relevance
    (highest first), name distinct keywords among the first [2 * limit] of
    the category's list (the category itself outside the five known ones),
    and carry the category, the trend ['rising'] and no data source. *)
Theorem X18_category_trends_contract round1 interest_values (category : string) (limit : Z) :
  let out := get_trending_topics_for_category round1 interest_values category limit in
  (length out <= Z.to_nat limit)%nat /\
  ((limit <= 0)%Z -> out = []) /\
  Sorted (fun x y => m_relevance_score y <= m_relevance_score x)%Q out /\
  NoDup (map m_query out) /\
  Forall (fun t => In (m_query t) (keywords_to_check category limit) /\ m_category t = category /\
                   m_trend t = "rising"%string /\ m_data_source t = None) out.
Proof. exact (category_trends_facts round1 interest_values category limit). Qed.

Lemma substring_length_le (n : nat) (s : string) : (String.length (substring 0 n s) <= n)%nat.
Proof.
  revert s. induction n as [|n IH]; intros s; simpl; [destruct s; simpl; lia|].
  destruct s as [|c s]; simpl; [lia|]. specialize (IH s). lia.
Qed.

Definition community_ok (category : string) (t : market_trend) : Prop :=
  exists upvotes, m_upvotes t = Some upvotes /\ (100 < upvotes)%Q /\
    m_relevance_score t = py_min (upvotes / 1000) 1 /\
    (1 # 10 < m_relevance_score t <= 1)%Q /\
    (String.length (m_query t) <= 60)%nat /\ m_category t = category /\
    m_data_source t = Some "Reddit"%string.

Lemma community_of_posts_ok category posts : Forall (community_ok category) (community_of_posts category posts).
Proof.
  induction posts as [|p ps IH]; simpl; [constructor|].
  set (score := match rp_score p with Some s => s | None => match rp_points p with Some q => q | None => 0 end end).
  destruct (Qlt_bool 100 score) eqn:E; [|exact IH].
  destruct (rp_title p) as [title|]; [|constructor].
  constructor; [|exact IH].
  apply Qlt_bool_iff in E. exists score. split; [reflexivity|]. split; [exact E|].
  split; [reflexivity|]. split; [|split; [apply substring_length_le | split; reflexivity]].
  split; [|apply py_min_le_r].
  assert (H1 : (1 # 10 < score / 1000)%Q).
  { apply Qlt_shift_div_l; [reflexivity|]. Lqa.lra. }
  destruct (py_min_cases (score / 1000) 1) as [-> | ->]; [exact H1 | reflexivity].
Qed.

Lemma community_trends_facts scrape_reddit_url (category : string) (limit : Z) :
  let out := get_community_trends scrape_reddit_url category limit in
  ((0 <= limit)%Z -> (length out <= Z.to_nat limit)%nat) /\
  Sorted (fun x y => m_relevance_score y <= m_relevance_score x)%Q out /\
  Forall (community_ok category) out.
Proof.
  cbv zeta. unfold get_community_trends. cbv zeta.
  set (trends := flat_map _ _).
  split; [intros Hl; apply slice_to_length, Hl|]. split; [apply sorted_relevance_slice|].
  unfold slice_to. apply Forall_firstn'. eapply Forall_perm; [apply sort_desc_perm|].
  unfold trends. apply List.Forall_forall. intros t Ht. apply in_flat_map in Ht as [sub [_ Ht]].
  destruct (scrape_reddit_url _) as [posts|]; [|destruct Ht].
  pose proof (community_of_posts_ok category posts) as H. rewrite List.Forall_forall in H. apply H, Ht.
Qed.

(** X19: every trend of [_get_community_trends] comes from an article with
    more than 100 upvotes (its ['score'], else its ['points']), has
    relevance [min(upvotes / 1000, 1)], so in (0.1, 1], a query of at most
    60 characters (the title cut at 60), the category and the data source
    ['Reddit']; the list is sorted by relevance (highest first) and holds at
    most [limit] trends for [limit >= 0]. *)
Theorem X19_community_trends_contract scrape_reddit_url (category : string) (limit : Z) :
  let out := get_community_trends scrape_reddit_url category limit in
  ((0 <= limit)%Z -> (length out <= Z.to_nat limit)%nat) /\
  Sorted (fun x y => m_relevance_score y <= m_relevance_score x)%Q out /\
  Forall (community_ok category) out.
Proof. exact (community_trends_facts scrape_reddit_url category limit). Qed.

Lemma sorted_map_set_source src l :
  Sorted (fun x y => m_relevance_score y <= m_relevance_score x)%Q l ->
  Sorted (fun x y => m_relevance_score y <= m_relevance_score x)%Q (map (set_data_source src) l).
Proof.
  induction 1 as [|x l Hs IH Hhd]; simpl; constructor; [exact IH|].
  destruct Hhd; simpl; constructor. assumption.
Qed.

Lemma fallback_facts round1 interest_values scrape_reddit_url (category : string) (limit : Z) :
  let google := get_trending_topics_for_category round1 interest_values category limit in
  let out := get_trending_topics_with_fallback round1 interest_values scrape_reddit_url category limit in
  (google <> [] -> out = map (set_data_source "Google Trends") google /\
                   Forall (fun t => m_data_source t = Some "Google Trends"%string) out) /\
  (google = [] -> out = get_community_trends scrape_reddit_url category limit) /\
  ((0 <= limit)%Z -> (length out <= Z.to_nat limit)%nat) /\
  Sorted (fun x y => m_relevance_score y <= m_relevance_score x)%Q out.
Proof.
  cbv zeta. unfold get_trending_topics_with_fallback.
  destruct (category_trends_facts round1 interest_values category limit) as (Hl & _ & Hs & _).
  destruct (get_trending_topics_for_category round1 interest_values category limit) as [|g gs] eqn:E.
  - destruct (community_trends_facts scrape_reddit_url category limit) as (Hc & Hcs & _).
    split; [congruence|]. split; [reflexivity|]. split; assumption.
  - split.
    + intros _. split; [reflexivity|]. apply List.Forall_map, List.Forall_forall. reflexivity.
    + split; [discriminate|]. split; [intros _; rewrite length_map; exact Hl|].
      apply sorted_map_set_source, Hs.
Qed.

(** X20: [get_trending_topics_with_fallback] returns the Google Trends
    result, each trend tagged ['Google Trends'], when it is non-empty, and
    the community trends otherwise; either way at most [limit] trends for
    [limit >= 0], sorted by relevance (highest first). *)
Theorem X20_fallback_contract round1 interest_values scrape_reddit_url (category : string) (limit : Z) :
  let google := get_trending_topics_for_category round1 interest_values category limit in
  let out := get_trending_topics_with_fallback round1 interest_values scrape_reddit_url category limit in
  (google <> [] -> out = map (set_data_source "Google Trends") google /\
                   Forall (fun t => m_data_source t = Some "Google Trends"%string) out) /\
  (google = [] -> out = get_community_trends scrape_reddit_url category limit) /\
  ((0 <= limit)%Z -> (length out <= Z.to_nat limit)%nat) /\
  Sorted (fun x y => m_relevance_score y <= m_relevance_score x)%Q out.
Proof. exact (fallback_facts round1 interest_values scrape_reddit_url category limit). Qed.

Lemma dict_set_keys {V} (k : string) (v : V) (d : list (string * V)) x :
  In x (map fst (dict_set k v d)) <-> x = k \/ In x (map fst d).
Proof.
  induction d as [|[k' v'] d IH]; simpl; [intuition congruence|].
  destruct (String.eqb k' k) eqn:E; simpl.
  - apply String.eqb_eq in E. subst. intuition congruence.
  - rewrite IH. intuition congruence.
Qed.

Lemma dict_set_nodup {V} (k : string) (v : V) (d : list (string * V)) :
  NoDup (map fst d) -> NoDup (map fst (dict_set k v d)).
Proof.
  induction d as [|[k' v'] d IH]; simpl; intros Hnd; [apply NoDup_singleton|].
  apply NoDup_cons in Hnd as [Hk Hd].
  destruct (String.eqb k' k) eqn:E; simpl.
  - apply String.eqb_eq in E. subst. apply NoDup_cons. split; assumption.
  - apply NoDup_cons. split; [|apply IH, Hd].
    intros Hin. apply list_elem_of_In, dict_set_keys in Hin as [Heq | Hin].
    + subst. rewrite String.eqb_refl in E. discriminate.
    + apply Hk, list_elem_of_In, Hin.
Qed.

Lemma dict_set_all {V} (P : string * V -> Prop) (k : string) (v : V) d :
  Forall P d -> P (k, v) -> Forall P (dict_set k v d).
Proof.
  induction d as [|[k' v'] d IH]; simpl; intros Hd Hkv; [constructor; [exact Hkv | constructor]|].
  inversion Hd as [|? ? Hhd Htl]; subst.
  destruct (String.eqb k' k); constructor; auto.
Qed.

Section Summary.
Variable round1 : Q -> Q.
Variable interest_values : string -> option (list Q).
Variable scrape_reddit_url : string -> option (list reddit_post).

Let fallback c := get_trending_topics_with_fallback round1 interest_values scrape_reddit_url c 5.

Definition summary_entry_ok (kv : string * category_summary) : Prop :=
  cs_trending_topics (snd kv) = fallback (fst kv) /\
  cs_trend_count (snd kv) = length (cs_trending_topics (snd kv)) /\
  (cs_trend_count (snd kv) <= 5)%nat.

Lemma summary_fold cats0 (cats : list (string * category_summary)) ov :
  NoDup (map fst cats) -> Forall summary_entry_ok cats ->
  let res := fold_left (fun acc category =>
        let category_trends := fallback category in
        (dict_set category (mkCategorySummary category_trends (length category_trends)) (fst acc),
         snd acc ++ category_trends)) cats0 (cats, ov) in
  snd res = ov ++ flat_map fallback cats0 /\ NoDup (map fst (fst res)) /\
  Forall summary_entry_ok (fst res) /\
  (forall x, In x (map fst (fst res)) <-> In x cats0 \/ In x (map fst cats)).
Proof.
  revert cats ov. induction cats0 as [|c cs IH]; intros cats ov Hnd Hok; simpl.
  - rewrite app_nil_r. tauto.
  - destruct (IH (dict_set c (mkCategorySummary (fallback c) (length (fallback c))) cats)
                 (ov ++ fallback c)) as (H1 & H2 & H3 & H4).
    + apply dict_set_nodup, Hnd.
    + apply dict_set_all; [exact Hok|]. unfold summary_entry_ok. simpl.
      split; [reflexivity|]. split; [reflexivity|].
      destruct (fallback_facts round1 interest_values scrape_reddit_url c 5) as (_ & _ & Hl & _).
      apply Hl. lia.
    + split; [rewrite <- app_assoc in H1; exact H1|]. split; [exact H2|]. split; [exact H3|].
      intros x. rewrite H4, dict_set_keys. intuition congruence.
Qed.

End Summary.

(** X21: [get_market_intelligence_summary] puts into ['overall_trends'] the
    fallback trends (limit 5) of every user category in order, a category
    listed twice contributing its trends twice, while ['categories'] has
    exactly one entry per distinct category, holding that category's trends
    and their count (at most 5); it gives [min(5, len(overall_trends))]
    recommendations, each ["Consider monitoring: "] followed by the query
    of an overall trend. *)
Theorem X21_market_summary_contract round1 interest_values scrape_reddit_url (user_categories : list string) :
  let fallback c := get_trending_topics_with_fallback round1 interest_values scrape_reddit_url c 5 in
  let s := get_market_intelligence_summary round1 interest_values scrape_reddit_url user_categories in
  ms_overall_trends s = flat_map fallback user_categories /\
  NoDup (map fst (ms_categories s)) /\
  (forall c, In c (map fst (ms_categories s)) <-> In c user_categories) /\
  Forall (fun kv => cs_trending_topics (snd kv) = fallback (fst kv) /\
                    cs_trend_count (snd kv) = length (cs_trending_topics (snd kv)) /\
                    (cs_trend_count (snd kv) <= 5)%nat) (ms_categories s) /\
  length (ms_recommendations s) = Nat.min 5 (length (ms_overall_trends s)) /\
  Forall (fun r => exists t, In t (ms_overall_trends s) /\
                             r = ("Consider monitoring: " ++ m_query t)%string) (ms_recommendations s).
Proof.
  cbv zeta. unfold get_market_intelligence_summary.
  destruct (summary_fold round1 interest_values scrape_reddit_url user_categories [] []
              (NoDup_nil_2) (List.Forall_nil _)) as (H1 & H2 & H3 & H4).
  destruct (fold_left _ user_categories ([], [])) as [cats overall]. simpl in *.
  split; [exact H1|]. split; [exact H2|]. split; [intros c; rewrite H4; simpl; tauto|].
  split; [exact H3|].
  destruct overall as [|t ts] eqn:Eo; simpl; [split; [reflexivity | constructor]|].
  rewrite <- Eo. split.
  - unfold sort_by_relevance. rewrite length_map, length_firstn, (Permutation_length (sort_desc_perm _ _)). rewrite Eo; reflexivity.
  - apply List.Forall_map, List.Forall_forall. intros u Hu. exists u. split; [|reflexivity].
    apply in_firstn' in Hu. change (In u (t :: ts)). rewrite <- Eo. eapply Permutation_in; [apply sort_desc_perm | exact Hu].
Qed.

(** ** Source diversity and the basic trend report *)
Import Diversity.

Lemma counter_add_in w c x : In x (map fst (counter_add w c)) <-> x = w \/ In x (map fst c).
Proof.
  induction c as [|[k n] c IH]; simpl; [intuition congruence|].
  destruct (String.eqb k w) eqn:E; simpl.
  - apply String.eqb_eq in E. subst. intuition congruence.
  - rewrite IH. intuition congruence.
Qed.

Lemma Counter_keys ws x : In x (map fst (Counter ws)) <-> In x ws.
Proof.
  unfold Counter.
  assert (H : forall c, In x (map fst (fold_left (fun c w => counter_add w c) ws c)) <->
                        In x ws \/ In x (map fst c)).
  { induction ws as [|w ws IH]; intros c; simpl; [tauto|].
    rewrite IH, counter_add_in. intuition congruence. }
  rewrite H. simpl. tauto.
Qed.

Lemma nodup_incl_length {A} (l1 l2 : list A) :
  NoDup l1 -> (forall x, In x l1 -> In x l2) -> (length l1 <= length l2)%nat.
Proof.
  intros Hnd Hincl. apply submseteq_length, NoDup_submseteq; [exact Hnd|].
  intros x Hx. apply list_elem_of_In, Hincl, list_elem_of_In, Hx.
Qed.

Lemma counted_sources_length articles : (length (counted_sources articles) <= length articles)%nat.
Proof.
  induction articles as [|a rest IH]; simpl; [lia|]. rewrite length_app.
  destruct (a_source a) as [s|]; [destruct (String.eqb s EmptyString)|]; simpl; lia.
Qed.

Lemma counted_sources_nonempty articles s : In s (counted_sources articles) -> s <> EmptyString.
Proof.
  induction articles as [|a rest IH]; simpl; [tauto|]. intros H. apply in_app_or in H as [H|H]; [|apply IH, H].
  destruct (a_source a) as [s'|]; [|destruct H].
  destruct (String.eqb s' EmptyString) eqn:E; [destruct H|].
  destruct H as [<-|[]]. intros ->. discriminate.
Qed.

Lemma distribution_counts m ws k n :
  In (k, n) (most_common m (Counter ws)) -> n = count_occ string_dec ws k /\ In k ws.
Proof.
  intros H. apply most_common_in in H.
  pose proof (counter_get_in _ _ _ (Counter_nodup ws) H) as Hg.
  split.
  - rewrite <- Counter_count. unfold count_of. rewrite Hg. reflexivity.
  - apply Counter_keys, in_map_iff. exists (k, n). split; [reflexivity | exact H].
Qed.

Lemma flat_map_option_length {A B} (f : A -> option B) (l : list A) :
  (length (flat_map (fun x => match f x with Some y => [y] | None => [] end) l) <= length l)%nat.
Proof.
  induction l as [|x l IH]; simpl; [lia|]. rewrite length_app.
  destruct (f x); simpl; lia.
Qed.

Lemma counted_domains_in netloc articles dom :
  In dom (counted_domains netloc articles) <->
  exists s, In s (counted_sources articles) /\ netloc s = Some dom.
Proof.
  unfold counted_domains. rewrite in_flat_map. split.
  - intros [s [Hs Hd]]. exists s. split; [exact Hs|].
    destruct (netloc s) as [d|]; [destruct Hd as [<-|[]]; reflexivity | destruct Hd].
  - intros [s [Hs Hd]]. exists s. split; [exact Hs|]. rewrite Hd. left. reflexivity.
Qed.

Lemma source_diversity_bounds netloc articles :
  let d := calculate_source_diversity netloc articles in
  (unique_domains d <= unique_sources d <= length articles)%nat.
Proof.
  cbv zeta. unfold calculate_source_diversity. cbn [unique_domains unique_sources].
  set (srcs := counted_sources articles). split.
  - set (doms := fun l : list string =>
                   flat_map (fun s => match netloc s with Some d => [d] | None => [] end) l).
    assert (H : (length (map fst (Counter (counted_domains netloc articles))) <=
                  length (doms (map fst (Counter srcs))))%nat).
    { apply nodup_incl_length; [apply Counter_nodup|].
      intros x Hx. apply (proj1 (Counter_keys _ _)), counted_domains_in in Hx as [s [Hs Hd]].
      unfold doms. apply in_flat_map. exists s. split.
      - apply (proj2 (Counter_keys _ _)), Hs.
      - rewrite Hd. left. reflexivity. }
    rewrite length_map in H. etransitivity; [exact H|].
    unfold doms. rewrite <- (length_map fst (Counter srcs)). apply flat_map_option_length.
  - rewrite <- (length_map fst (Counter srcs)).
    transitivity (length srcs); [|apply counted_sources_length].
    apply nodup_incl_length; [apply Counter_nodup|]. intros x Hx. apply (proj1 (Counter_keys _ _)), Hx.
Qed.

(** X22: [calculate_source_diversity] reports no more distinct domains than
    distinct sources, and no more distinct sources than articles; each
    distribution holds at most 10 distinct keys, a source's entry being its
    number of articles (an article with an empty or missing source counted
    nowhere) and a domain's entry the number of counted articles whose
    source [urlparse] accepts with that netloc, every listed domain being
    the netloc of some counted source (a source on which [urlparse] raises
    is counted among the sources but gives no domain). *)
Theorem X22_source_diversity_contract netloc (articles : list article) :
  let d := calculate_source_diversity netloc articles in
  let srcs := counted_sources articles in
  (unique_domains d <= unique_sources d <= length articles)%nat /\
  (length (source_distribution d) <= 10)%nat /\ NoDup (map fst (source_distribution d)) /\
  (forall s n, In (s, n) (source_distribution d) ->
     s <> EmptyString /\ n = count_occ string_dec srcs s /\ (0 < n)%nat) /\
  (length (domain_distribution d) <= 10)%nat /\ NoDup (map fst (domain_distribution d)) /\
  (forall dom n, In (dom, n) (domain_distribution d) ->
     n = count_occ string_dec (counted_domains netloc articles) dom /\ (0 < n)%nat /\
     exists s, In s srcs /\ netloc s = Some dom).
Proof.
  cbv zeta. split; [apply source_diversity_bounds|]. unfold calculate_source_diversity.
  cbn [source_distribution domain_distribution].
  split; [apply most_common_length|]. split; [apply most_common_nodup, Counter_nodup|].
  split.
  - intros s n H. apply distribution_counts in H as [-> Hin].
    split; [apply (counted_sources_nonempty articles), Hin|]. split; [reflexivity|].
    apply count_occ_In, Hin.
  - split; [apply most_common_length|]. split; [apply most_common_nodup, Counter_nodup|].
    intros dom n H. apply distribution_counts in H as [-> Hin]. split; [reflexivity|].
    split; [apply count_occ_In, Hin|]. apply counted_domains_in, Hin.
Qed.

(** X23: [generate_trend_report] returns no trends and empty metrics for no
    articles; otherwise the metrics count every article, and report at most
    as many distinct domains as distinct sources and at most as many
    distinct sources as articles (a source on which [urlparse] raises adding
    to the sources only), with an average content length times the article
    count no larger than the total content length, and at most 15 trends.
    ([int(sum / total)] is the floor [Nat.div] of the model as long as the
    total content length stays below 2^52 characters, where the float
    quotient cannot round up to the next integer.) *)
Theorem X23_trend_report_contract netloc (articles : list article) :
  let r := generate_trend_report netloc articles in
  (articles = [] -> r_trends r = [] /\ r_metrics r = None) /\
  (articles <> [] -> exists m, r_metrics r = Some m /\
     total_articles m = length articles /\
     (r_unique_domains m <= r_unique_sources m <= total_articles m)%nat /\
     (avg_content_length m * total_articles m <=
        fold_left Nat.add (map (fun a => String.length (get_str (a_content a))) articles) 0)%nat /\
     (length (r_trends r) <= 15)%nat).
Proof.
  cbv zeta. destruct articles as [|a rest].
  - split; [intros _; split; reflexivity | intros H; congruence].
  - split; [discriminate|]. intros _.
    eexists. split; [reflexivity|]. split; [reflexivity|]. split; [|split].
    + exact (source_diversity_bounds netloc (a :: rest)).
    + rewrite Nat.mul_comm. apply Nat.Div0.mul_div_le.
    + unfold generate_trend_report. cbn [r_trends]. unfold detect_emerging_topics. rewrite length_firstn. lia.
Qed.

(** ** The enhanced trend report *)
Import Enhanced.

(** A scored trend with one to three supporting articles, and its composite
    score; a scored trend with none, and its composite score. The exact
    composite of a supported trend lies in [[0.61, 0.85]]; the bounds below
    leave room for the rounding of Python's floats (three articles of
    authority 0.9 give the float 0.8500000000000001). The composite of an
    unsupported trend, [0.4*0.5 + 0.3*0.0 + 0.3*0.5], is the float 0.35. *)
Definition supported_band (t : trend) : Prop :=
  tr_supporting t <> [] /\ (length (tr_supporting t) <= 3)%nat /\
  exists c, tr_composite t = Some c /\ (0.6 < c < 0.86)%Q.

Definition unsupported_band (t : trend) : Prop :=
  tr_supporting t = [] /\ exists c, tr_composite t = Some c /\ (c == 0.35)%Q.

Lemma score_trend_two_bands sa t :
  Forall (in_band 0.6 0.9) sa -> (length (tr_supporting t) <= 3)%nat ->
  supported_band (score_trend sa t) \/ unsupported_band (score_trend sa t).
Proof.
  intros Hsa H3. unfold supported_band, unsupported_band, score_trend. cbn [tr_supporting tr_composite].
  destruct (tr_supporting t) as [|x xs] eqn:E.
  - right. split; [reflexivity|]. eexists. split; [reflexivity|]. vm_compute. reflexivity.
  - left. split; [discriminate|]. split; [exact H3|]. eexists. split; [reflexivity|].
    cbv beta iota zeta.
    assert (Hn : (1 <= qlen (x :: xs) <= 3)%Q).
    { unfold qlen, Qle. cbn [Qnum Qden inject_Z length] in *. lia. }
    assert (Hp : (0 < qlen (x :: xs))%Q) by (apply qlen_pos; discriminate).
    set (sup := x :: xs) in *.
    assert (Hr : (py_min (qlen sup / qlen sup) 1 == 1)%Q).
    { assert (H1 : (qlen sup / qlen sup == 1)%Q) by (apply qlen_div_self; discriminate).
      destruct (py_min_cases (qlen sup / qlen sup) 1) as [-> | ->]; [exact H1 | reflexivity]. }
    assert (Hf : (1 # 5 <= py_min (qlen sup / 5) 1 <= 3 # 5)%Q).
    { assert (H1 : (1 # 5 <= qlen sup / 5)%Q) by (apply Qle_shift_div_l; [reflexivity | Lqa.lra]).
      assert (H2 : (qlen sup / 5 <= 3 # 5)%Q) by (apply Qle_shift_div_r; [reflexivity | Lqa.lra]).
      unfold py_min. destruct (Qlt_bool 1 (qlen sup / 5)) eqn:Ef.
      - apply Qlt_bool_iff in Ef. Lqa.lra.
      - split; assumption. }
    set (tot := fold_left (fun acc a => acc + get_default (dict_get sa (get_str (a_source a))) 0.5) sup 0).
    assert (Ha : (0.5 <= tot / qlen sup <= 0.9)%Q).
    { destruct (authority_total_band sa sup 0 Hsa) as [H1 H2]. fold tot in H1, H2. split.
      - apply Qle_shift_div_l; [exact Hp|]. Lqa.lra.
      - apply Qle_shift_div_r; [exact Hp|]. Lqa.lra. }
    set (r := py_min (qlen sup / qlen sup) 1) in *.
    set (f := py_min (qlen sup / 5) 1) in *.
    set (a := tot / qlen sup) in *.
    split; Lqa.lra.
Qed.

Definition ckey (t : trend) : Q := get_default (tr_composite t) 0.

Lemma two_band_split (l : list trend) :
  StronglySorted (fun x y => ckey y <= ckey x)%Q l ->
  Forall (fun t => supported_band t \/ unsupported_band t) l ->
  exists l1 l2, l = l1 ++ l2 /\ Forall supported_band l1 /\ Forall unsupported_band l2.
Proof.
  induction 1 as [|x l Hs IH Hx]; intros Hall.
  - exists [], []. split; [reflexivity|]. split; constructor.
  - inversion Hall as [|? ? Hb Hrest]; subst.
    destruct Hb as [Hsup|Hun].
    + destruct (IH Hrest) as (l1 & l2 & -> & H1 & H2).
      exists (x :: l1), l2. split; [reflexivity|]. split; [constructor; assumption | exact H2].
    + exists [], (x :: l). split; [reflexivity|]. split; [constructor|]. constructor; [exact Hun|].
      apply List.Forall_forall. intros y Hy.
      rewrite List.Forall_forall in Hrest, Hx. destruct (Hrest y Hy) as [Hsy|Huy]; [|exact Huy].
      exfalso. specialize (Hx y Hy). destruct Hun as [_ [c [Hc Hc35]]].
      destruct Hsy as [_ [_ [d [Hd Hd61]]]].
      unfold ckey in Hx. rewrite Hc, Hd in Hx. simpl in Hx. Lqa.lra.
Qed.

Lemma llm_trends_short llm_reply articles :
  Forall (fun t => (length (tr_supporting t) <= 3)%nat) (analyze_trends_with_llm llm_reply articles).
Proof.
  unfold analyze_trends_with_llm. destruct articles as [|a rest]; [constructor|].
  destruct (llm_context_ok _); [|constructor]. destruct llm_reply as [ts|]; [|constructor].
  apply List.Forall_map, List.Forall_forall. intros nk _. simpl.
  unfold llm_supporting. rewrite length_firstn. lia.
Qed.

(** X24: [generate_enhanced_trend_report] returns no report only for no
    articles; otherwise it lists at most 15 trends (and counts at most 15
    basic ones), counts no LLM trend when the model's reply is unavailable
    or when one of the first ten articles lacks its title or content, and
    lists first the trends with supporting articles, each scored above 0.6
    and below 0.86, then those without, each scored exactly 0.35: every
    frequency-based topic ranks below every LLM trend that found a
    supporting article. *)
Theorem X24_enhanced_report_contract llm_reply (articles : list article) :
  match generate_enhanced_trend_report llm_reply articles with
  | None => articles = []
  | Some (trends, llm_count, basic_count) =>
      (length trends <= 15)%nat /\ (basic_count <= 15)%nat /\
      (llm_context_ok articles = false -> llm_count = 0%nat) /\
      (llm_reply = None -> llm_count = 0%nat) /\
      exists l1 l2, trends = l1 ++ l2 /\ Forall supported_band l1 /\ Forall unsupported_band l2
  end.
Proof.
  destruct articles as [|a0 rest]; [reflexivity|].
  unfold generate_enhanced_trend_report. cbv beta iota zeta.
  split; [rewrite length_firstn; lia|].
  split; [unfold detect_emerging_topics; rewrite length_firstn; lia|].
  split; [intros H; unfold analyze_trends_with_llm; rewrite H; reflexivity|].
  split; [intros ->; unfold analyze_trends_with_llm; destruct (llm_context_ok _); reflexivity|].
  assert (Hshort : Forall (fun t => (length (tr_supporting t) <= 3)%nat)
            (map topic_as_trend (detect_emerging_topics (a0 :: rest)) ++
             analyze_trends_with_llm llm_reply (a0 :: rest))).
  { apply List.Forall_app. split; [|apply llm_trends_short].
    apply List.Forall_map, List.Forall_forall. intros t _. simpl. lia. }
  unfold calculate_trend_scores.
  destruct (map topic_as_trend _ ++ analyze_trends_with_llm _ _) as [|t0 ts0].
  - exists [], []. split; [reflexivity|]. split; constructor.
  - set (sa := source_authority (a0 :: rest)).
    set (scored := sort_desc _ (map (score_trend sa) (t0 :: ts0))).
    assert (Hbands : Forall (fun t => supported_band t \/ unsupported_band t) scored).
    { unfold scored. eapply Forall_perm; [apply sort_desc_perm|].
      apply List.Forall_map. eapply List.Forall_impl; [|exact Hshort].
      intros t Ht. apply score_trend_two_bands; [apply source_authority_band | exact Ht]. }
    assert (Hsorted : StronglySorted (fun x y => ckey y <= ckey x)%Q scored).
    { apply Sorted_StronglySorted; [intros x y z H1 H2; Lqa.lra|].
      eapply Sorted_weaken; [|apply sort_desc_sorted].
      - intros x y H. apply Qlt_bool_false, H.
      - intros x y. apply Qlt_bool_asym. }
    destruct (two_band_split scored Hsorted Hbands) as (l1 & l2 & -> & H1 & H2).
    exists (firstn 15 l1), (firstn (15 - length l1) l2). split; [apply firstn_app|].
    split; apply Forall_firstn'; assumption.
Qed.

(** ** [get_interest_over_time] *)
Import Interest.

Lemma str_ltb_lt x y : str_ltb x y = true <-> OrdersEx.String_as_OT.lt x y.
Proof.
  unfold str_ltb, OrdersEx.String_as_OT.lt.
  destruct (OrdersEx.String_as_OT.compare x y); split; congruence.
Qed.

Lemma str_lt_irrefl x : ~ OrdersEx.String_as_OT.lt x x.
Proof. apply (StrictOrder_Irreflexive (R := OrdersEx.String_as_OT.lt)). Qed.

Lemma str_lt_trans x y z :
  OrdersEx.String_as_OT.lt x y -> OrdersEx.String_as_OT.lt y z -> OrdersEx.String_as_OT.lt x z.
Proof. apply (StrictOrder_Transitive (R := OrdersEx.String_as_OT.lt)). Qed.

Lemma str_ltb_asym x y : str_ltb x y = true -> str_ltb y x = false.
Proof.
  intros H. apply str_ltb_lt in H. destruct (str_ltb y x) eqn:E; [|reflexivity].
  apply str_ltb_lt in E. exfalso. apply (str_lt_irrefl x), (str_lt_trans _ _ _ H E).
Qed.

Lemma str_ltb_total x y : str_ltb x y = false -> str_ltb y x = false -> x = y.
Proof.
  intros H1 H2. destruct (OrdersEx.String_as_OT.compare_spec x y) as [E|E|E]; [exact E| |].
  - apply str_ltb_lt in E. congruence.
  - apply str_ltb_lt in E. congruence.
Qed.

Lemma str_le_trans x y z : str_ltb y x = false -> str_ltb z y = false -> str_ltb z x = false.
Proof.
  intros H1 H2. destruct (str_ltb z x) eqn:E; [|reflexivity]. apply str_ltb_lt in E.
  destruct (OrdersEx.String_as_OT.compare_spec x y) as [Exy|Exy|Exy].
  - subst. apply str_ltb_lt in E. congruence.
  - assert (Hzy : OrdersEx.String_as_OT.lt z y) by (apply (str_lt_trans _ x); assumption).
    apply str_ltb_lt in Hzy. congruence.
  - apply str_ltb_lt in Exy. congruence.
Qed.

Lemma insert_asc_sorted {A} (ltb : A -> A -> bool) x l :
  (forall a b, ltb a b = true -> ltb b a = false) ->
  Sorted (fun a b => ltb b a = false) l -> Sorted (fun a b => ltb b a = false) (insert_asc ltb x l).
Proof.
  intros Hasym. induction 1 as [|y ys Hs IH Hhd]; simpl.
  - repeat constructor.
  - destruct (ltb x y) eqn:E.
    + constructor; [constructor; assumption|]. constructor. apply Hasym, E.
    + constructor; [exact IH|].
      destruct ys as [|z zs]; simpl; [constructor; exact E|].
      inversion Hhd; subst. destruct (ltb x z); constructor; assumption.
Qed.

Lemma sort_asc_sorted {A} (ltb : A -> A -> bool) l :
  (forall a b, ltb a b = true -> ltb b a = false) ->
  Sorted (fun a b => ltb b a = false) (sort_asc ltb l).
Proof.
  intros Hasym. unfold sort_asc.
  assert (H : forall acc, Sorted (fun a b => ltb b a = false) acc ->
             Sorted (fun a b => ltb b a = false) (fold_left (fun acc x => insert_asc ltb x acc) l acc)).
  { induction l as [|x l IH]; intros acc Hacc; simpl; [exact Hacc|].
    apply IH, insert_asc_sorted; assumption. }
  apply H. constructor.
Qed.

Lemma sorted_perm_unique (l1 l2 : list string) :
  StronglySorted (fun a b => str_ltb b a = false) l1 ->
  StronglySorted (fun a b => str_ltb b a = false) l2 ->
  Permutation l1 l2 -> l1 = l2.
Proof.
  intros H1. revert l2. induction H1 as [|x r1 Hs1 IH Hx1]; intros l2 H2 Hp.
  - symmetry. apply Permutation_nil, Hp.
  - destruct H2 as [|y r2 Hs2 Hy2]; [apply Permutation_sym, Permutation_nil in Hp; discriminate|].
    assert (Hxy : x = y).
    { assert (Hx : In x (y :: r2)) by (eapply Permutation_in; [exact Hp | left; reflexivity]).
      assert (Hy : In y (x :: r1)) by (eapply Permutation_in; [apply Permutation_sym, Hp | left; reflexivity]).
      destruct Hx as [->|Hx]; [reflexivity|]. destruct Hy as [->|Hy]; [reflexivity|].
      rewrite List.Forall_forall in Hx1, Hy2.
      apply str_ltb_total; [apply Hy2, Hx | apply Hx1, Hy]. }
    subst y. f_equal. apply IH; [exact Hs2|]. eapply Permutation_cons_inv, Hp.
Qed.

Lemma sort_asc_str_perm (l l' : list string) :
  Permutation l l' -> sort_asc str_ltb l = sort_asc str_ltb l'.
Proof.
  intros Hp. apply sorted_perm_unique.
  - apply Sorted_StronglySorted; [intros a b c H1 H2; apply (str_le_trans _ b); assumption|].
    apply sort_asc_sorted, str_ltb_asym.
  - apply Sorted_StronglySorted; [intros a b c H1 H2; apply (str_le_trans _ b); assumption|].
    apply sort_asc_sorted, str_ltb_asym.
  - rewrite sort_asc_perm. rewrite Hp. symmetry. apply sort_asc_perm.
Qed.

Lemma cache_key_perm (keywords keywords' : list string) timeframe :
  Permutation keywords keywords' -> cache_key keywords timeframe = cache_key keywords' timeframe.
Proof. intros Hp. unfold cache_key. rewrite (sort_asc_str_perm _ _ Hp). reflexivity. Qed.

Lemma fetch_loop_waits {Series} (outcome : nat -> @fetch_outcome Series) max_retries fuel :
  forall attempt, let ws := snd (fetch_loop outcome max_retries attempt fuel) in
  ws = map (fun i => 2 ^ i * 3)%nat (seq attempt (length ws)) /\
  (ws = [] \/ attempt + length ws <= max_retries - 1)%nat.
Proof.
  induction fuel as [|fuel IH]; intros attempt; simpl; [split; [reflexivity | left; reflexivity]|].
  destruct (outcome attempt) as [cols| |msg]; simpl; [split; [reflexivity | left; reflexivity]..|].
  destruct (rate_limited msg && (attempt <? max_retries - 1))%nat eqn:E;
    [|split; [reflexivity | left; reflexivity]].
  apply andb_true_iff in E as [_ E]. apply Nat.ltb_lt in E.
  destruct (IH (S attempt)) as [Hws Hlen].
  destruct (fetch_loop outcome max_retries (S attempt) fuel) as [r ws]. simpl in *.
  split; [rewrite Hws at 1; reflexivity|]. right. destruct Hlen as [->|Hlen]; simpl; lia.
Qed.

Lemma fetch_loop_prefix {Series} (outcome outcome' : nat -> @fetch_outcome Series) max_retries fuel attempt :
  (forall i, attempt <= i < attempt + fuel -> outcome i = outcome' i)%nat ->
  fetch_loop outcome max_retries attempt fuel = fetch_loop outcome' max_retries attempt fuel.
Proof.
  revert attempt. induction fuel as [|fuel IH]; intros attempt Hsame; simpl; [reflexivity|].
  rewrite (Hsame attempt) by lia.
  destruct (outcome' attempt) as [cols| |msg]; [reflexivity..|].
  rewrite (IH (S attempt)) by (intros i Hi; apply Hsame; lia). reflexivity.
Qed.

(** X25: one call of [get_interest_over_time] sleeps, between attempts, the
    backoff [3, 6, 12, ...] seconds ([(2 ** attempt) * 3]), at most
    [max_retries - 1] times; it depends only on the outcomes of attempts
    [0 .. max_retries - 1], so it makes no request at all when
    [max_retries = 0]. *)
Theorem X25_retry_backoff {Series} available keywords timeframe max_retries cache_ttl cleanup_time check_time
    store_time (outcome : nat -> @fetch_outcome Series) c :
  let ws := snd (get_interest_over_time available keywords timeframe max_retries cache_ttl cleanup_time
                   check_time store_time outcome c) in
  ws = map (fun i => 2 ^ i * 3)%nat (seq 0 (length ws)) /\ (length ws <= max_retries - 1)%nat /\
  (forall outcome', (forall i, i < max_retries -> outcome i = outcome' i)%nat ->
     get_interest_over_time available keywords timeframe max_retries cache_ttl cleanup_time
       check_time store_time outcome' c =
     get_interest_over_time available keywords timeframe max_retries cache_ttl cleanup_time
       check_time store_time outcome c).
Proof.
  cbv zeta. unfold get_interest_over_time.
  destruct (fetch_loop_waits outcome max_retries max_retries 0) as [Hws Hlen].
  cbv zeta in Hws, Hlen.
  split; [|split].
  - destruct (negb available); [reflexivity|].
    destruct (cleanup_expired_cache _ _ _ !! _) as [[d ts]|];
      [destruct (Qlt_bool _ _); [reflexivity|]|];
      destruct (fetch_loop outcome max_retries 0 max_retries) as [[cols|] ws]; exact Hws.
  - destruct (negb available); [simpl; lia|].
    destruct (cleanup_expired_cache _ _ _ !! _) as [[d ts]|];
      [destruct (Qlt_bool _ _); [simpl; lia|]|];
      destruct (fetch_loop outcome max_retries 0 max_retries) as [[cols|] ws];
      simpl in *; destruct Hlen as [->|Hlen]; simpl; lia.
  - intros outcome' Hsame.
    rewrite (fetch_loop_prefix outcome' outcome max_retries max_retries 0)
      by (intros i Hi; symmetry; apply Hsame; lia).
    reflexivity.
Qed.

(** X26: a cached result of [get_interest_over_time] still within its time
    to live at the cleanup and at the age check is returned as it is, with
    no request and no sleep, for the same keywords in any order and the
    same timeframe. *)
Theorem X26_cache_hit {Series} (keywords keywords' : list string) timeframe max_retries cache_ttl
    cleanup_time check_time store_time (outcome : nat -> @fetch_outcome Series) c
    (cached : interest_result) (timestamp : Q) :
  Permutation keywords keywords' ->
  c !! cache_key keywords timeframe = Some (cached, timestamp) ->
  (cleanup_time - timestamp <= cache_ttl)%Q ->
  (check_time - timestamp < cache_ttl)%Q ->
  get_interest_over_time true keywords' timeframe max_retries cache_ttl cleanup_time check_time
    store_time outcome c =
  (Some cached, cleanup_expired_cache cleanup_time cache_ttl c, []).
Proof.
  intros Hp Hc Hclean Hcheck. unfold get_interest_over_time. simpl negb. cbv iota zeta.
  rewrite <- (cache_key_perm _ _ timeframe Hp), cleanup_lookup.
  match goal with
  | |- context [match ?L with Some _ => _ | None => None end] =>
      replace L with (Some (cached, timestamp)) by (symmetry; exact Hc)
  end.
  assert (E1 : Qlt_bool cache_ttl (cleanup_time - timestamp) = false).
  { destruct (Qlt_bool cache_ttl (cleanup_time - timestamp)) eqn:E; [|reflexivity].
    apply Qlt_bool_iff in E. exfalso. apply (Qlt_not_le _ _ E Hclean). }
  assert (E2 : Qlt_bool (check_time - timestamp) cache_ttl = true) by (apply Qlt_bool_iff, Hcheck).
  rewrite E1, E2. reflexivity.
Qed.

Definition collision_first : @interest_result nat * @cache (@interest_result nat) :=
  let '(r, c, _) := get_interest_over_time true ["b"; "a"]%string "today 3-m" 3 14400 0 0 0
                      (fun _ => Fetched [("a", 1%nat); ("b", 2%nat)]%string) ∅ in
  (match r with Some r => r | None => mkInterestResult [] EmptyString [] end, c).

(** X27: the cache key joins the sorted keywords with [','] and the
    timeframe with ['_'], so keyword lists that differ can share a key:
    after fetching [['b', 'a']], a request for the single keyword ['a,b']
    ten seconds later is answered from the cache with the result of
    [['b', 'a']], whose ['keywords'] are not the ones requested. *)
Theorem X27_cache_key_collision :
  cache_key ["a,b"]%string "today 3-m" = cache_key ["b"; "a"]%string "today 3-m" /\
  i_keywords (fst collision_first) = ["b"; "a"]%string /\
  fst (fst (get_interest_over_time true ["a,b"]%string "today 3-m" 3 14400 10 10 10
              (fun _ => Fetched [("a,b", 7%nat)]%string) (snd collision_first))) =
  Some (fst collision_first).
Proof. vm_compute. split; [reflexivity|]. split; reflexivity. Qed.

Lemma X26_cache_hit_witness :
  Permutation ["b"; "a"]%string ["a"; "b"]%string /\
  snd collision_first !! cache_key ["b"; "a"]%string "today 3-m" = Some (fst collision_first, 0%Q) /\
  (10 - 0 <= 14400)%Q /\ (10 - 0 < 14400)%Q /\
  get_interest_over_time true ["a"; "b"]%string "today 3-m" 3 14400 10 10 10
    (fun _ => @FetchedEmpty nat) (snd collision_first) =
  (Some (fst collision_first), cleanup_expired_cache 10 14400 (snd collision_first), []).
Proof.
  assert (Hp : Permutation ["b"; "a"]%string ["a"; "b"]%string) by apply perm_swap.
  assert (Hc : snd collision_first !! cache_key ["b"; "a"]%string "today 3-m" = Some (fst collision_first, 0%Q))
    by (vm_compute; reflexivity).
  assert (H1 : (10 - 0 <= 14400)%Q) by (apply Qle_bool_iff; vm_compute; reflexivity).
  assert (H2 : (10 - 0 < 14400)%Q) by (apply Qlt_bool_iff; vm_compute; reflexivity).
  split; [exact Hp|]. split; [exact Hc|]. split; [exact H1|]. split; [exact H2|].
  exact (X26_cache_hit _ _ _ 3 14400 10 10 10 (fun _ => @FetchedEmpty nat) _ _ _ Hp Hc H1 H2).
Defined.


End Extras.
